(** * The decision core of the AutoML decision engine (src/app.py)

    A shallow embedding of the two helper functions of [app.py],
    [check_seasonality] and [analyze_dataset], together with the part of
    the pandas data model they touch.  The pandas and statsmodels entry
    points the functions call ([pd.to_datetime], [pd.to_numeric], [acf]),
    Python's [repr] and the wording of the exceptions that pandas raises
    on its own account are taken as parameters of a section; everything
    the repository itself writes is a definition below. *)

From Stdlib Require Import ZArith NArith QArith List Sorted Permutation String Ascii Bool Lia.
From Stdlib Require Import DecimalString.
From Stdlib Require Import PrimFloat Uint63.
Import ListNotations.

Local Open Scope string_scope.
Local Open Scope Z_scope.

(** ** Exceptions and fallible computations *)

Module Py.

Inductive exn_kind : Set :=
  | KeyError | ValueError | TypeError | IndexError
  | AttributeError | OverflowError | ZeroDivisionError
  | OutOfBoundsDatetime | OtherError.

(** An exception value: its class and the text that [str(e)] gives. *)
Record exn : Set := mkExn { kind : exn_kind; str : string }.

Inductive result (A : Type) : Type :=
  | Ok (a : A)
  | Raise (e : exn).
Arguments Ok {A} a.
Arguments Raise {A} e.

Definition bind {A B : Type} (c : result A) (k : A -> result B) : result B :=
  match c with
  | Ok a => k a
  | Raise e => Raise e
  end.

(** [try: c  except Exception as e: h e] *)
Definition try_except {A : Type} (c : result A) (h : exn -> A) : A :=
  match c with
  | Ok a => a
  | Raise e => h e
  end.

(** [str(n)] and [f"{n}"] for an int. *)
Definition str_int (n : Z) : string :=
  NilZero.string_of_int (Z.to_int n).

(** [sep.join(parts)] *)
Fixpoint join (sep : string) (parts : list string) : string :=
  match parts with
  | [] => ""
  | [p] => p
  | p :: rest => p ++ sep ++ join sep rest
  end.

(** Digits of a numeral, least significant first, with a comma after
    every third digit that has a successor: the grouping of [f"{n:,}"]. *)
Fixpoint group3 (digits_rev : list ascii) (k : nat) : list ascii :=
  match digits_rev with
  | [] => []
  | d :: rest =>
      match k, rest with
      | 2%nat, _ :: _ => d :: ","%char :: group3 rest 0
      | _, _ => d :: group3 rest (S k)
      end
  end.

(** [f"{n:,}"] for an int: the sign, then the digits in groups of three. *)
Definition str_int_grouped (n : Z) : string :=
  let body :=
    string_of_list_ascii
      (rev (group3 (rev (list_ascii_of_string (str_int (Z.abs n)))) 0)) in
  if n <? 0 then "-" ++ body else body.

End Py.

Import Py.

Notation "'let*' x ':=' c 'in' k" := (Py.bind c (fun x => k))
  (at level 10, x name, c at level 100, k at level 200).

(** ** The pandas data model *)

Inductive dtype : Set :=
  | DObject | DInt64 | DFloat64 | DBool | DDatetime64.

Definition dtype_eqb (a b : dtype) : bool :=
  match a, b with
  | DObject, DObject | DInt64, DInt64 | DFloat64, DFloat64
  | DBool, DBool | DDatetime64, DDatetime64 => true
  | _, _ => false
  end.

(** A column, by the dtype pandas gives it.  An object column holds
    strings with [None] for a missing entry, a datetime column holds
    instants in nanoseconds since the epoch with [None] for [NaT], and a
    float column marks a missing entry by NaN. *)
Inductive Series : Type :=
  | ObjectSeries (vals : list (option string))
  | Int64Series (vals : list Z)
  | Float64Series (vals : list float)
  | BoolSeries (vals : list bool)
  | DatetimeSeries (vals : list (option Z)).

Definition Series_dtype (s : Series) : dtype :=
  match s with
  | ObjectSeries _ => DObject
  | Int64Series _ => DInt64
  | Float64Series _ => DFloat64
  | BoolSeries _ => DBool
  | DatetimeSeries _ => DDatetime64
  end.

Definition Series_len (s : Series) : N :=
  N.of_nat
    match s with
    | ObjectSeries v => List.length v
    | Int64Series v => List.length v
    | Float64Series v => List.length v
    | BoolSeries v => List.length v
    | DatetimeSeries v => List.length v
    end.

(** The entries that are present, in order. *)
Fixpoint present {A : Type} (l : list (option A)) : list A :=
  match l with
  | [] => []
  | Some a :: r => a :: present r
  | None :: r => present r
  end.

(** The distinct values of a list in order of first appearance; [seen]
    holds the values met so far. *)
Fixpoint distinct {A : Type} (eqb : A -> A -> bool) (seen l : list A) : list A :=
  match l with
  | [] => []
  | a :: r =>
      if existsb (eqb a) seen then distinct eqb seen r
      else a :: distinct eqb (a :: seen) r
  end.

Definition count_distinct {A : Type} (eqb : A -> A -> bool) (l : list A) : Z :=
  Z.of_nat (List.length (distinct eqb [] l)).

(** [Series.nunique()]: the number of distinct entries, missing ones
    not counted. *)
Definition nunique (s : Series) : Z :=
  match s with
  | ObjectSeries v => count_distinct String.eqb (present v)
  | Int64Series v => count_distinct Z.eqb v
  | Float64Series v =>
      count_distinct PrimFloat.eqb (filter (fun x => negb (PrimFloat.is_nan x)) v)
  | BoolSeries v => count_distinct Bool.eqb v
  | DatetimeSeries v => count_distinct Z.eqb (present v)
  end.

(** A table: the length of its index and its labelled columns in
    order. *)
Record DataFrame : Type := mkDataFrame {
  index_len : N;
  columns : list (string * Series)
}.

(** In a well-formed table every column is as long as the index. *)
Definition well_formed (df : DataFrame) : Prop :=
  Forall (fun p => Series_len (snd p) = index_len df) (columns df).

(** [df.columns] *)
Definition labels (df : DataFrame) : list string := map fst (columns df).

(** [len(df)] *)
Definition len (df : DataFrame) : Z := Z.of_N (index_len df).

(** What [df[c]] evaluates to: one column, or a sub-table when the label
    [c] occurs more than once. *)
Inductive item : Type :=
  | OneColumn (s : Series)
  | SubFrame (cols : list Series).

Definition has_label (c : string) (p : string * Series) : bool :=
  String.eqb (fst p) c.

(** The column [p] after [df[c] = s]. *)
Definition replace_at (c : string) (s : Series) (p : string * Series)
  : string * Series :=
  if has_label c p then (fst p, s) else p.

(** [df[c] = s]: every column labelled [c] is replaced in place; a new
    label is appended. *)
Definition setitem (df : DataFrame) (c : string) (s : Series) : DataFrame :=
  if existsb (has_label c) (columns df)
  then mkDataFrame (index_len df) (map (replace_at c s) (columns df))
  else mkDataFrame (index_len df) (columns df ++ [(c, s)]).

Definition NS_PER_DAY : Z := 86400000000000.

(** [Series.max()] and [Series.min()] of a datetime column skip [NaT]
    and give [NaT] when nothing is left. *)
Definition extremum (pick : Z -> Z -> Z) (stamps : list (option Z)) : option Z :=
  match present stamps with
  | [] => None
  | t :: ts => Some (fold_left pick ts t)
  end.

(** The largest [Timedelta], in nanoseconds: a [Timedelta] is an int64
    count of nanoseconds. *)
Definition TIMEDELTA_MAX : Z := 2 ^ 63 - 1.

(** [td.days]: the whole days of a [Timedelta] given in nanoseconds, NaN
    (here [None]) for [NaT]. *)
Definition days (td : option Z) : option Z :=
  match td with
  | Some ns => Some (ns / NS_PER_DAY)
  | None => None
  end.

(** The wording of the exceptions that pandas raises on its own account
    where this code can meet them.  The texts differ from one version of
    the library to the next. *)
Record wording : Set := mkWording {
  (** [str(e)] of the [ValueError] of [bool(series)] *)
  truth_value_ambiguous : string;
  (** [str(e)] of the [OutOfBoundsDatetime] of a difference of two
      [Timestamp]s that is no [Timedelta] *)
  timedelta_out_of_bounds : string
}.

(** The least magnitude that rounds to no finite binary64:
    2^1024 - 2^970. *)
Definition DBL_OVERFLOW : Z := 2 ^ 1024 - 2 ^ 970.

(** [a / b] on ints.  Python gives the binary64 nearest to the exact
    quotient and raises when that is out of range.  The quotient is kept
    exact here: for a divisor below 2^53 (a [Timedelta] has fewer than
    106752 days) no quotient above 1/4 rounds down to 0.25, so the test
    [ratio > 0.25] of gate 4 has the same outcome on either. *)
Definition true_div (a b : Z) : result Q :=
  if b =? 0 then Raise (mkExn ZeroDivisionError "division by zero")
  else if DBL_OVERFLOW * Z.abs b <=? Z.abs a
  then Raise (mkExn OverflowError "integer division result too large for a float")
  else Ok (inject_Z a / inject_Z b)%Q.

Definition Qgtb (x y : Q) : bool := negb (Qle_bool x y).

(** The binary64 value of the literal [0.3]. *)
Definition threshold_acf : float := 0x1.3333333333333p-2%float.

(** [x > 0.3] on binary64; false on NaN. *)
Definition above_threshold (x : float) : bool := PrimFloat.ltb threshold_acf x.

(** The caller's mapping of the score to a tool ([if score >= 1]). *)
Inductive tool : Set := AzureMachineLearning | PowerBIAutoML.

Definition recommend (score : Z) : tool :=
  if 1 <=? score then AzureMachineLearning else PowerBIAutoML.

(** ** A concrete library

    Small stand-ins for the four library functions, on which the
    definitions above can be run: ISO dates for [pd.to_datetime],
    decimal numerals for [pd.to_numeric], and the autocorrelation sums
    taken directly for [acf]. *)

Module Fixture.

Definition repr (s : string) : string := "'" ++ s ++ "'".

Definition digit (c : ascii) : option Z :=
  let n := Z.of_nat (nat_of_ascii c) in
  if (48 <=? n) && (n <=? 57) then Some (n - 48) else None.

Fixpoint numeral (acc : Z) (cs : list ascii) : option Z :=
  match cs with
  | [] => Some acc
  | c :: rest =>
      match digit c with
      | Some d => numeral (10 * acc + d) rest
      | None => None
      end
  end.

Definition number (cs : list ascii) : option Z :=
  match cs with
  | [] => None
  | _ => numeral 0 cs
  end.

(** Days from 1970-01-01 to the given day of the proleptic Gregorian
    calendar. *)
Definition days_from_civil (y m d : Z) : Z :=
  let y' := if m <=? 2 then y - 1 else y in
  let era := y' / 400 in
  let yoe := y' - era * 400 in
  let doy := (153 * (if 2 <? m then m - 3 else m + 9) + 2) / 5 + d - 1 in
  let doe := yoe * 365 + yoe / 4 - yoe / 100 + doy in
  era * 146097 + doe - 719468.

(** The instant of a date written [YYYY-MM-DD]. *)
Definition parse_date (s : string) : option Z :=
  match list_ascii_of_string s with
  | [y1; y2; y3; y4; "-"%char; m1; m2; "-"%char; d1; d2] =>
      match number [y1; y2; y3; y4], number [m1; m2], number [d1; d2] with
      | Some y, Some m, Some d =>
          if (1 <=? m) && (m <=? 12) && (1 <=? d) && (d <=? 31)
          then Some (days_from_civil y m d * NS_PER_DAY)
          else None
      | _, _, _ => None
      end
  | _ => None
  end.

Fixpoint parse_dates (vals : list (option string)) : result (list (option Z)) :=
  match vals with
  | [] => Ok []
  | None :: rest => let* ts := parse_dates rest in Ok (None :: ts)
  | Some s :: rest =>
      match parse_date s with
      | Some t => let* ts := parse_dates rest in Ok (Some t :: ts)
      | None => Raise (mkExn ValueError ("Unknown datetime string format, unable to parse: " ++ s))
      end
  end.

Definition to_datetime (s : Series) : result (list (option Z)) :=
  match s with
  | ObjectSeries v => parse_dates v
  | DatetimeSeries v => Ok v
  | Int64Series v => Ok (map Some v)
  | Float64Series _ | BoolSeries _ =>
      Raise (mkExn TypeError "dtype cannot be converted to datetime64[ns]")
  end.

Definition nan : float := PrimFloat.div 0%float 0%float.

(** The two texts as pandas 2.2 has them. *)
Definition pandas_says : wording :=
  mkWording
    "The truth value of a Series is ambiguous. Use a.empty, a.bool(), a.item(), a.any() or a.all()."
    "Result is too large for pandas.Timedelta. Convert inputs to datetime.datetime with 'Timestamp.to_pydatetime()' before subtracting.".

(** The binary64 value of an int below 2^63 in magnitude. *)
Definition float_of_Z (z : Z) : float :=
  if z <? 0 then PrimFloat.opp (PrimFloat.of_uint63 (Uint63.of_Z (- z)))
  else PrimFloat.of_uint63 (Uint63.of_Z z).

Definition parse_float (s : string) : float :=
  match number (list_ascii_of_string s) with
  | Some z => float_of_Z z
  | None => nan
  end.

Definition to_numeric (s : Series) : result (list float) :=
  match s with
  | ObjectSeries v =>
      Ok (map (fun o => match o with Some x => parse_float x | None => nan end) v)
  | Int64Series v => Ok (map float_of_Z v)
  | Float64Series v => Ok v
  | BoolSeries v => Ok (map (fun b : bool => if b then 1%float else 0%float) v)
  | DatetimeSeries v =>
      Ok (map (fun o => match o with Some t => float_of_Z t | None => nan end) v)
  end.

Definition fsum (xs : list float) : float :=
  fold_left PrimFloat.add xs 0%float.

Fixpoint dot (xs ys : list float) : float :=
  match xs, ys with
  | x :: xs', y :: ys' => PrimFloat.add (PrimFloat.mul x y) (dot xs' ys')
  | _, _ => 0%float
  end.

(** The autocorrelation at lags 0 to [nlags]: the lagged products of the
    deviations from the mean over their sum of squares. *)
Definition acf (xs : list float) (nlags : Z) : result (list float) :=
  let n := float_of_Z (Z.of_nat (List.length xs)) in
  let mean := PrimFloat.div (fsum xs) n in
  let dev := map (fun x => PrimFloat.sub x mean) xs in
  let c0 := dot dev dev in
  Ok (map (fun k => PrimFloat.div (dot dev (skipn k dev)) c0)
          (seq 0 (Z.to_nat (nlags + 1)))).

(** A library whose date parser and autocorrelation always fail. *)
Definition failing_to_datetime (_ : Series) : result (list (option Z)) :=
  Raise (mkExn ValueError "day is out of range for month").

Definition failing_acf (_ : list float) (_ : Z) : result (list float) :=
  Raise (mkExn ValueError "array must not contain infs or NaNs").

(** *** Tables *)

(** The [k]-th day of January 2024, written as in a CSV file. *)
Definition iso_day (k : Z) : string :=
  "2024-01-" ++ (if k <? 10 then "0" else "") ++ str_int k.

(** Eight weeks of daily sales that repeat with period 7, with the
    price of the day. *)
Definition weekly_dates : list (option string) :=
  map (fun k => Some (iso_day (1 + Z.of_nat k mod 28))) (seq 0 56).

Definition weekly_sales : list Z :=
  map (fun k => 10 * (Z.of_nat k mod 7)) (seq 0 56).

Definition small_shop : DataFrame :=
  mkDataFrame 56
    [ ("date", ObjectSeries weekly_dates);
      ("sales", Int64Series weekly_sales);
      ("price", Int64Series (repeat 5 56)) ].

(** Two rows, 100 days apart. *)
Definition quarter : DataFrame :=
  mkDataFrame 2
    [ ("date", ObjectSeries [Some "2024-01-01"; Some "2024-04-10"]);
      ("sales", Int64Series [120; 80]) ].

Definition quarter_stamps : list (option Z) :=
  [Some (19723 * NS_PER_DAY); Some (19823 * NS_PER_DAY)].

(** Five columns and no row. *)
Definition no_rows : DataFrame :=
  mkDataFrame 0
    [ ("date", ObjectSeries []);
      ("sales", Int64Series []);
      ("price", Float64Series []);
      ("promo", BoolSeries []);
      ("store", ObjectSeries []) ].

(** Two rows with a datetime column whose instants, 1688-01-01 and
    2101-01-01, lie more than 2^63 nanoseconds apart. *)
Definition far_apart : DataFrame :=
  mkDataFrame 2
    [ ("date", DatetimeSeries [Some (-102998 * NS_PER_DAY);
                               Some (47847 * NS_PER_DAY)]);
      ("sales", Int64Series [120; 80]) ].

(** Two rows whose dates are not dates. *)
Definition undated : DataFrame :=
  mkDataFrame 2
    [ ("date", ObjectSeries [Some "soon"; Some "later"]);
      ("sales", Int64Series [120; 80]) ].

(** Twelve rows with three categorical columns: 3 regions, 12 stores
    and 11 articles. *)
Definition named (prefix : string) (ks : list Z) : list (option string) :=
  map (fun k => Some (prefix ++ str_int k)) ks.

Definition chain : DataFrame :=
  mkDataFrame 12
    [ ("date", ObjectSeries (map (fun k => Some (iso_day k))
                                 [1; 2; 3; 4; 5; 6; 7; 8; 9; 10; 11; 12]));
      ("sales", Int64Series [3; 1; 4; 1; 5; 9; 2; 6; 5; 3; 5; 8]);
      ("region", ObjectSeries (named "R" [1; 2; 3; 1; 2; 3; 1; 2; 3; 1; 2; 3]));
      ("store", ObjectSeries (named "S" [1; 2; 3; 4; 5; 6; 7; 8; 9; 10; 11; 12]));
      ("article", ObjectSeries (named "A" [1; 2; 3; 4; 5; 6; 7; 8; 9; 10; 11; 1])) ].

(** 600,000 rows from 15 stores, the first row 100 days before the
    others. *)
Definition big_dates : list (option string) :=
  Some "2024-01-01" :: repeat (Some "2024-04-10") (Z.to_nat 599999).

Definition big_stamps : list (option Z) :=
  Some (19723 * NS_PER_DAY) :: repeat (Some (19823 * NS_PER_DAY)) (Z.to_nat 599999).

Definition big_stores : list (option string) :=
  (named "S" [1; 2; 3; 4; 5; 6; 7; 8; 9; 10; 11; 12; 13; 14; 15]
   ++ repeat (Some "S1") (Z.to_nat 599985))%list.

Definition big_shop : DataFrame :=
  mkDataFrame 600000
    [ ("date", ObjectSeries big_dates);
      ("sales", Int64Series (repeat 7 (Z.to_nat 600000)));
      ("store", ObjectSeries big_stores);
      ("price", Int64Series (repeat 5 (Z.to_nat 600000)));
      ("promo", BoolSeries (repeat false (Z.to_nat 600000))) ].

(** The two rows of [quarter] in the other order. *)
Definition quarter_reversed : DataFrame :=
  mkDataFrame 2
    [ ("date", ObjectSeries [Some "2024-04-10"; Some "2024-01-01"]);
      ("sales", Int64Series [80; 120]) ].

(** Two rows with the label [price] twice. *)
Definition twice_priced : DataFrame :=
  mkDataFrame 2
    [ ("date", ObjectSeries [Some "2024-01-01"; Some "2024-04-10"]);
      ("sales", Int64Series [120; 80]);
      ("price", Int64Series [5; 6]);
      ("price", Int64Series [7; 8]) ].

(** What [to_datetime] raises on the dates of [undated]. *)
Definition unparsed_soon : exn :=
  mkExn ValueError "Unknown datetime string format, unable to parse: soon".

End Fixture.

(** ** The two functions of app.py *)

Section Core.

Set Default Proof Using "Type".

(** What pandas says in the exceptions of its own. *)
Variable pandas_says : wording.

(** Python's [repr] on a string, which words the message of a
    [KeyError]. *)
Variable repr : string -> string.

(** [pd.to_datetime] on a column: the instant of every row in
    nanoseconds since the epoch ([None] for [NaT]), or the exception it
    raises. *)
Variable to_datetime : Series -> result (list (option Z)).

(** [pd.to_numeric(_, errors='coerce')] on a column: the binary64 value
    of every row, NaN where the entry does not convert, or the exception
    it raises. *)
Variable to_numeric : Series -> result (list float).

(** statsmodels' [acf(x, nlags=n, fft=True)]: the autocorrelation
    coefficients at lags 0 to n, or the exception it raises. *)
Variable acf : list float -> Z -> result (list float).

(** [df[c]] *)
Definition getitem (df : DataFrame) (c : string) : result item :=
  match filter (has_label c) (columns df) with
  | [] => Raise (mkExn KeyError (repr c))
  | [p] => Ok (OneColumn (snd p))
  | ps => Ok (SubFrame (map snd ps))
  end.

(** A test [if x] or [x and y] on the comparison of a sub-table's
    [nunique()] asks a Series for its truth value. *)
Definition ambiguous_truth : exn :=
  mkExn ValueError (truth_value_ambiguous pandas_says).

(** [hi - lo] on two [Timestamp]s: the [Timedelta] between them in
    nanoseconds, [NaT] when either is [NaT]; a difference that no
    [Timedelta] holds raises. *)
Definition timestamp_sub (hi lo : option Z) : result (option Z) :=
  match hi, lo with
  | Some a, Some b =>
      if Z.abs (a - b) <=? TIMEDELTA_MAX then Ok (Some (a - b))
      else Raise (mkExn OutOfBoundsDatetime
                    (timedelta_out_of_bounds pandas_says))
  | _, _ => Ok None
  end.

(** [(max - min).days] over the instants of a datetime column. *)
Definition date_span (stamps : list (option Z)) : result (option Z) :=
  let* span := timestamp_sub (extremum Z.max stamps) (extremum Z.min stamps) in
  Ok (days span).

(** [(col.max() - col.min()).days] for what [df[date_col]] evaluates to.
    Only a datetime column has a [Timedelta] there. *)
Definition span_days (it : item) : result (option Z) :=
  match it with
  | OneColumn (DatetimeSeries v) => date_span v
  | OneColumn (ObjectSeries _) =>
      Raise (mkExn TypeError "unsupported operand type(s) for -: 'str' and 'str'")
  | OneColumn _ =>
      Raise (mkExn AttributeError "object has no attribute 'days'")
  | SubFrame _ =>
      Raise (mkExn AttributeError "'Series' object has no attribute 'days'")
  end.

Definition to_datetime_item (it : item) : result (list (option Z)) :=
  match it with
  | OneColumn s => to_datetime s
  | SubFrame _ => Raise (mkExn ValueError "cannot assemble with duplicate keys")
  end.

Definition to_numeric_item (it : item) : result (list float) :=
  match it with
  | OneColumn s => to_numeric s
  | SubFrame _ =>
      Raise (mkExn TypeError "arg must be a list, tuple, 1-d array, or Series")
  end.

(** [Series.dropna()] on binary64 values *)
Definition dropna (xs : list float) : list float :=
  filter (fun x => negb (PrimFloat.is_nan x)) xs.

(** [a[i]] for a non-negative [i] *)
Definition index {A : Type} (a : list A) (i : nat) : result A :=
  match nth_error a i with
  | Some x => Ok x
  | None => Raise (mkExn IndexError "index out of bounds")
  end.

(** [a[lo:hi]] for non-negative bounds *)
Definition slice {A : Type} (lo hi : nat) (a : list A) : list A :=
  firstn (hi - lo) (skipn lo a).

(** The body of the [try] of [check_seasonality]. *)
Definition check_seasonality_try (series : item) : result bool :=
  let* coerced := to_numeric_item series in
  let clean_series := dropna coerced in
  if Z.of_nat (List.length clean_series) <? 50 then Ok false
  else
    let* acf_values := acf clean_series 40 in
    let* acf_7 := index acf_values 7 in
    if above_threshold acf_7
       || existsb above_threshold (slice 28 32 acf_values)
    then Ok true
    else Ok false.

Definition check_seasonality (series : item) : bool :=
  try_except (check_seasonality_try series) (fun _ => false).

(** The running result of an analysis: [score_azure] and [reasons]. *)
Definition tally : Type := Z * list string.

Definition add_reason (t : tally) (r : string) : tally :=
  (fst t, (snd t ++ [r])%list).

Definition bump (t : tally) (r : string) : tally :=
  (fst t + 1, (snd t ++ [r])%list).

Definition reason_multivariate (feature_cols : list string) : string :=
  "📊 **Multivariate Data Detected:** Found "
  ++ str_int (Z.of_nat (List.length feature_cols))
  ++ " extra features (" ++ join ", " (firstn 3 feature_cols)
  ++ "...). Power BI works best with simple trends; Azure handles complex correlations better.".

Definition reason_granularity (col : string) (n : Z) : string :=
  "🏪 **High Granularity:** The column '" ++ col ++ "' has " ++ str_int n
  ++ " unique items. Training " ++ str_int n
  ++ " separate models requires Azure's 'Many Models' accelerator.".

Definition reason_volume (rows : Z) : string :=
  "💾 **High Volume:** Dataset has " ++ str_int_grouped rows
  ++ " rows. Power BI may hit timeout limits during training.".

Definition reason_horizon (horizon_days history_days : Z) : string :=
  "🔭 **Long Horizon:** You want to predict " ++ str_int horizon_days
  ++ " days ahead, but only have " ++ str_int history_days
  ++ " days of history. This requires Azure's Deep Learning (Prophet/TCN) for stability.".

Definition reason_date_warning (e : exn) : string :=
  "⚠️ Could not calculate Date logic: " ++ str e.

Definition reason_seasonality : string :=
  "🌊 **Complex Seasonality:** Strong recurring patterns detected alongside other complexities.".

(** [[c for c in df.columns if c not in [target_col, date_col]]] *)
Definition feature_cols (df : DataFrame) (target_col date_col : string)
  : list string :=
  filter (fun c => negb (String.eqb c target_col || String.eqb c date_col))
         (labels df).

(** Gate 1 *)
Definition gate1 (features : list string) (t : tally) : tally :=
  if 2 <? Z.of_nat (List.length features)
  then bump t (reason_multivariate features)
  else t.

(** [df[c].nunique()] where a number is asked for *)
Definition nunique_at (df : DataFrame) (c : string) : result Z :=
  let* it := getitem df c in
  match it with
  | OneColumn s => Ok (nunique s)
  | SubFrame _ => Raise ambiguous_truth
  end.

(** [df[c].nunique() > 1 and df[c].dtype == 'object'] *)
Definition is_potential_id (df : DataFrame) (c : string) : result bool :=
  let* n := nunique_at df c in
  if 1 <? n then
    let* it := getitem df c in
    match it with
    | OneColumn s => Ok (dtype_eqb (Series_dtype s) DObject)
    | SubFrame _ => Raise ambiguous_truth
    end
  else Ok false.

(** [[c for c in feature_cols if ...]] *)
Fixpoint potential_ids (df : DataFrame) (features : list string)
  : result (list string) :=
  match features with
  | [] => Ok []
  | c :: rest =>
      let* keep := is_potential_id df c in
      let* ids := potential_ids df rest in
      Ok (if keep then c :: ids else ids)
  end.

(** The [for col in potential_ids] loop with its [break]. *)
Fixpoint scan_ids (df : DataFrame) (ids : list string) (t : tally)
  : result tally :=
  match ids with
  | [] => Ok t
  | col :: rest =>
      let* n := nunique_at df col in
      if 10 <? n then Ok (bump t (reason_granularity col n))
      else scan_ids df rest t
  end.

(** Gate 2 *)
Definition gate2 (df : DataFrame) (features : list string) (t : tally)
  : result tally :=
  let* ids := potential_ids df features in
  if 0 <? Z.of_nat (List.length ids) then scan_ids df ids t else Ok t.

(** Gate 3 *)
Definition gate3 (df : DataFrame) (t : tally) : tally :=
  if 500000 <? len df then bump t (reason_volume (len df)) else t.

(** The statements of gate 4 after the assignment to [df[date_col]]. *)
Definition horizon_check (df : DataFrame) (date_col : string)
    (horizon_days : Z) (t : tally) : result tally :=
  let* col := getitem df date_col in
  let* history_days := span_days col in
  match history_days with
  | Some d =>
      if 0 <? d then
        let* ratio := true_div horizon_days d in
        if Qgtb ratio (1 # 4) then Ok (bump t (reason_horizon horizon_days d))
        else Ok t
      else Ok t
  | None => Ok t
  end.

(** [pd.to_datetime(df[date_col])] *)
Definition parse_date_col (df : DataFrame) (date_col : string)
  : result (list (option Z)) :=
  let* col := getitem df date_col in
  to_datetime_item col.

(** The body of the [try] of gate 4: the table as the body leaves it,
    and the tally or the exception that ended the body. *)
Definition gate4_try (df : DataFrame) (date_col : string)
    (horizon_days : Z) (t : tally) : DataFrame * result tally :=
  match parse_date_col df date_col with
  | Raise e => (df, Raise e)
  | Ok parsed =>
      let df' := setitem df date_col (DatetimeSeries parsed) in
      (df', horizon_check df' date_col horizon_days t)
  end.

(** Gate 4 *)
Definition gate4 (df : DataFrame) (date_col : string)
    (horizon_days : Z) (t : tally) : DataFrame * tally :=
  let (df', r) := gate4_try df date_col horizon_days t in
  (df', try_except r (fun e => add_reason t (reason_date_warning e))).

(** Gate 5 *)
Definition gate5 (df : DataFrame) (target_col : string) (t : tally)
  : result tally :=
  let* col := getitem df target_col in
  let is_seasonal := check_seasonality col in
  if is_seasonal && (0 <? fst t) then Ok (add_reason t reason_seasonality)
  else Ok t.

(** Gates 1 to 3, which only read the table. *)
Definition gates_1_3 (df : DataFrame) (target_col date_col : string)
  : result tally :=
  let features := feature_cols df target_col date_col in
  let* t2 := gate2 df features (gate1 features (0, [])) in
  Ok (gate3 df t2).

(** Gates 1 to 4: the table as gate 4 leaves it, and the tally. *)
Definition gates_1_4 (df : DataFrame) (target_col date_col : string)
    (horizon_days : Z) : DataFrame * result tally :=
  match gates_1_3 df target_col date_col with
  | Raise e => (df, Raise e)
  | Ok t3 =>
      let (df', t4) := gate4 df date_col horizon_days t3 in
      (df', Ok t4)
  end.

(** [analyze_dataset(df, target_col, date_col, horizon_days)]: the table
    [df] as the call leaves it, and the pair returned or the exception
    raised. *)
Definition analyze_dataset (df : DataFrame) (target_col date_col : string)
    (horizon_days : Z) : DataFrame * result tally :=
  let (df', r) := gates_1_4 df target_col date_col horizon_days in
  (df', let* t4 := r in gate5 df' target_col t4).

(** ** Notions the properties are stated with *)

(** The test of the list comprehension of gate 2, as a function of the
    column found at [c]. *)
Definition is_categorical_id (df : DataFrame) (c : string) : bool :=
  match getitem df c with
  | Ok (OneColumn s) => (1 <? nunique s) && dtype_eqb (Series_dtype s) DObject
  | _ => false
  end.

(** A column that makes gate 2 fire: categorical, with more than 10
    distinct values. *)
Definition high_cardinality_id (df : DataFrame) (c : string) : bool :=
  match getitem df c with
  | Ok (OneColumn s) => dtype_eqb (Series_dtype s) DObject && (10 <? nunique s)
  | _ => false
  end.

(** Every label of the list names exactly one column of the table. *)
Definition all_single (df : DataFrame) (cs : list string) : Prop :=
  forall c, In c cs -> exists s, getitem df c = Ok (OneColumn s).

(** Any character but the thousands separator. *)
Definition not_comma (c : ascii) : bool := negb (Ascii.eqb c ",").

(** A string with its commas taken out. *)
Definition without_commas (s : string) : string :=
  string_of_list_ascii (filter not_comma (list_ascii_of_string s)).

(** [s.startswith(p)] *)
Fixpoint starts_with (p s : string) : bool :=
  match p, s with
  | EmptyString, _ => true
  | String a p', String b s' => Ascii.eqb a b && starts_with p' s'
  | String _ _, EmptyString => false
  end.

(** The gate whose message opens with the symbol that [r] opens with;
    0 when there is none. *)
Definition gate_of_reason (r : string) : Z :=
  if starts_with "📊" r then 1
  else if starts_with "🏪" r then 2
  else if starts_with "💾" r then 3
  else if starts_with "🔭" r || starts_with "⚠️" r then 4
  else if starts_with "🌊" r then 5
  else 0.

(** The reasons come from gates 1 to [g], at most one from each, in the
    order of the gates. *)
Definition in_gate_order (g : Z) (reasons : list string) : Prop :=
  StronglySorted Z.lt (map gate_of_reason reasons)
  /\ Forall (fun r => 1 <= gate_of_reason r <= g) reasons.

(** The reason [r] is a message of gate [k]. *)
Definition from_gate (k : Z) (r : string) : bool := gate_of_reason r =? k.

(** After gate [g]: the score counts gates among 1 to [g], and the
    reasons are in gate order up to [g]. *)
Definition tally_upto (g : Z) (t : tally) : Prop :=
  0 <= fst t <= g /\ in_gate_order g (snd t).

(** What gate 4 makes of the tally once the dates are parsed, by what
    the span of the dates in days evaluates to. *)
Definition horizon_outcome (horizon_days : Z) (span : result (option Z))
    (t : tally) : tally :=
  match span with
  | Ok (Some d) =>
      if 0 <? d then
        match true_div horizon_days d with
        | Ok ratio =>
            if Qgtb ratio (1 # 4) then bump t (reason_horizon horizon_days d)
            else t
        | Raise e => add_reason t (reason_date_warning e)
        end
      else t
  | Ok None => t
  | Raise e => add_reason t (reason_date_warning e)
  end.

(** The instants of a column lie close enough for the difference of any
    two to be a [Timedelta]. *)
Definition within_timedelta (stamps : list (option Z)) : Prop :=
  forall a b, In (Some a) stamps -> In (Some b) stamps -> a - b <= TIMEDELTA_MAX.

(** What gate 5 appends: the seasonality reason or nothing. *)
Definition seasonality_note (col : item) (score : Z) : list string :=
  if check_seasonality col && (0 <? score) then [reason_seasonality] else [].

(** ** The caller

    What a click on the button of app.py (lines 129 to 162) makes of the
    pair that [analyze_dataset] returns, as the elements it leaves on
    the page; the spinner is on the page only while the block runs. *)

Inductive element : Type :=
  | Divider
  | Header (text : string)
  | Subheader (text : string)
  | Markdown (body : string)
  | Info (text : string)
  | Write (text : string)
  | Error (text : string).

(** The double quote. *)
Definition dq : string := String (Ascii.ascii_of_nat 34) EmptyString.

Definition azure_box (score : Z) : string :=
  "
                        <div class=" ++ dq ++ "azure-box" ++ dq ++ ">
                            <h2>🔵 Recommended Tool: Azure Machine Learning</h2>
                            <p><strong>Why?</strong> Your dataset triggers <strong>"
  ++ str_int score
  ++ " complexity flags</strong> that exceed Power BI's standard capabilities.</p>
                        </div>
                    ".

Definition power_bi_box : string :=
  "
                        <div class=" ++ dq ++ "success-box" ++ dq ++ ">
                            <h2>📊 Recommended Tool: Power BI AutoML</h2>
                            <p><strong>Why?</strong> Your dataset is clean, univariate, and fits well within the low-code, budget-friendly capabilities of Power BI.</p>
                        </div>
                    ".

Definition simple_data_info : string :=
  "✅ Simple Univariate Data detected. No complex external factors found.".

(** The options of the target selector:
    [[c for c in all_cols if c != date_col]] *)
Definition target_choices (df : DataFrame) (date_col : string) : list string :=
  filter (fun c => negb (String.eqb c date_col)) (labels df).

(** The statements that follow the call of [analyze_dataset]. *)
Definition show_results (score : Z) (reasons : list string) : list element :=
  [ Header "🎯 Recommendation";
    if 1 <=? score then Markdown (azure_box score) else Markdown power_bi_box;
    Subheader "📝 Technical Analysis" ]
  ++ match reasons with
     | [] => [Info simple_data_info]
     | _ => map Write reasons
     end.

(** The block under [if run_btn], with the [except] of the enclosing
    [try] for what the analysis raises: the table as the click leaves
    it, and the elements added to the page. *)
Definition on_analyze (df : DataFrame) (target_col date_col : string)
    (horizon : Z) : DataFrame * list element :=
  let (df', r) := analyze_dataset df target_col date_col horizon in
  (df',
   Divider
   :: match r with
      | Ok (score, reasons) => show_results score reasons
      | Raise e => [Error ("Error reading file: " ++ str e)]
      end).

(** A reason that comes with a point of score: the message of gate 1,
    2 or 3, or the horizon message of gate 4. *)
Definition scoring_reason (r : string) : bool :=
  starts_with "📊" r || starts_with "🏪" r || starts_with "💾" r
  || starts_with "🔭" r.

(** The tally holds one scoring reason for each point of score. *)
Definition counted (t : tally) : Prop :=
  fst t = Z.of_nat (List.length (filter scoring_reason (snd t))).

(** A gate leaves the tally, or adds a point with a reason, or adds a
    reason alone. *)
Inductive gate_step (t : tally) : tally -> Prop :=
  | step_keep : gate_step t t
  | step_bump (r : string) : scoring_reason r = true -> gate_step t (bump t r)
  | step_note (r : string) : scoring_reason r = false -> gate_step t (add_reason t r).

(** ** Properties *)

(** *** Looking up a column *)

Lemma has_label_true (c : string) (p : string * Series) :
  has_label c p = true <-> fst p = c.
Proof. unfold has_label. apply String.eqb_eq. Qed.

Lemma filter_label_absent (c : string) (cols : list (string * Series)) :
  ~ In c (map fst cols) -> filter (has_label c) cols = [].
Proof.
  induction cols as [|p cols IH]; simpl; intros Hc; [reflexivity|].
  destruct (has_label c p) eqn:E.
  - apply has_label_true in E. exfalso. apply Hc. now left.
  - apply IH. intros H. apply Hc. now right.
Qed.

Lemma filter_label_unique (c : string) (cols : list (string * Series)) :
  NoDup (map fst cols) -> In c (map fst cols) ->
  exists s, filter (has_label c) cols = [(c, s)] /\ In (c, s) cols.
Proof.
  induction cols as [|[l s0] cols IH]; simpl; intros Hnd Hin; [contradiction|].
  inversion Hnd as [|? ? Hl Hnd']; subst.
  destruct (has_label c (l, s0)) eqn:E.
  - apply has_label_true in E; simpl in E; subst l.
    exists s0. rewrite (filter_label_absent c cols Hl). auto.
  - destruct Hin as [Hin|Hin].
    + subst l. unfold has_label in E; simpl in E.
      rewrite String.eqb_refl in E. discriminate.
    + destruct (IH Hnd' Hin) as [s [Hf Hs]]. exists s. auto.
Qed.

Lemma getitem_one_column (df : DataFrame) (c : string) :
  NoDup (labels df) -> In c (labels df) ->
  exists s, getitem df c = Ok (OneColumn s) /\ In (c, s) (columns df).
Proof.
  intros Hnd Hin. unfold getitem.
  destruct (filter_label_unique c (columns df) Hnd Hin) as [s [Hf Hs]].
  rewrite Hf. exists s. auto.
Qed.

Lemma getitem_missing (df : DataFrame) (c : string) :
  ~ In c (labels df) -> getitem df c = Raise (mkExn KeyError (repr c)).
Proof.
  intros Hc. unfold getitem. now rewrite (filter_label_absent c (columns df) Hc).
Qed.

Lemma feature_cols_spec (df : DataFrame) (target_col date_col c : string) :
  In c (feature_cols df target_col date_col) <->
  In c (labels df) /\ c <> target_col /\ c <> date_col.
Proof.
  unfold feature_cols. rewrite filter_In, negb_true_iff, orb_false_iff.
  rewrite !String.eqb_neq. reflexivity.
Qed.

Lemma feature_cols_NoDup (df : DataFrame) (target_col date_col : string) :
  NoDup (labels df) -> NoDup (feature_cols df target_col date_col).
Proof. intros H. now apply NoDup_filter. Qed.

(** *** Gate 2 *)

Lemma all_single_features (df : DataFrame) (target_col date_col : string) :
  NoDup (labels df) -> all_single df (feature_cols df target_col date_col).
Proof.
  intros Hnd c Hc. apply feature_cols_spec in Hc as [Hc _].
  destruct (getitem_one_column df c Hnd Hc) as [s [Hs _]]. eauto.
Qed.

Lemma all_single_cons (df : DataFrame) (c : string) (cs : list string) :
  all_single df (c :: cs) ->
  (exists s, getitem df c = Ok (OneColumn s)) /\ all_single df cs.
Proof.
  intros H. split; [apply H; now left|]. intros x Hx. apply H. now right.
Qed.

Lemma is_potential_id_single (df : DataFrame) (c : string) (s : Series) :
  getitem df c = Ok (OneColumn s) ->
  is_potential_id df c = Ok (is_categorical_id df c).
Proof.
  intros H. unfold is_potential_id, is_categorical_id, nunique_at.
  rewrite H; simpl. now destruct (1 <? nunique s).
Qed.

Lemma potential_ids_filter (df : DataFrame) (features : list string) :
  all_single df features ->
  potential_ids df features = Ok (filter (is_categorical_id df) features).
Proof.
  induction features as [|c rest IH]; intros H; [reflexivity|].
  apply all_single_cons in H as [[s Hs] Hrest]. simpl.
  rewrite (is_potential_id_single df c s Hs); simpl.
  rewrite (IH Hrest); simpl. reflexivity.
Qed.

(** The loop of gate 2 passes over the columns with at most 10 distinct
    values and stops at the first one with more, whatever follows it. *)
Lemma scan_ids_first_match (df : DataFrame) (pre : list string)
    (col : string) (s : Series) (t : tally) :
  all_single df pre ->
  (forall c, In c pre -> high_cardinality_id df c = false) ->
  (forall c, In c pre -> is_categorical_id df c = true) ->
  getitem df col = Ok (OneColumn s) ->
  10 < nunique s ->
  forall rest,
    scan_ids df (pre ++ col :: rest) t
    = Ok (bump t (reason_granularity col (nunique s))).
Proof.
  intros Hs Hlow Hcat Hcol Hn rest.
  induction pre as [|c pre IH]; simpl.
  - unfold nunique_at. rewrite Hcol; simpl.
    apply Z.ltb_lt in Hn. now rewrite Hn.
  - apply all_single_cons in Hs as [[sc Hsc] Hs].
    assert (Hl := Hlow c (or_introl eq_refl)).
    assert (Hc := Hcat c (or_introl eq_refl)).
    unfold high_cardinality_id in Hl. unfold is_categorical_id in Hc.
    unfold nunique_at. rewrite Hsc in *; simpl.
    apply andb_true_iff in Hc as [_ Hobj]. rewrite Hobj in Hl. simpl in Hl.
    rewrite Hl. apply IH; auto.
    + intros x Hx. apply Hlow. now right.
    + intros x Hx. apply Hcat. now right.
Qed.

Lemma scan_ids_no_match (df : DataFrame) (ids : list string) (t : tally) :
  all_single df ids ->
  (forall c, In c ids -> high_cardinality_id df c = false) ->
  (forall c, In c ids -> is_categorical_id df c = true) ->
  scan_ids df ids t = Ok t.
Proof.
  intros Hs Hlow Hcat.
  induction ids as [|c ids IH]; simpl; [reflexivity|].
  apply all_single_cons in Hs as [[sc Hsc] Hs].
  assert (Hl := Hlow c (or_introl eq_refl)).
  assert (Hc := Hcat c (or_introl eq_refl)).
  unfold high_cardinality_id in Hl. unfold is_categorical_id in Hc.
  unfold nunique_at. rewrite Hsc in *; simpl.
  apply andb_true_iff in Hc as [_ Hobj]. rewrite Hobj in Hl. simpl in Hl.
  rewrite Hl. apply IH; auto.
  - intros x Hx. apply Hlow. now right.
  - intros x Hx. apply Hcat. now right.
Qed.

(** A list either has no element that passes a test, or splits at the
    first one that does. *)
Lemma first_match {A : Type} (f : A -> bool) (l : list A) :
  (forall x, In x l -> f x = false) \/
  (exists pre x post,
      l = (pre ++ x :: post)%list /\ f x = true /\
      forall y, In y pre -> f y = false).
Proof.
  induction l as [|a l IH].
  - left. intros x [].
  - destruct (f a) eqn:Ea.
    + right. exists [], a, l. repeat split; auto. intros y [].
    + destruct IH as [IH|[pre [x [post [Hl [Hx Hpre]]]]]].
      * left. intros x [->|Hx]; auto.
      * right. exists (a :: pre), x, post. subst l. repeat split; auto.
        intros y [->|Hy]; auto.
Qed.

Lemma high_cardinality_is_categorical (df : DataFrame) (c : string) :
  high_cardinality_id df c = true -> is_categorical_id df c = true.
Proof.
  unfold high_cardinality_id, is_categorical_id.
  destruct (getitem df c) as [[s|]|]; try discriminate.
  rewrite !andb_true_iff, !Z.ltb_lt. intros [Hd Hn]. split; [lia|exact Hd].
Qed.

Lemma high_cardinality_column (df : DataFrame) (c : string) :
  high_cardinality_id df c = true ->
  exists s, getitem df c = Ok (OneColumn s)
            /\ Series_dtype s = DObject /\ 10 < nunique s.
Proof.
  unfold high_cardinality_id.
  destruct (getitem df c) as [[s|]|]; try discriminate.
  rewrite andb_true_iff, Z.ltb_lt. intros [Hd Hn]. exists s.
  repeat split; auto. now destruct s.
Qed.

Lemma nonempty_length_pos {A : Type} (l : list A) (a : A) (r : list A) :
  (0 <? Z.of_nat (List.length (l ++ a :: r))) = true.
Proof. apply Z.ltb_lt. rewrite length_app; simpl. lia. Qed.

Lemma all_single_incl (df : DataFrame) (cs ds : list string) :
  incl ds cs -> all_single df cs -> all_single df ds.
Proof. intros Hi H c Hc. apply H, Hi, Hc. Qed.

(** *** Assigning a column *)

Lemma has_label_replace_at (c c' : string) (s : Series) (p : string * Series) :
  has_label c' (replace_at c s p) = has_label c' p.
Proof. unfold replace_at. now destruct (has_label c p). Qed.

Lemma filter_replace_other (c c' : string) (s : Series)
    (cols : list (string * Series)) :
  c' <> c ->
  filter (has_label c') (map (replace_at c s) cols) = filter (has_label c') cols.
Proof.
  intros Hne. induction cols as [|p cols IH]; simpl; [reflexivity|].
  rewrite has_label_replace_at, IH.
  destruct (has_label c' p) eqn:E'; [|reflexivity].
  unfold replace_at. destruct (has_label c p) eqn:E; [|reflexivity].
  apply has_label_true in E, E'. congruence.
Qed.

Lemma filter_replace_same (c : string) (s : Series)
    (cols : list (string * Series)) :
  filter (has_label c) (map (replace_at c s) cols)
  = map (fun p => (fst p, s)) (filter (has_label c) cols).
Proof.
  induction cols as [|p cols IH]; simpl; [reflexivity|].
  rewrite has_label_replace_at, IH.
  destruct (has_label c p) eqn:E; [|reflexivity].
  unfold replace_at. now rewrite E.
Qed.

Lemma present_of_filter (c : string) (cols : list (string * Series)) :
  filter (has_label c) cols <> [] -> existsb (has_label c) cols = true.
Proof.
  induction cols as [|p cols IH]; simpl; [congruence|].
  destruct (has_label c p); auto.
Qed.

Lemma present_of_getitem (df : DataFrame) (c : string) (it : item) :
  getitem df c = Ok it -> existsb (has_label c) (columns df) = true.
Proof.
  unfold getitem. intros H. apply present_of_filter.
  destruct (filter (has_label c) (columns df)); [discriminate|congruence].
Qed.

Lemma setitem_present (df : DataFrame) (c : string) (s : Series) :
  existsb (has_label c) (columns df) = true ->
  setitem df c s = mkDataFrame (index_len df) (map (replace_at c s) (columns df)).
Proof. unfold setitem. now intros ->. Qed.

Lemma index_len_setitem (df : DataFrame) (c : string) (s : Series) :
  index_len (setitem df c s) = index_len df.
Proof. unfold setitem. now destruct (existsb _ _). Qed.

Lemma labels_setitem (df : DataFrame) (c : string) (s : Series) :
  existsb (has_label c) (columns df) = true ->
  labels (setitem df c s) = labels df.
Proof.
  intros H. rewrite (setitem_present df c s H). unfold labels; simpl.
  rewrite map_map. apply map_ext. intros p. unfold replace_at.
  now destruct (has_label c p).
Qed.

Lemma getitem_setitem_other (df : DataFrame) (c c' : string) (s : Series) :
  c' <> c -> getitem (setitem df c s) c' = getitem df c'.
Proof.
  intros Hne. unfold getitem, setitem.
  destruct (existsb (has_label c) (columns df)); simpl.
  - now rewrite filter_replace_other.
  - assert (E : has_label c' (c, s) = false).
    { unfold has_label; simpl. apply String.eqb_neq. congruence. }
    rewrite filter_app. cbn [filter]. rewrite E. now rewrite app_nil_r.
Qed.

Lemma getitem_setitem_same (df : DataFrame) (c : string) (s0 s : Series) :
  getitem df c = Ok (OneColumn s0) ->
  getitem (setitem df c s) c = Ok (OneColumn s).
Proof.
  intros H. rewrite (setitem_present df c s (present_of_getitem df c _ H)).
  unfold getitem in *; simpl. rewrite filter_replace_same.
  destruct (filter (has_label c) (columns df)) as [|p [|q r]];
    try discriminate. reflexivity.
Qed.

Lemma replace_at_twice (c : string) (s : Series) (p : string * Series) :
  replace_at c s (replace_at c s p) = replace_at c s p.
Proof.
  unfold replace_at. destruct (has_label c p) eqn:E; [|now rewrite E].
  unfold has_label in *; simpl. now rewrite E.
Qed.

Lemma setitem_twice (df : DataFrame) (c : string) (s : Series) :
  existsb (has_label c) (columns df) = true ->
  setitem (setitem df c s) c s = setitem df c s.
Proof.
  intros H. rewrite (setitem_present df c s H).
  rewrite setitem_present; simpl.
  - f_equal. rewrite map_map. apply map_ext, replace_at_twice.
  - rewrite existsb_exists in *. destruct H as [p [Hp Hl]].
    exists (replace_at c s p). split; [now apply in_map|].
    now rewrite has_label_replace_at.
Qed.

(** *** Gate 3 *)

Lemma uint_digits_not_comma (d : Decimal.uint) :
  Forall (fun c => not_comma c = true)
         (list_ascii_of_string (NilEmpty.string_of_uint d)).
Proof. induction d; simpl; constructor; auto. Qed.

Lemma str_int_not_comma (n : Z) :
  0 <= n ->
  Forall (fun c => not_comma c = true) (list_ascii_of_string (str_int n)).
Proof.
  intros Hn. unfold str_int. destruct n as [|p|p]; [| |lia].
  - simpl. repeat constructor.
  - simpl. unfold NilZero.string_of_uint.
    assert (H := uint_digits_not_comma (Pos.to_uint p)).
    destruct (Pos.to_uint p); auto. simpl. repeat constructor.
Qed.

Lemma group3_without_commas (l : list ascii) :
  Forall (fun c => not_comma c = true) l ->
  forall k, filter not_comma (group3 l k) = l.
Proof.
  induction 1 as [|d rest Hd Hrest IH]; intros k; [reflexivity|].
  destruct k as [|[|[|k]]]; cbn [group3];
    try (cbn [filter]; rewrite Hd, IH; reflexivity).
  destruct rest as [|e rest'].
  - cbn [filter group3]. now rewrite Hd.
  - cbn [filter]. rewrite Hd. change (not_comma ",") with false.
    cbv iota. now rewrite IH.
Qed.

(** The grouped numeral of a count is its decimal numeral with commas
    put in. *)
Lemma str_int_grouped_digits (n : Z) :
  0 <= n -> without_commas (str_int_grouped n) = str_int n.
Proof.
  intros Hn. unfold str_int_grouped, without_commas.
  replace (n <? 0) with false by (symmetry; apply Z.ltb_ge; exact Hn).
  rewrite Z.abs_eq by exact Hn.
  rewrite list_ascii_of_string_of_list_ascii, filter_rev.
  rewrite group3_without_commas.
  - now rewrite rev_involutive, string_of_list_ascii_of_string.
  - apply Forall_rev. now apply str_int_not_comma.
Qed.

Lemma len_nonneg (df : DataFrame) : 0 <= len df.
Proof. unfold len. lia. Qed.

(** *** Which gate a reason comes from *)

Lemma gate_of_multivariate (features : list string) :
  gate_of_reason (reason_multivariate features) = 1.
Proof. reflexivity. Qed.

Lemma gate_of_granularity (col : string) (n : Z) :
  gate_of_reason (reason_granularity col n) = 2.
Proof. reflexivity. Qed.

Lemma gate_of_volume (rows : Z) : gate_of_reason (reason_volume rows) = 3.
Proof. reflexivity. Qed.

Lemma gate_of_horizon (h d : Z) : gate_of_reason (reason_horizon h d) = 4.
Proof. reflexivity. Qed.

Lemma gate_of_date_warning (e : exn) :
  gate_of_reason (reason_date_warning e) = 4.
Proof. reflexivity. Qed.

Lemma gate_of_seasonality : gate_of_reason reason_seasonality = 5.
Proof. reflexivity. Qed.

(** The two messages of gate 4 are told apart by their first symbol. *)
Lemma horizon_is_not_warning (h d : Z) (e : exn) :
  reason_horizon h d <> reason_date_warning e.
Proof. unfold reason_horizon, reason_date_warning. simpl. discriminate. Qed.

Lemma StronglySorted_snoc (l : list Z) (a : Z) :
  StronglySorted Z.lt l -> Forall (fun x => x < a) l ->
  StronglySorted Z.lt (l ++ [a]).
Proof.
  induction 1 as [|x l Hl IH Hx]; intros Ha; simpl.
  - repeat constructor.
  - inversion Ha; subst. constructor; [now apply IH|].
    apply Forall_app. split; [exact Hx|]. now repeat constructor.
Qed.

Lemma in_gate_order_nil (g : Z) : in_gate_order g [].
Proof. split; constructor. Qed.

Lemma in_gate_order_weaken (g g' : Z) (reasons : list string) :
  g <= g' -> in_gate_order g reasons -> in_gate_order g' reasons.
Proof.
  intros Hg [Hs Hf]. split; [exact Hs|].
  eapply Forall_impl; [|exact Hf]. simpl. intros. lia.
Qed.

Lemma in_gate_order_snoc (g g' : Z) (reasons : list string) (r : string) :
  in_gate_order g reasons -> gate_of_reason r = g' -> 1 <= g' -> g < g' ->
  in_gate_order g' (reasons ++ [r]).
Proof.
  intros [Hs Hf] Hr H1 Hg. split.
  - rewrite map_app; simpl. apply StronglySorted_snoc; [exact Hs|].
    apply Forall_map. eapply Forall_impl; [|exact Hf]. simpl. intros. lia.
  - apply Forall_app. split.
    + eapply Forall_impl; [|exact Hf]. simpl. intros. lia.
    + repeat constructor; lia.
Qed.

Lemma sorted_length_bound (l : list Z) :
  StronglySorted Z.lt l ->
  forall lo hi, Forall (fun k => lo < k <= hi) l -> lo <= hi ->
  Z.of_nat (List.length l) <= hi - lo.
Proof.
  induction 1 as [|a l Hl IH Ha]; intros lo hi Hb Hle; simpl List.length.
  - simpl. lia.
  - inversion Hb as [|? ? Hab Hb']; subst.
    assert (Z.of_nat (List.length l) <= hi - a).
    { apply IH; [|lia]. rewrite Forall_forall in *.
      intros k Hk. specialize (Ha k Hk). specialize (Hb' k Hk). lia. }
    lia.
Qed.

Lemma in_gate_order_length (g : Z) (reasons : list string) :
  0 <= g -> in_gate_order g reasons -> Z.of_nat (List.length reasons) <= g.
Proof.
  intros Hg [Hs Hf].
  rewrite <- (length_map gate_of_reason reasons).
  replace g with (g - 0) by lia.
  apply sorted_length_bound; [exact Hs| |exact Hg].
  apply Forall_map. eapply Forall_impl; [|exact Hf]. simpl. intros. lia.
Qed.

(** No reason of a later gate is in a list that is in gate order up to
    an earlier one. *)
Lemma in_gate_order_not_later (g : Z) (reasons : list string) (r : string) :
  in_gate_order g reasons -> g < gate_of_reason r -> ~ In r reasons.
Proof.
  intros [_ Hf] Hr Hin. rewrite Forall_forall in Hf.
  specialize (Hf r Hin). lia.
Qed.

(** A list in gate order holds at most one reason of each gate. *)
Lemma in_gate_order_one_per_gate (g k : Z) (reasons : list string) :
  in_gate_order g reasons ->
  (List.length (filter (from_gate k) reasons) <= 1)%nat.
Proof.
  intros [Hs _]. induction reasons as [|r rs IH]; simpl; [lia|].
  simpl in Hs. inversion Hs as [|? ? Hs' Hr]; subst.
  destruct (from_gate k r) eqn:E; [|now apply IH].
  simpl. apply Z.eqb_eq in E.
  assert (Hnone : filter (from_gate k) rs = []).
  { clear IH Hs Hs'. induction rs as [|x rs IH]; simpl; [reflexivity|].
    simpl in Hr. inversion Hr; subst.
    replace (from_gate (gate_of_reason r) x) with false
      by (symmetry; apply Z.eqb_neq; lia).
    now apply IH. }
  rewrite Hnone. simpl. lia.
Qed.

(** *** The tally through the gates *)

Lemma tally_upto_keep (g : Z) (t : tally) :
  tally_upto g t -> tally_upto (g + 1) t.
Proof.
  intros [Hs Hr]. split; [lia|].
  eapply in_gate_order_weaken; [|exact Hr]. lia.
Qed.

Lemma tally_upto_bump (g : Z) (t : tally) (r : string) :
  0 <= g -> tally_upto g t -> gate_of_reason r = g + 1 ->
  tally_upto (g + 1) (bump t r).
Proof.
  intros Hg [Hs Hr] Hk. split; simpl; [lia|].
  eapply in_gate_order_snoc; eauto; lia.
Qed.

Lemma tally_upto_add_reason (g : Z) (t : tally) (r : string) :
  0 <= g -> tally_upto g t -> gate_of_reason r = g + 1 ->
  tally_upto (g + 1) (add_reason t r).
Proof.
  intros Hg [Hs Hr] Hk. split; simpl; [lia|].
  eapply in_gate_order_snoc; eauto; lia.
Qed.

Lemma gate1_upto (features : list string) :
  tally_upto 1 (gate1 features (0, [])).
Proof.
  unfold gate1. destruct (2 <? _).
  - apply (tally_upto_bump 0); [lia| |reflexivity].
    split; simpl; [lia|apply in_gate_order_nil].
  - split; simpl; [lia|apply in_gate_order_nil].
Qed.

Lemma scan_ids_outcome (df : DataFrame) (ids : list string) (t t' : tally) :
  scan_ids df ids t = Ok t' ->
  t' = t \/ exists col n, t' = bump t (reason_granularity col n).
Proof.
  induction ids as [|c ids IH]; simpl.
  - intros [= <-]. now left.
  - destruct (nunique_at df c) as [n|e]; simpl; [|discriminate].
    destruct (10 <? n); [|exact IH].
    intros [= <-]. right. eauto.
Qed.

Lemma gate2_outcome (df : DataFrame) (features : list string) (t t' : tally) :
  gate2 df features t = Ok t' ->
  t' = t \/ exists col n, t' = bump t (reason_granularity col n).
Proof.
  unfold gate2. destruct (potential_ids df features) as [ids|e]; simpl;
    [|discriminate].
  destruct (0 <? _); [apply scan_ids_outcome|].
  intros [= <-]. now left.
Qed.

Lemma gate2_upto (df : DataFrame) (features : list string) (t t' : tally) :
  tally_upto 1 t -> gate2 df features t = Ok t' -> tally_upto 2 t'.
Proof.
  intros Ht H. destruct (gate2_outcome df features t t' H) as [->|[c [n ->]]].
  - now apply (tally_upto_keep 1).
  - apply (tally_upto_bump 1); [lia|exact Ht|reflexivity].
Qed.

Lemma gate3_upto (df : DataFrame) (t : tally) :
  tally_upto 2 t -> tally_upto 3 (gate3 df t).
Proof.
  intros Ht. unfold gate3. destruct (500000 <? len df).
  - apply (tally_upto_bump 2); [lia|exact Ht|reflexivity].
  - now apply (tally_upto_keep 2).
Qed.

Lemma gates_1_3_upto (df : DataFrame) (target_col date_col : string) (t3 : tally) :
  gates_1_3 df target_col date_col = Ok t3 -> tally_upto 3 t3.
Proof.
  unfold gates_1_3.
  destruct (gate2 df _ _) as [t2|e] eqn:E2; simpl; [|discriminate].
  intros [= <-]. apply gate3_upto.
  eapply gate2_upto; [|exact E2]. apply gate1_upto.
Qed.

(** *** Gate 4 *)

Lemma parse_date_col_ok (df : DataFrame) (date_col : string)
    (stamps : list (option Z)) :
  parse_date_col df date_col = Ok stamps ->
  exists s, getitem df date_col = Ok (OneColumn s) /\ to_datetime s = Ok stamps.
Proof.
  unfold parse_date_col.
  destruct (getitem df date_col) as [[s|cols]|e]; simpl; try discriminate.
  eauto.
Qed.

Lemma gate4_unparsed (df : DataFrame) (date_col : string) (h : Z)
    (t : tally) (e : exn) :
  parse_date_col df date_col = Raise e ->
  gate4 df date_col h t = (df, add_reason t (reason_date_warning e)).
Proof. intros H. unfold gate4, gate4_try. now rewrite H. Qed.

Lemma gate4_parsed (df : DataFrame) (date_col : string) (h : Z)
    (t : tally) (stamps : list (option Z)) :
  parse_date_col df date_col = Ok stamps ->
  gate4 df date_col h t
  = (setitem df date_col (DatetimeSeries stamps),
     horizon_outcome h (date_span stamps) t).
Proof.
  intros H. unfold gate4, gate4_try. rewrite H.
  destruct (parse_date_col_ok df date_col stamps H) as [s [Hs _]].
  unfold horizon_check.
  rewrite (getitem_setitem_same df date_col s _ Hs); simpl.
  unfold horizon_outcome. destruct (date_span stamps) as [[d|]|e]; simpl; auto.
  destruct (0 <? d); simpl; auto.
  destruct (true_div h d) as [ratio|e]; simpl; auto.
  now destruct (Qgtb ratio (1 # 4)).
Qed.

Lemma horizon_outcome_upto (h : Z) (span : result (option Z)) (t : tally) :
  tally_upto 3 t -> tally_upto 4 (horizon_outcome h span t).
Proof.
  intros Ht. unfold horizon_outcome.
  destruct span as [[d|]|e]; [|now apply (tally_upto_keep 3)|].
  - destruct (0 <? d); [|now apply (tally_upto_keep 3)].
    destruct (true_div h d) as [ratio|e].
    + destruct (Qgtb ratio (1 # 4)); [|now apply (tally_upto_keep 3)].
      apply (tally_upto_bump 3); [lia|exact Ht|reflexivity].
    + apply (tally_upto_add_reason 3); [lia|exact Ht|reflexivity].
  - apply (tally_upto_add_reason 3); [lia|exact Ht|reflexivity].
Qed.

Lemma gate4_upto (df : DataFrame) (date_col : string) (h : Z) (t : tally) :
  tally_upto 3 t -> tally_upto 4 (snd (gate4 df date_col h t)).
Proof.
  intros Ht. destruct (parse_date_col df date_col) as [stamps|e] eqn:E.
  - rewrite (gate4_parsed _ _ _ _ _ E). now apply horizon_outcome_upto.
  - rewrite (gate4_unparsed _ _ _ _ _ E).
    apply (tally_upto_add_reason 3); [lia|exact Ht|reflexivity].
Qed.

(** The comparison of the quotient with 0.25, on the integers. *)
Lemma ratio_above_quarter (h d : Z) :
  0 < d -> Qgtb (inject_Z h / inject_Z d) (1 # 4) = (d <? 4 * h).
Proof.
  intros Hd. unfold Qgtb.
  destruct (d <? 4 * h) eqn:E.
  - apply negb_true_iff. apply not_true_is_false. intros H.
    apply Qle_bool_iff in H. apply Z.ltb_lt in E.
    revert H. unfold Qle, Qdiv, Qmult, Qinv, inject_Z; simpl.
    destruct d; simpl; lia.
  - apply negb_false_iff. apply Qle_bool_iff. apply Z.ltb_ge in E.
    unfold Qle, Qdiv, Qmult, Qinv, inject_Z; simpl.
    destruct d; simpl; lia.
Qed.

(** *** Gate 5 and the whole analysis *)

Lemma gate5_outcome (df : DataFrame) (target_col : string) (col : item)
    (t : tally) :
  getitem df target_col = Ok col ->
  gate5 df target_col t
  = Ok (fst t, (snd t ++ seasonality_note col (fst t))%list).
Proof.
  intros H. unfold gate5, seasonality_note. rewrite H; simpl.
  destruct (check_seasonality col && (0 <? fst t)); [reflexivity|].
  rewrite app_nil_r. now destruct t.
Qed.

Lemma gates_1_4_after_gate3 (df : DataFrame) (target_col date_col : string)
    (h : Z) (t3 : tally) :
  gates_1_3 df target_col date_col = Ok t3 ->
  gates_1_4 df target_col date_col h
  = (fst (gate4 df date_col h t3), Ok (snd (gate4 df date_col h t3))).
Proof.
  intros H. unfold gates_1_4. rewrite H. now destruct (gate4 df date_col h t3).
Qed.

Lemma analyze_dataset_after_gate4 (df df' : DataFrame)
    (target_col date_col : string) (h : Z) (t4 : tally) (col : item) :
  gates_1_4 df target_col date_col h = (df', Ok t4) ->
  getitem df' target_col = Ok col ->
  analyze_dataset df target_col date_col h
  = (df', Ok (fst t4, (snd t4 ++ seasonality_note col (fst t4))%list)).
Proof.
  intros H4 Hc. unfold analyze_dataset. rewrite H4; simpl.
  now rewrite (gate5_outcome df' target_col col t4 Hc).
Qed.

Lemma seasonality_note_cases (col : item) (score : Z) :
  seasonality_note col score = []
  \/ seasonality_note col score = [reason_seasonality].
Proof. unfold seasonality_note. destruct (_ && _); auto. Qed.

(** *** Gate 2 on a table with distinct labels *)

Lemma gate2_silent (df : DataFrame) (features : list string) (t : tally) :
  all_single df features ->
  (forall c, In c features -> high_cardinality_id df c = false) ->
  gate2 df features t = Ok t.
Proof.
  intros Hsingle Hnone. unfold gate2.
  rewrite (potential_ids_filter df features Hsingle); simpl.
  destruct (0 <? _); [|reflexivity].
  apply scan_ids_no_match.
  - eapply all_single_incl; [|exact Hsingle]. apply incl_filter.
  - intros c Hc. apply Hnone. apply filter_In in Hc. exact (proj1 Hc).
  - intros c Hc. apply filter_In in Hc. exact (proj2 Hc).
Qed.

Lemma gate2_fires (df : DataFrame) (pre post : list string) (col : string)
    (s : Series) (t : tally) :
  all_single df (pre ++ col :: post) ->
  (forall c, In c pre -> high_cardinality_id df c = false) ->
  getitem df col = Ok (OneColumn s) ->
  Series_dtype s = DObject ->
  10 < nunique s ->
  potential_ids df (pre ++ col :: post)
  = Ok (filter (is_categorical_id df) pre
          ++ col :: filter (is_categorical_id df) post)%list
  /\ (forall rest,
        scan_ids df (filter (is_categorical_id df) pre ++ col :: rest) t
        = Ok (bump t (reason_granularity col (nunique s))))
  /\ gate2 df (pre ++ col :: post) t
     = Ok (bump t (reason_granularity col (nunique s))).
Proof.
  intros Hsingle Hpre Hget Hobj Hn.
  assert (Hcat : is_categorical_id df col = true).
  { unfold is_categorical_id. rewrite Hget, Hobj. simpl.
    rewrite andb_true_r. apply Z.ltb_lt. lia. }
  assert (Hids := potential_ids_filter df _ Hsingle).
  rewrite filter_app in Hids. cbn [filter] in Hids. rewrite Hcat in Hids.
  assert (Hscan : forall rest,
             scan_ids df (filter (is_categorical_id df) pre ++ col :: rest) t
             = Ok (bump t (reason_granularity col (nunique s)))).
  { apply scan_ids_first_match; auto.
    - eapply all_single_incl; [|exact Hsingle].
      intros c Hc. apply filter_In in Hc as [Hc _].
      apply in_or_app. now left.
    - intros c Hc. apply Hpre. apply filter_In in Hc. exact (proj1 Hc).
    - intros c Hc. apply filter_In in Hc. exact (proj2 Hc). }
  repeat split; auto.
  unfold gate2. rewrite Hids; simpl.
  rewrite nonempty_length_pos. apply Hscan.
Qed.

Lemma gate2_returns (df : DataFrame) (features : list string) (t : tally) :
  all_single df features -> exists t', gate2 df features t = Ok t'.
Proof.
  intros Hsingle.
  destruct (first_match (high_cardinality_id df) features)
    as [Hnone|[pre [col [post [Hsplit [Hcol Hpre]]]]]].
  - exists t. now apply gate2_silent.
  - destruct (high_cardinality_column df col Hcol) as [s [Hget [Hobj Hn]]].
    subst features.
    destruct (gate2_fires df pre post col s t Hsingle Hpre Hget Hobj Hn)
      as [_ [_ H]]. eauto.
Qed.

Lemma gates_1_3_returns (df : DataFrame) (target_col date_col : string) :
  NoDup (labels df) -> exists t3, gates_1_3 df target_col date_col = Ok t3.
Proof.
  intros Hnd. unfold gates_1_3.
  destruct (gate2_returns df (feature_cols df target_col date_col)
              (gate1 (feature_cols df target_col date_col) (0, [])))
    as [t2 H2].
  - now apply all_single_features.
  - rewrite H2; simpl. eauto.
Qed.

(** *** What the analysis does to the table *)

Lemma gate4_frame (df : DataFrame) (date_col : string) (h : Z) (t : tally) :
  (exists e, parse_date_col df date_col = Raise e
             /\ fst (gate4 df date_col h t) = df)
  \/ (exists stamps,
         parse_date_col df date_col = Ok stamps
         /\ fst (gate4 df date_col h t)
            = setitem df date_col (DatetimeSeries stamps)).
Proof.
  destruct (parse_date_col df date_col) as [stamps|e] eqn:E.
  - right. exists stamps. now rewrite (gate4_parsed _ _ _ _ _ E).
  - left. exists e. now rewrite (gate4_unparsed _ _ _ _ _ E).
Qed.

Lemma analyze_dataset_frame (df : DataFrame) (target_col date_col : string)
    (h : Z) :
  fst (analyze_dataset df target_col date_col h) = df
  \/ (exists stamps,
         parse_date_col df date_col = Ok stamps
         /\ fst (analyze_dataset df target_col date_col h)
            = setitem df date_col (DatetimeSeries stamps)).
Proof.
  unfold analyze_dataset, gates_1_4.
  destruct (gates_1_3 df target_col date_col) as [t3|e]; simpl; [|now left].
  destruct (gate4_frame df date_col h t3) as [[e [_ H]]|[stamps [Hp H]]];
    destruct (gate4 df date_col h t3) as [df' t4]; simpl in *; subst; eauto.
Qed.

Lemma getitem_after_parse (df : DataFrame) (date_col c : string)
    (stamps : list (option Z)) :
  parse_date_col df date_col = Ok stamps ->
  (exists it, getitem df c = Ok it) ->
  exists it, getitem (setitem df date_col (DatetimeSeries stamps)) c = Ok it.
Proof.
  intros Hp [it Hit].
  destruct (String.eqb_spec c date_col) as [->|Hne].
  - destruct (parse_date_col_ok _ _ _ Hp) as [s [Hs _]].
    rewrite (getitem_setitem_same df date_col s _ Hs). eauto.
  - rewrite (getitem_setitem_other df date_col c _ Hne). eauto.
Qed.

(** *** Running the analysis on the table a run has left *)

Lemma nunique_at_ext (df1 df : DataFrame) (c : string) :
  getitem df1 c = getitem df c -> nunique_at df1 c = nunique_at df c.
Proof. unfold nunique_at. now intros ->. Qed.

Lemma is_potential_id_ext (df1 df : DataFrame) (c : string) :
  getitem df1 c = getitem df c -> is_potential_id df1 c = is_potential_id df c.
Proof.
  intros H. unfold is_potential_id. now rewrite (nunique_at_ext _ _ _ H), H.
Qed.

Lemma potential_ids_ext (df1 df : DataFrame) (l : list string) :
  (forall c, In c l -> getitem df1 c = getitem df c) ->
  potential_ids df1 l = potential_ids df l.
Proof.
  induction l as [|c l IH]; intros H; simpl; [reflexivity|].
  rewrite (is_potential_id_ext df1 df c) by (apply H; now left).
  rewrite IH; [reflexivity|]. intros x Hx. apply H. now right.
Qed.

Lemma scan_ids_ext (df1 df : DataFrame) (l : list string) (t : tally) :
  (forall c, In c l -> getitem df1 c = getitem df c) ->
  scan_ids df1 l t = scan_ids df l t.
Proof.
  induction l as [|c l IH]; intros H; simpl; [reflexivity|].
  rewrite (nunique_at_ext df1 df c) by (apply H; now left).
  rewrite IH; [reflexivity|]. intros x Hx. apply H. now right.
Qed.

Lemma potential_ids_incl (df : DataFrame) (l ids : list string) :
  potential_ids df l = Ok ids -> incl ids l.
Proof.
  revert ids. induction l as [|c l IH]; simpl; intros ids.
  - intros [= <-]. apply incl_refl.
  - destruct (is_potential_id df c) as [keep|e]; simpl; [|discriminate].
    destruct (potential_ids df l) as [ids'|e]; simpl; [|discriminate].
    intros [= <-]. specialize (IH ids' eq_refl).
    destruct keep.
    + intros x [->|Hx]; [now left|right; now apply IH].
    + intros x Hx. right. now apply IH.
Qed.

Lemma gate2_ext (df1 df : DataFrame) (l : list string) (t : tally) :
  (forall c, In c l -> getitem df1 c = getitem df c) ->
  gate2 df1 l t = gate2 df l t.
Proof.
  intros H. unfold gate2. rewrite (potential_ids_ext df1 df l H).
  destruct (potential_ids df l) as [ids|e] eqn:E; simpl; [|reflexivity].
  destruct (0 <? _); [|reflexivity].
  apply scan_ids_ext. intros c Hc. apply H.
  now apply (potential_ids_incl df l ids E).
Qed.

Lemma gates_1_3_after_parse (df : DataFrame) (target_col date_col : string)
    (stamps : list (option Z)) :
  parse_date_col df date_col = Ok stamps ->
  gates_1_3 (setitem df date_col (DatetimeSeries stamps)) target_col date_col
  = gates_1_3 df target_col date_col.
Proof.
  intros Hp. destruct (parse_date_col_ok _ _ _ Hp) as [s [Hs _]].
  assert (Hpres := present_of_getitem _ _ _ Hs).
  unfold gates_1_3, feature_cols, gate3, len.
  rewrite (labels_setitem _ _ _ Hpres), index_len_setitem.
  rewrite (gate2_ext (setitem df date_col (DatetimeSeries stamps)) df);
    [reflexivity|].
  intros c Hc. apply filter_In in Hc as [_ Hc].
  apply getitem_setitem_other.
  apply negb_true_iff, orb_false_iff in Hc as [_ Hc].
  now apply String.eqb_neq.
Qed.

Section Rerun.

(** Dates that are already parsed parse to themselves. *)
Hypothesis to_datetime_parsed :
  forall stamps, to_datetime (DatetimeSeries stamps) = Ok stamps.

Lemma gate4_after_parse (df : DataFrame) (date_col : string) (h : Z)
    (t : tally) (stamps : list (option Z)) :
  parse_date_col df date_col = Ok stamps ->
  gate4 (setitem df date_col (DatetimeSeries stamps)) date_col h t
  = gate4 df date_col h t.
Proof using Type to_datetime_parsed.
  intros Hp. destruct (parse_date_col_ok _ _ _ Hp) as [s [Hs _]].
  assert (Hp' : parse_date_col (setitem df date_col (DatetimeSeries stamps))
                  date_col = Ok stamps).
  { unfold parse_date_col.
    rewrite (getitem_setitem_same df date_col s _ Hs); simpl.
    apply to_datetime_parsed. }
  rewrite (gate4_parsed _ _ _ _ _ Hp'), (gate4_parsed _ _ _ _ _ Hp).
  now rewrite (setitem_twice _ _ _ (present_of_getitem _ _ _ Hs)).
Qed.

Lemma analyze_dataset_again (df : DataFrame) (target_col date_col : string)
    (h : Z) :
  analyze_dataset (fst (analyze_dataset df target_col date_col h))
    target_col date_col h
  = analyze_dataset df target_col date_col h.
Proof using Type to_datetime_parsed.
  destruct (analyze_dataset_frame df target_col date_col h)
    as [H|[stamps [Hp H]]]; rewrite H.
  - destruct (analyze_dataset df target_col date_col h) as [df' r] eqn:E.
    simpl in H. now subst df'.
  - unfold analyze_dataset, gates_1_4 in *.
    rewrite (gates_1_3_after_parse _ _ _ _ Hp).
    destruct (gates_1_3 df target_col date_col) as [t3|e]; simpl in *.
    + now rewrite (gate4_after_parse _ _ _ _ _ Hp).
    + now rewrite <- H.
Qed.

End Rerun.

(** *** What a returned pair looks like *)

Lemma in_gate_order_same_gate (g : Z) (reasons : list string) (a b : string) :
  in_gate_order g reasons -> In a reasons -> In b reasons ->
  gate_of_reason a = gate_of_reason b -> a = b.
Proof.
  intros [Hs _]. induction reasons as [|x rs IH]; simpl; [contradiction|].
  simpl in Hs. inversion Hs as [|? ? Hs' Hx]; subst.
  rewrite Forall_map, Forall_forall in Hx.
  intros [Ha|Ha] [Hb|Hb] Heq; subst; auto.
  - specialize (Hx b Hb). lia.
  - specialize (Hx a Ha). lia.
Qed.

Lemma gates_1_4_upto (df df' : DataFrame) (target_col date_col : string)
    (h : Z) (t4 : tally) :
  gates_1_4 df target_col date_col h = (df', Ok t4) -> tally_upto 4 t4.
Proof.
  unfold gates_1_4.
  destruct (gates_1_3 df target_col date_col) as [t3|e] eqn:E3;
    [|discriminate].
  assert (H := gate4_upto df date_col h t3 (gates_1_3_upto _ _ _ _ E3)).
  destruct (gate4 df date_col h t3) as [df1 t]. simpl in H.
  now intros [= _ <-].
Qed.

Lemma analyze_dataset_returned (df df' : DataFrame)
    (target_col date_col : string) (h score : Z) (reasons : list string) :
  analyze_dataset df target_col date_col h = (df', Ok (score, reasons)) ->
  exists t4 target_item,
    gates_1_4 df target_col date_col h = (df', Ok t4)
    /\ getitem df' target_col = Ok target_item
    /\ score = fst t4
    /\ reasons = (snd t4 ++ seasonality_note target_item (fst t4))%list.
Proof.
  unfold analyze_dataset.
  destruct (gates_1_4 df target_col date_col h) as [df1 [t4|e]] eqn:E4;
    simpl; [|discriminate].
  destruct (getitem df1 target_col) as [target_item|e] eqn:Et.
  - rewrite (gate5_outcome df1 target_col target_item t4 Et).
    intros [= <- <- <-]. exists t4, target_item. auto.
  - unfold gate5. rewrite Et. discriminate.
Qed.

(** ** The claims *)

(** C1. On a table with distinct labels that holds the target column,
    exactly 3 feature columns, a categorical feature column with 15
    distinct values, 600,000 rows and a date column that parses to a
    span of 100 days, the analysis with horizon 30 returns score 4:
    gates 1, 2, 3 and 4 each add exactly one to the score and one reason
    (gate 2 for the first feature column with more than 10 distinct
    values), gate 5 adds at most the seasonality reason, and the caller's
    mapping of score 4 is the advanced tool. *)
Theorem scenario_scores_four
    (df : DataFrame) (target_col date_col : string) (stamps : list (option Z)) :
  NoDup (labels df) ->
  In target_col (labels df) ->
  let features := feature_cols df target_col date_col in
  List.length features = 3%nat ->
  (exists c s, In c features /\ getitem df c = Ok (OneColumn s)
               /\ Series_dtype s = DObject /\ nunique s = 15) ->
  len df = 600000 ->
  parse_date_col df date_col = Ok stamps ->
  date_span stamps = Ok (Some 100) ->
  exists col s target_item,
    let df' := setitem df date_col (DatetimeSeries stamps) in
    let r1 := reason_multivariate features in
    let r2 := reason_granularity col (nunique s) in
    let r3 := reason_volume 600000 in
    let r4 := reason_horizon 30 100 in
    In col features
    /\ getitem df col = Ok (OneColumn s)
    /\ Series_dtype s = DObject
    /\ 10 < nunique s
    /\ getitem df' target_col = Ok target_item
    /\ gate1 features (0, []) = (1, [r1])
    /\ gate2 df features (1, [r1]) = Ok (2, [r1; r2])
    /\ gate3 df (2, [r1; r2]) = (3, [r1; r2; r3])
    /\ gate4 df date_col 30 (3, [r1; r2; r3]) = (df', (4, [r1; r2; r3; r4]))
    /\ analyze_dataset df target_col date_col 30
       = (df', Ok (4, ([r1; r2; r3; r4] ++ seasonality_note target_item 4)%list))
    /\ recommend 4 = AzureMachineLearning.
Proof.
  intros Hnd Htarget features Hcount [c [sc [Hc [Hgetc [Hobjc Hnc]]]]]
         Hrows Hparse Hspan.
  assert (Hsingle : all_single df features) by now apply all_single_features.
  destruct (first_match (high_cardinality_id df) features)
    as [Hnone|[pre [col [post [Hsplit [Hcol Hpre]]]]]].
  { specialize (Hnone c Hc). unfold high_cardinality_id in Hnone.
    rewrite Hgetc, Hobjc, Hnc in Hnone. discriminate. }
  destruct (high_cardinality_column df col Hcol) as [s [Hget [Hobj Hn]]].
  destruct (getitem_one_column df target_col Hnd Htarget) as [st [Hst _]].
  destruct (getitem_after_parse df date_col target_col stamps Hparse
              (ex_intro _ _ Hst)) as [target_item Htarget_item].
  exists col, s, target_item. intros df' r1 r2 r3 r4.
  assert (G1 : gate1 features (0, []) = (1, [r1])).
  { unfold gate1. rewrite Hcount. reflexivity. }
  assert (G2 : gate2 df features (1, [r1]) = Ok (2, [r1; r2])).
  { rewrite Hsplit in Hsingle |- *.
    now destruct (gate2_fires df pre post col s (1, [r1])
                    Hsingle Hpre Hget Hobj Hn) as [_ [_ ->]]. }
  assert (G3 : gate3 df (2, [r1; r2]) = (3, [r1; r2; r3])).
  { unfold gate3. rewrite Hrows. reflexivity. }
  assert (G4 : gate4 df date_col 30 (3, [r1; r2; r3])
               = (df', (4, [r1; r2; r3; r4]))).
  { rewrite (gate4_parsed _ _ _ _ _ Hparse), Hspan. reflexivity. }
  repeat split; auto.
  - rewrite Hsplit. apply in_or_app. right. now left.
  - assert (G14 : gates_1_4 df target_col date_col 30
                  = (df', Ok (4, [r1; r2; r3; r4]))).
    { unfold gates_1_4, gates_1_3. fold features.
      rewrite G1, G2; simpl. rewrite G3, G4. reflexivity. }
    now rewrite (analyze_dataset_after_gate4 _ _ _ _ _ _ _ G14 Htarget_item).
Qed.

(** C2 as amended. The analysis changes the table at the date column
    only: the row count, the labels and their order, and every column
    other than the date column are after the call as before it.  When
    the dates do not parse, or gate 2 raises, the table is left as it
    was; otherwise the date column is replaced in place by its parsed
    instants. *)
Theorem analyze_dataset_changes_only_date_col
    (df : DataFrame) (target_col date_col : string) (h : Z) :
  let df' := fst (analyze_dataset df target_col date_col h) in
  index_len df' = index_len df
  /\ labels df' = labels df
  /\ (forall c, c <> date_col -> getitem df' c = getitem df c)
  /\ (forall e, parse_date_col df date_col = Raise e -> df' = df)
  /\ (forall e, gates_1_3 df target_col date_col = Raise e -> df' = df)
  /\ (forall t3 stamps,
        gates_1_3 df target_col date_col = Ok t3 ->
        parse_date_col df date_col = Ok stamps ->
        df' = setitem df date_col (DatetimeSeries stamps)
        /\ getitem df' date_col = Ok (OneColumn (DatetimeSeries stamps))).
Proof.
  intros df'.
  assert (Hraised : forall e,
             gates_1_3 df target_col date_col = Raise e -> df' = df).
  { intros e He. unfold df', analyze_dataset, gates_1_4. now rewrite He. }
  assert (Hparsed : forall t3 stamps,
             gates_1_3 df target_col date_col = Ok t3 ->
             parse_date_col df date_col = Ok stamps ->
             df' = setitem df date_col (DatetimeSeries stamps)
             /\ getitem df' date_col = Ok (OneColumn (DatetimeSeries stamps))).
  { intros t3 stamps H3 Hp.
    assert (E : df' = setitem df date_col (DatetimeSeries stamps)).
    { unfold df', analyze_dataset.
      rewrite (gates_1_4_after_gate3 _ _ _ _ _ H3); simpl.
      now rewrite (gate4_parsed _ _ _ _ _ Hp). }
    split; [exact E|]. rewrite E.
    destruct (parse_date_col_ok _ _ _ Hp) as [s [Hs _]].
    now apply (getitem_setitem_same df date_col s). }
  assert (Hrest :
            index_len df' = index_len df
            /\ labels df' = labels df
            /\ (forall c, c <> date_col -> getitem df' c = getitem df c)
            /\ (forall e, parse_date_col df date_col = Raise e -> df' = df)).
  { destruct (analyze_dataset_frame df target_col date_col h)
      as [H|[stamps [Hp H]]]; fold df' in H; rewrite H.
    - repeat split; auto.
    - destruct (parse_date_col_ok _ _ _ Hp) as [s [Hs _]].
      assert (Hpres := present_of_getitem _ _ _ Hs).
      split; [apply index_len_setitem|].
      split; [now apply labels_setitem|].
      split; [intros c Hc; now apply getitem_setitem_other|].
      intros e He. rewrite He in Hp. discriminate. }
  destruct Hrest as [Hlen [Hlabels [Hother Hfailed]]].
  repeat (split; [assumption|]). exact Hparsed.
Qed.

(** C3. Gate 4 fires on a strict inequality.  On a table whose parsed
    date column spans 100 days, the analysis with horizon 26 has one
    more in the score than gates 1 to 3 gave and the horizon reason next
    in the reasons, and the analysis with horizon 25 has the score of
    gates 1 to 3 and no horizon reason.  In general gate 4 divides only
    when the span is above 0: with no span or a span of 0 or less it
    leaves the tally as it is for every horizon, with a span above 0
    (and a quotient in the range of a float) it fires exactly when the
    horizon is more than a quarter of the span, and when the difference
    of the latest and the earliest date raises there is no span and no
    division: the exception becomes the warning of gate 4, for every
    horizon. *)
Theorem gate4_strict_ratio_boundary
    (df : DataFrame) (target_col date_col : string)
    (stamps : list (option Z)) (t3 : tally) (col : item) :
  parse_date_col df date_col = Ok stamps ->
  gates_1_3 df target_col date_col = Ok t3 ->
  let df' := setitem df date_col (DatetimeSeries stamps) in
  getitem df' target_col = Ok col ->
  (date_span stamps = Ok (Some 100) ->
   analyze_dataset df target_col date_col 26
   = (df', Ok (fst t3 + 1,
               (snd t3 ++ reason_horizon 26 100
                  :: seasonality_note col (fst t3 + 1))%list))
   /\ analyze_dataset df target_col date_col 25
      = (df', Ok (fst t3, (snd t3 ++ seasonality_note col (fst t3))%list))
   /\ ~ In (reason_horizon 25 100)
           (snd t3 ++ seasonality_note col (fst t3)))
  /\ (forall h,
        date_span stamps = Ok None
        \/ (exists d, date_span stamps = Ok (Some d) /\ d <= 0) ->
        gates_1_4 df target_col date_col h = (df', Ok t3))
  /\ (forall h d,
        date_span stamps = Ok (Some d) -> 0 < d ->
        Z.abs h < DBL_OVERFLOW * d ->
        gates_1_4 df target_col date_col h
        = (df', Ok (if d <? 4 * h
                    then (fst t3 + 1, (snd t3 ++ [reason_horizon h d])%list)
                    else t3)))
  /\ (forall h e,
        date_span stamps = Raise e ->
        gates_1_4 df target_col date_col h
        = (df', Ok (fst t3, (snd t3 ++ [reason_date_warning e])%list))).
Proof.
  intros Hparse H3 df' Hcol.
  assert (H4 : forall h,
             gates_1_4 df target_col date_col h
             = (df', Ok (horizon_outcome h (date_span stamps) t3))).
  { intros h. rewrite (gates_1_4_after_gate3 _ _ _ _ _ H3).
    now rewrite (gate4_parsed _ _ _ _ _ Hparse). }
  split; [|split; [|split]].
  - intros Hspan. rewrite Hspan in H4.
    split; [|split].
    + rewrite (analyze_dataset_after_gate4 _ _ _ _ _ _ _ (H4 26) Hcol).
      cbn. now rewrite <- app_assoc.
    + rewrite (analyze_dataset_after_gate4 _ _ _ _ _ _ _ (H4 25) Hcol).
      reflexivity.
    + intros Hin. apply in_app_or in Hin as [Hin|Hin].
      * apply gates_1_3_upto in H3 as [_ Hord].
        revert Hin. apply (in_gate_order_not_later 3); [exact Hord|].
        rewrite gate_of_horizon. lia.
      * destruct (seasonality_note_cases col (fst t3)) as [E|E];
          rewrite E in Hin; simpl in Hin; [contradiction|].
        destruct Hin as [Hin|[]]. revert Hin.
        unfold reason_seasonality, reason_horizon. simpl. discriminate.
  - intros h Hspan. rewrite H4.
    destruct Hspan as [->|[d [-> Hd]]]; [reflexivity|].
    unfold horizon_outcome. apply Z.ltb_ge in Hd. now rewrite Hd.
  - intros h d Hspan Hd Hh. rewrite H4, Hspan. unfold horizon_outcome.
    assert (Hpos : (0 <? d) = true) by now apply Z.ltb_lt.
    rewrite Hpos. unfold true_div.
    replace (d =? 0) with false by (symmetry; apply Z.eqb_neq; lia).
    replace (DBL_OVERFLOW * Z.abs d <=? Z.abs h) with false
      by (symmetry; apply Z.leb_gt; rewrite (Z.abs_eq d); lia).
    rewrite (ratio_above_quarter h d Hd). reflexivity.
  - intros h e Hspan. rewrite H4, Hspan. reflexivity.
Qed.

(** C4. Gate 2 adds at most one to the score and at most one reason.
    On a table with distinct labels it either finds no categorical
    feature column with more than 10 distinct values and leaves the
    tally as it is, or it adds exactly one to the score and exactly one
    reason, whose text names the first such column in column order and
    gives its number of distinct values (twice, as the message has it);
    the loop over [potential_ids] stops there: its outcome is the same
    whatever follows that column. *)
Theorem gate2_fires_once_on_first_match
    (df : DataFrame) (target_col date_col : string) (t : tally) :
  NoDup (labels df) ->
  let features := feature_cols df target_col date_col in
  ((forall c, In c features -> high_cardinality_id df c = false)
   /\ gate2 df features t = Ok t)
  \/
  (exists pre col post s ids_before,
      let reason :=
        ("🏪 **High Granularity:** The column '" ++ col ++ "' has "
         ++ str_int (nunique s) ++ " unique items. Training "
         ++ str_int (nunique s)
         ++ " separate models requires Azure's 'Many Models' accelerator.")%string in
      features = (pre ++ col :: post)%list
      /\ (forall c, In c pre -> high_cardinality_id df c = false)
      /\ getitem df col = Ok (OneColumn s)
      /\ Series_dtype s = DObject
      /\ 10 < nunique s
      /\ gate2 df features t = Ok (fst t + 1, (snd t ++ [reason])%list)
      /\ potential_ids df features
         = Ok (ids_before ++ col :: filter (is_categorical_id df) post)%list
      /\ forall rest,
           scan_ids df (ids_before ++ col :: rest) t
           = Ok (fst t + 1, (snd t ++ [reason])%list)).
Proof.
  intros Hnd features.
  assert (Hsingle : all_single df features) by now apply all_single_features.
  destruct (first_match (high_cardinality_id df) features)
    as [Hnone|[pre [col [post [Hsplit [Hcol Hpre]]]]]].
  - left. split; [exact Hnone|]. now apply gate2_silent.
  - right.
    destruct (high_cardinality_column df col Hcol) as [s [Hget [Hobj Hn]]].
    exists pre, col, post, s, (filter (is_categorical_id df) pre).
    rewrite Hsplit in Hsingle |- *.
    destruct (gate2_fires df pre post col s t Hsingle Hpre Hget Hobj Hn)
      as [Hids [Hscan Hgate]].
    unfold reason_granularity in Hscan, Hgate.
    repeat split; auto.
Qed.

(** C5. [check_seasonality] returns a boolean on every input and lets
    no exception out: it is [false] when fewer than 50 values are left
    of the coerced series once the missing ones are dropped, whatever
    the values are; it is [false] when the coercion raises, when the
    autocorrelation raises, and when anything else in its body raises;
    and it is [true] exactly on 50 values or more whose autocorrelation
    is above 0.3 at lag 7 or at one of the lags 28 to 31. *)
Theorem check_seasonality_never_raises (series : item) :
  (check_seasonality series = true \/ check_seasonality series = false)
  /\ (forall xs,
        to_numeric_item series = Ok xs ->
        (List.length (dropna xs) < 50)%nat ->
        check_seasonality series = false)
  /\ (forall e,
        to_numeric_item series = Raise e -> check_seasonality series = false)
  /\ (forall xs e,
        to_numeric_item series = Ok xs ->
        acf (dropna xs) 40 = Raise e ->
        check_seasonality series = false)
  /\ (forall e,
        check_seasonality_try series = Raise e ->
        check_seasonality series = false)
  /\ (check_seasonality series = true <->
      exists xs acf_values acf_7,
        to_numeric_item series = Ok xs
        /\ (50 <= List.length (dropna xs))%nat
        /\ acf (dropna xs) 40 = Ok acf_values
        /\ nth_error acf_values 7 = Some acf_7
        /\ (above_threshold acf_7 = true
            \/ existsb above_threshold (slice 28 32 acf_values) = true)).
Proof.
  unfold check_seasonality, check_seasonality_try.
  split; [|split; [|split; [|split; [|split]]]].
  - destruct (try_except _ _); auto.
  - intros xs Hxs Hlen. rewrite Hxs; simpl.
    replace (Z.of_nat (List.length (dropna xs)) <? 50) with true
      by (symmetry; apply Z.ltb_lt; lia).
    reflexivity.
  - intros e He. now rewrite He.
  - intros xs e Hxs Hacf. rewrite Hxs; simpl.
    destruct (_ <? 50); [reflexivity|]. now rewrite Hacf.
  - intros e He. now rewrite He.
  - split.
    + destruct (to_numeric_item series) as [xs|e]; simpl; [|discriminate].
      destruct (Z.of_nat (List.length (dropna xs)) <? 50) eqn:Elen;
        simpl; [discriminate|].
      destruct (acf (dropna xs) 40) as [acf_values|e] eqn:Eacf;
        simpl; [|discriminate].
      unfold index. destruct (nth_error acf_values 7) as [acf_7|] eqn:E7;
        simpl; [|discriminate].
      destruct (above_threshold acf_7 || _) eqn:Eabove; simpl; [|discriminate].
      intros _. exists xs, acf_values, acf_7.
      apply Z.ltb_ge in Elen. apply orb_true_iff in Eabove.
      split; [reflexivity|]. split; [lia|].
      split; [exact Eacf|]. split; [exact E7|exact Eabove].
    + intros [xs [acf_values [acf_7 [Hxs [Hlen [Hacf [H7 Habove]]]]]]].
      rewrite Hxs; simpl.
      replace (Z.of_nat (List.length (dropna xs)) <? 50) with false
        by (symmetry; apply Z.ltb_ge; lia).
      rewrite Hacf; simpl. unfold index. rewrite H7; simpl.
      apply orb_true_iff in Habove. now rewrite Habove.
Qed.

(** C6. When the parsing of the dates of gate 4 fails, on a table with
    distinct labels that holds the target column, the analysis does not
    raise: it returns the score of gates 1 to 3 unchanged, and the
    reasons of gates 1 to 3 followed by exactly one warning that carries
    the text of the failure and then by what gate 5 adds; the table is
    left as it was. *)
Theorem date_parse_failure_becomes_warning
    (df : DataFrame) (target_col date_col : string) (h : Z) (e : exn) :
  NoDup (labels df) ->
  In target_col (labels df) ->
  parse_date_col df date_col = Raise e ->
  exists t3 target_item,
    gates_1_3 df target_col date_col = Ok t3
    /\ getitem df target_col = Ok target_item
    /\ gate4 df date_col h t3
       = (df, (fst t3, (snd t3 ++ [reason_date_warning e])%list))
    /\ reason_date_warning e = "⚠️ Could not calculate Date logic: " ++ str e
    /\ analyze_dataset df target_col date_col h
       = (df, Ok (fst t3,
                  (snd t3 ++ reason_date_warning e
                     :: seasonality_note target_item (fst t3))%list)).
Proof.
  intros Hnd Htarget Hparse.
  destruct (gates_1_3_returns df target_col date_col Hnd) as [t3 H3].
  destruct (getitem_one_column df target_col Hnd Htarget) as [st [Hst _]].
  exists t3, (OneColumn st).
  assert (G4 := gate4_unparsed df date_col h t3 e Hparse).
  repeat split; auto.
  assert (G14 : gates_1_4 df target_col date_col h
                = (df, Ok (add_reason t3 (reason_date_warning e)))).
  { rewrite (gates_1_4_after_gate3 _ _ _ _ _ H3), G4. reflexivity. }
  rewrite (analyze_dataset_after_gate4 _ _ _ _ _ _ _ G14 Hst).
  simpl. now rewrite <- app_assoc.
Qed.

(** C7. Gate 5 never changes the score.  On a table with distinct
    labels that holds the target column the analysis returns, its score
    is the score of gates 1 to 4, and its reasons are those of gates 1
    to 4, followed by the seasonality reason exactly when the detector
    says true on the target column and that score is above 0.  The
    seasonality reason is not among the reasons of gates 1 to 4, so it
    appears, as the last reason, exactly in that case, and never when
    the score is 0. *)
Theorem gate5_never_changes_score
    (df : DataFrame) (target_col date_col : string) (h : Z) :
  NoDup (labels df) ->
  In target_col (labels df) ->
  exists df' t4 target_item reasons,
    gates_1_4 df target_col date_col h = (df', Ok t4)
    /\ getitem df' target_col = Ok target_item
    /\ analyze_dataset df target_col date_col h = (df', Ok (fst t4, reasons))
    /\ (check_seasonality target_item = true /\ 0 < fst t4 ->
        reasons = (snd t4 ++ [reason_seasonality])%list)
    /\ (~ (check_seasonality target_item = true /\ 0 < fst t4) ->
        reasons = snd t4)
    /\ ~ In reason_seasonality (snd t4)
    /\ (In reason_seasonality reasons <->
        check_seasonality target_item = true /\ 0 < fst t4)
    /\ (fst t4 = 0 -> ~ In reason_seasonality reasons).
Proof.
  intros Hnd Htarget.
  destruct (gates_1_3_returns df target_col date_col Hnd) as [t3 H3].
  assert (G14 := gates_1_4_after_gate3 df target_col date_col h t3 H3).
  set (df' := fst (gate4 df date_col h t3)) in *.
  set (t4 := snd (gate4 df date_col h t3)) in *.
  destruct (getitem_one_column df target_col Hnd Htarget) as [st [Hst _]].
  assert (Hitem : exists it, getitem df' target_col = Ok it).
  { unfold df'.
    destruct (gate4_frame df date_col h t3) as [[e [_ ->]]|[stamps [Hp ->]]];
      [eauto|].
    apply (getitem_after_parse df date_col target_col stamps Hp). eauto. }
  destruct Hitem as [target_item Hitem].
  assert (Hnot : ~ In reason_seasonality (snd t4)).
  { destruct (gates_1_4_upto _ _ _ _ _ _ G14) as [_ Hord].
    apply (in_gate_order_not_later 4); [exact Hord|].
    rewrite gate_of_seasonality. lia. }
  exists df', t4, target_item,
         (snd t4 ++ seasonality_note target_item (fst t4))%list.
  split; [exact G14|]. split; [exact Hitem|].
  split; [now apply (analyze_dataset_after_gate4 _ _ _ _ _ _ _ G14)|].
  assert (Hnote :
            (check_seasonality target_item = true /\ 0 < fst t4
             /\ seasonality_note target_item (fst t4) = [reason_seasonality])
            \/ (~ (check_seasonality target_item = true /\ 0 < fst t4)
                /\ seasonality_note target_item (fst t4) = [])).
  { unfold seasonality_note.
    destruct (check_seasonality target_item);
      destruct (Z.ltb_spec 0 (fst t4)); simpl;
      [left; auto|right|right|right]; (split; [|reflexivity]);
      intros [Hc Hs]; first [discriminate | lia]. }
  destruct Hnote as [[Hc [Hs ->]]|[Hno ->]].
  - split; [reflexivity|].
    split; [intros Hno; exfalso; apply Hno; split; assumption|].
    split; [exact Hnot|]. split; [|lia].
    split; [intros _; split; assumption|].
    intros _. apply in_or_app. right. now left.
  - rewrite app_nil_r.
    split; [intros H; exfalso; exact (Hno H)|].
    split; [reflexivity|]. split; [exact Hnot|].
    split; [|intros _; exact Hnot].
    split; [intros H; exfalso; exact (Hnot H)|intros H; exfalso; exact (Hno H)].
Qed.

(** C8. Gate 3 fires on a strict threshold of the row count: with at
    most 500,000 rows it leaves score and reasons as they are; with
    500,001 rows or more it adds exactly one to the score and appends
    exactly one reason, the volume reason, whose text holds the row
    count written with thousands separators (its digits are those of the
    row count). *)
Theorem gate3_strict_row_threshold (df : DataFrame) (t : tally) :
  (len df <= 500000 -> gate3 df t = t)
  /\ (500001 <= len df ->
      gate3 df t = (fst t + 1, (snd t ++ [reason_volume (len df)])%list))
  /\ reason_volume (len df)
     = "💾 **High Volume:** Dataset has " ++ str_int_grouped (len df)
       ++ " rows. Power BI may hit timeout limits during training."
  /\ without_commas (str_int_grouped (len df)) = str_int (len df).
Proof.
  unfold gate3. repeat split.
  - intros H. apply Z.ltb_ge in H. now rewrite H.
  - intros H. assert (H' : (500000 <? len df) = true) by (apply Z.ltb_lt; lia).
    now rewrite H'.
  - apply str_int_grouped_digits, len_nonneg.
Qed.

(** C9. Running the analysis twice on the same table with the same
    parameters gives the same score and the same reasons in the same
    order both times.  The second run works on the table as the first
    run left it, with the date column parsed; as dates that are already
    parsed parse to themselves, it returns (or raises) what the first
    run did and leaves the table as the first run left it. *)
Theorem analyze_dataset_idempotent :
  (forall stamps, to_datetime (DatetimeSeries stamps) = Ok stamps) ->
  forall (df : DataFrame) (target_col date_col : string) (h : Z),
    let first := analyze_dataset df target_col date_col h in
    let second := analyze_dataset (fst first) target_col date_col h in
    snd second = snd first /\ fst second = fst first.
Proof.
  intros Hparsed df target_col date_col h first second.
  unfold second, first.
  now rewrite (analyze_dataset_again Hparsed df target_col date_col h).
Qed.

(** C10. Whatever pair the analysis returns is bounded: the score is
    between 0 and 4, and the reasons are at most 5, in gate order with
    at most one from each gate; gate 4 in particular never gives both
    its horizon reason and its warning. *)
Theorem analyze_dataset_bounded
    (df df' : DataFrame) (target_col date_col : string) (h score : Z)
    (reasons : list string) :
  analyze_dataset df target_col date_col h = (df', Ok (score, reasons)) ->
  0 <= score <= 4
  /\ (List.length reasons <= 5)%nat
  /\ in_gate_order 5 reasons
  /\ (forall k, (List.length (filter (from_gate k) reasons) <= 1)%nat)
  /\ (forall h' d e,
        ~ (In (reason_horizon h' d) reasons
           /\ In (reason_date_warning e) reasons)).
Proof.
  intros H.
  destruct (analyze_dataset_returned _ _ _ _ _ _ _ H)
    as [t4 [target_item [G14 [_ [-> ->]]]]].
  destruct (gates_1_4_upto _ _ _ _ _ _ G14) as [Hscore Hord].
  assert (Hord5 : in_gate_order 5
                    (snd t4 ++ seasonality_note target_item (fst t4))).
  { destruct (seasonality_note_cases target_item (fst t4)) as [->| ->].
    - rewrite app_nil_r. apply (in_gate_order_weaken 4); [lia|exact Hord].
    - apply (in_gate_order_snoc 4); [exact Hord|reflexivity|lia|lia]. }
  split; [exact Hscore|]. split; [|split; [exact Hord5|split]].
  - assert (Hlen := in_gate_order_length 5 _ ltac:(lia) Hord5). lia.
  - intros k. now apply (in_gate_order_one_per_gate 5).
  - intros h' d e [Hh Hw].
    apply (horizon_is_not_warning h' d e).
    apply (in_gate_order_same_gate 5 _ _ _ Hord5 Hh Hw).
    now rewrite gate_of_horizon, gate_of_date_warning.
Qed.

(** ** Further properties *)

(** *** Counting the feature columns *)

Lemma filter_absent_label (x : string) (l : list string) :
  ~ In x l -> filter (fun c => String.eqb c x) l = [].
Proof.
  induction l as [|a l IH]; simpl; intros Hx; [reflexivity|].
  destruct (String.eqb_spec a x) as [->|Hne].
  - exfalso. apply Hx. now left.
  - apply IH. intros H. apply Hx. now right.
Qed.

Lemma filter_single_label (x : string) (l : list string) :
  NoDup l -> In x l ->
  List.length (filter (fun c => String.eqb c x) l) = 1%nat.
Proof.
  induction l as [|a l IH]; simpl; intros Hnd Hx; [contradiction|].
  inversion Hnd as [|? ? Ha Hnd']; subst.
  destruct (String.eqb_spec a x) as [->|Hne].
  - simpl. now rewrite (filter_absent_label x l Ha).
  - destruct Hx as [Hx|Hx]; [congruence|]. now apply IH.
Qed.

Lemma filter_either_length {A : Type} (p q : A -> bool) (l : list A) :
  (forall a, p a = true -> q a = false) ->
  List.length (filter (fun a => p a || q a) l)
  = (List.length (filter p l) + List.length (filter q l))%nat.
Proof.
  intros Hpq. induction l as [|a l IH]; simpl; [reflexivity|].
  destruct (p a) eqn:Ep; simpl.
  - rewrite (Hpq a Ep). simpl. now rewrite IH.
  - destruct (q a); simpl; rewrite IH; lia.
Qed.

Lemma feature_cols_count (df : DataFrame) (target_col date_col : string) :
  NoDup (labels df) ->
  In target_col (labels df) -> In date_col (labels df) ->
  target_col <> date_col ->
  List.length (labels df)
  = (List.length (feature_cols df target_col date_col) + 2)%nat.
Proof.
  intros Hnd Ht Hd Hne. unfold feature_cols.
  rewrite <- (filter_length
                (fun c => String.eqb c target_col || String.eqb c date_col)
                (labels df)).
  rewrite filter_either_length.
  - rewrite (filter_single_label _ _ Hnd Ht), (filter_single_label _ _ Hnd Hd).
    lia.
  - intros a Ha. apply String.eqb_eq in Ha. subst a.
    now apply String.eqb_neq.
Qed.

(** *** One scoring reason for each point *)

Lemma counted_start : counted (0, []).
Proof. reflexivity. Qed.

Lemma counted_step (t t' : tally) : counted t -> gate_step t t' -> counted t'.
Proof.
  unfold counted. intros Ht [|r Hr|r Hr]; simpl; [exact Ht| |];
    rewrite filter_app, length_app; simpl; rewrite Hr; simpl; lia.
Qed.

Lemma gate1_step (features : list string) (t : tally) :
  gate_step t (gate1 features t).
Proof.
  unfold gate1. destruct (2 <? _); [|constructor].
  now apply step_bump.
Qed.

Lemma gate2_step (df : DataFrame) (features : list string) (t t' : tally) :
  gate2 df features t = Ok t' -> gate_step t t'.
Proof.
  intros H. destruct (gate2_outcome df features t t' H) as [->|[c [n ->]]];
    [constructor|now apply step_bump].
Qed.

Lemma gate3_step (df : DataFrame) (t : tally) : gate_step t (gate3 df t).
Proof.
  unfold gate3. destruct (500000 <? len df); [|constructor].
  now apply step_bump.
Qed.

(** Gate 4 leaves the tally, or adds a point with the horizon reason, or
    adds a warning alone. *)
Lemma gate4_outcome (df : DataFrame) (date_col : string) (h : Z) (t : tally) :
  snd (gate4 df date_col h t) = t
  \/ (exists d, snd (gate4 df date_col h t) = bump t (reason_horizon h d))
  \/ (exists e,
        snd (gate4 df date_col h t) = add_reason t (reason_date_warning e)).
Proof.
  destruct (parse_date_col df date_col) as [stamps|e] eqn:E.
  - rewrite (gate4_parsed _ _ _ _ _ E); simpl. unfold horizon_outcome.
    destruct (date_span stamps) as [[d|]|e]; [|now left|right; right; eauto].
    destruct (0 <? d); [|now left].
    destruct (true_div h d) as [ratio|e]; [|right; right; eauto].
    destruct (Qgtb ratio (1 # 4)); [right; left; eauto|now left].
  - rewrite (gate4_unparsed _ _ _ _ _ E); simpl. right. right. eauto.
Qed.

Lemma gate4_step (df : DataFrame) (date_col : string) (h : Z) (t : tally) :
  gate_step t (snd (gate4 df date_col h t)).
Proof.
  destruct (gate4_outcome df date_col h t) as [->|[[d ->]|[e ->]]];
    [constructor|now apply step_bump|now apply step_note].
Qed.

Lemma gates_1_3_counted (df : DataFrame) (target_col date_col : string)
    (t3 : tally) :
  gates_1_3 df target_col date_col = Ok t3 -> counted t3.
Proof.
  unfold gates_1_3.
  destruct (gate2 df _ _) as [t2|e] eqn:E2; simpl; [|discriminate].
  intros [= <-].
  apply (counted_step t2); [|apply gate3_step].
  eapply counted_step; [|exact (gate2_step _ _ _ _ E2)].
  eapply counted_step; [exact counted_start|apply gate1_step].
Qed.

Lemma gates_1_4_counted (df df' : DataFrame) (target_col date_col : string)
    (h : Z) (t4 : tally) :
  gates_1_4 df target_col date_col h = (df', Ok t4) -> counted t4.
Proof.
  unfold gates_1_4.
  destruct (gates_1_3 df target_col date_col) as [t3|e] eqn:E3;
    [|discriminate].
  assert (H := counted_step t3 _ (gates_1_3_counted _ _ _ _ E3)
                 (gate4_step df date_col h t3)).
  destruct (gate4 df date_col h t3) as [df1 t]. simpl in H.
  now intros [= _ <-].
Qed.

(** With no point of score after gate 3 there is no reason yet. *)
Lemma gates_1_3_zero (df : DataFrame) (target_col date_col : string)
    (t3 : tally) :
  gates_1_3 df target_col date_col = Ok t3 -> fst t3 = 0 -> t3 = (0, []).
Proof.
  unfold gates_1_3.
  destruct (gate2 df _ _) as [t2|e] eqn:E2; simpl; [|discriminate].
  intros [= <-].
  destruct (gate2_outcome _ _ _ _ E2) as [->|[c [n ->]]];
    unfold gate3, gate1;
    destruct (500000 <? len df); destruct (2 <? _); simpl; intros H;
    first [reflexivity | lia].
Qed.

Lemma string_app_assoc (a b c : string) : (a ++ b) ++ c = a ++ (b ++ c).
Proof. induction a as [|x a IH]; simpl; [reflexivity|now rewrite IH]. Qed.

(** *** Missing and repeated labels *)

Lemma getitem_present (df : DataFrame) (c : string) :
  In c (labels df) -> exists it, getitem df c = Ok it.
Proof.
  intros Hc. unfold getitem.
  destruct (filter (has_label c) (columns df)) as [|p [|q r]] eqn:E; eauto.
  exfalso. unfold labels in Hc. apply in_map_iff in Hc as [p [Hp Hin]].
  assert (Hf : In p (filter (has_label c) (columns df))).
  { apply filter_In. split; [exact Hin|]. now apply has_label_true. }
  rewrite E in Hf. exact Hf.
Qed.

Lemma labels_after_gate4 (df : DataFrame) (date_col : string) (h : Z)
    (t : tally) :
  labels (fst (gate4 df date_col h t)) = labels df.
Proof.
  destruct (gate4_frame df date_col h t) as [[e [_ ->]]|[stamps [Hp ->]]];
    [reflexivity|].
  destruct (parse_date_col_ok _ _ _ Hp) as [s [Hs _]].
  apply labels_setitem. exact (present_of_getitem _ _ _ Hs).
Qed.

Lemma potential_ids_repeated (df : DataFrame) (l : list string) :
  (forall c, In c l -> In c (labels df)) ->
  (exists c cols, In c l /\ getitem df c = Ok (SubFrame cols)) ->
  potential_ids df l = Raise ambiguous_truth.
Proof.
  induction l as [|a l IH]; intros Hl [c [cols [Hc Hsub]]];
    [contradiction|].
  simpl. destruct (getitem_present df a (Hl a (or_introl eq_refl)))
    as [[s|cs] Ha].
  - rewrite (is_potential_id_single df a s Ha); simpl.
    rewrite IH; [reflexivity| |].
    + intros x Hx. apply Hl. now right.
    + destruct Hc as [->|Hc]; [congruence|]. eauto.
  - unfold is_potential_id, nunique_at. now rewrite Ha.
Qed.

(** X1. Gate 1 fires on more than two feature columns: with two or
    fewer it leaves the tally as it is, with three or more it adds one
    to the score and one reason.  The feature columns are the labels of
    the table without the target and the date label, in the order of the
    table; on a table with distinct labels that holds both, and with the
    two different, there are two fewer features than columns, so the
    gate fires from five columns on.  The reason gives the number of
    features and names the first three. *)
Theorem gate1_fires_on_more_than_two_features
    (df : DataFrame) (target_col date_col : string) (t : tally) :
  let features := feature_cols df target_col date_col in
  ((List.length features <= 2)%nat -> gate1 features t = t)
  /\ ((3 <= List.length features)%nat ->
      gate1 features t
      = (fst t + 1, (snd t ++ [reason_multivariate features])%list))
  /\ (forall c, In c features <->
                In c (labels df) /\ c <> target_col /\ c <> date_col)
  /\ (NoDup (labels df) ->
      In target_col (labels df) -> In date_col (labels df) ->
      target_col <> date_col ->
      List.length (labels df) = (List.length features + 2)%nat)
  /\ (forall a b c rest,
        features = a :: b :: c :: rest ->
        reason_multivariate features
        = "📊 **Multivariate Data Detected:** Found "
          ++ str_int (Z.of_nat (3 + List.length rest))
          ++ " extra features (" ++ a ++ ", " ++ b ++ ", " ++ c
          ++ "...). Power BI works best with simple trends; Azure handles complex correlations better.").
Proof.
  intros features. unfold gate1.
  split; [|split; [|split; [|split]]].
  - intros H. replace (2 <? Z.of_nat (List.length features)) with false
      by (symmetry; apply Z.ltb_ge; lia).
    reflexivity.
  - intros H. replace (2 <? Z.of_nat (List.length features)) with true
      by (symmetry; apply Z.ltb_lt; lia).
    reflexivity.
  - intros c. apply feature_cols_spec.
  - apply feature_cols_count.
  - intros a b c rest ->. unfold reason_multivariate.
    cbn [firstn join List.length].
    repeat (rewrite !string_app_assoc; cbn [append]).
    reflexivity.
Qed.

(** A reason of a gate scores, or is of gate 4, or is of gate 5. *)
Lemma reason_kind (r : string) :
  1 <= gate_of_reason r <= 5 ->
  scoring_reason r = true \/ from_gate 4 r = true \/ from_gate 5 r = true.
Proof.
  unfold scoring_reason, from_gate, gate_of_reason. intros H.
  destruct (starts_with "📊" r); [left; reflexivity|].
  destruct (starts_with "🏪" r); [left; reflexivity|].
  destruct (starts_with "💾" r); [left; reflexivity|].
  destruct (starts_with "🔭" r); [left; reflexivity|].
  destruct (starts_with "⚠️" r); [right; left; reflexivity|].
  destruct (starts_with "🌊" r); [right; right; reflexivity|].
  simpl in H. lia.
Qed.

Lemma reasons_by_kind (reasons : list string) :
  Forall (fun r => 1 <= gate_of_reason r <= 5) reasons ->
  (List.length reasons
   <= List.length (filter scoring_reason reasons)
      + List.length (filter (from_gate 4) reasons)
      + List.length (filter (from_gate 5) reasons))%nat.
Proof.
  induction 1 as [|r rs Hr Hrs IH]; [simpl; lia|].
  cbn [filter List.length].
  destruct (reason_kind r Hr) as [E|[E|E]]; rewrite E;
    repeat match goal with
           | |- context [if ?b then _ else _] => destruct b
           end;
    cbn [List.length]; lia.
Qed.

(** X2. The score counts the reasons that score.  In any pair the
    analysis returns, the score is the number of reasons that are a
    message of gate 1, 2 or 3 or the horizon message of gate 4; the only
    other reasons are a date warning and the seasonality note, so there
    are at most two more reasons than points; and the caller's mapping
    gives the advanced tool exactly when some reason scores. *)
Theorem score_counts_scoring_reasons
    (df df' : DataFrame) (target_col date_col : string) (h score : Z)
    (reasons : list string) :
  analyze_dataset df target_col date_col h = (df', Ok (score, reasons)) ->
  score = Z.of_nat (List.length (filter scoring_reason reasons))
  /\ Z.of_nat (List.length reasons) <= score + 2
  /\ (recommend score = AzureMachineLearning <->
      existsb scoring_reason reasons = true).
Proof.
  intros H.
  destruct (analyze_dataset_returned _ _ _ _ _ _ _ H)
    as [t4 [target_item [G14 [_ [Hscore Hreasons]]]]].
  assert (Hcount : score = Z.of_nat (List.length (filter scoring_reason reasons))).
  { assert (Hnote : List.length
                      (filter scoring_reason
                         (seasonality_note target_item (fst t4))) = 0%nat).
    { now destruct (seasonality_note_cases target_item (fst t4)) as [->| ->]. }
    rewrite Hreasons, filter_app, length_app, Hnote, Nat.add_0_r, Hscore.
    exact (gates_1_4_counted _ _ _ _ _ _ G14). }
  split; [exact Hcount|]. split.
  - assert (Hin := analyze_dataset_returned _ _ _ _ _ _ _ H).
    destruct (gates_1_4_upto _ _ _ _ _ _ G14) as [_ Hord].
    assert (Hord5 : in_gate_order 5 reasons).
    { rewrite Hreasons.
      destruct (seasonality_note_cases target_item (fst t4)) as [->| ->].
      - rewrite app_nil_r. apply (in_gate_order_weaken 4); [lia|exact Hord].
      - apply (in_gate_order_snoc 4); [exact Hord|reflexivity|lia|lia]. }
    clear Hin. rewrite Hcount.
    assert (Hwarn := in_gate_order_one_per_gate 5 4 reasons Hord5).
    assert (Hnote := in_gate_order_one_per_gate 5 5 reasons Hord5).
    destruct Hord5 as [_ Hall].
    assert (Hsplit := reasons_by_kind reasons Hall).
    lia.
  - unfold recommend.
    destruct (filter scoring_reason reasons) as [|r rs] eqn:E;
      simpl List.length in Hcount.
    + replace (1 <=? score) with false by (symmetry; apply Z.leb_gt; lia).
      split; [discriminate|]. intros Hex. exfalso.
      apply existsb_exists in Hex as [r [Hr Hs]].
      assert (Hf : In r (filter scoring_reason reasons))
        by (apply filter_In; auto).
      rewrite E in Hf. exact Hf.
    + replace (1 <=? score) with true by (symmetry; apply Z.leb_le; lia).
      split; [|reflexivity]. intros _. apply existsb_exists. exists r.
      apply filter_In. rewrite E. now left.
Qed.

(** X3. With score 0 there is nothing to read but a date warning.  In
    any pair the analysis returns with score 0, the reasons are empty or
    are the one warning of gate 4; the seasonality note is never among
    them, and the caller's mapping gives the simple tool. *)
Theorem zero_score_has_at_most_the_warning
    (df df' : DataFrame) (target_col date_col : string) (h : Z)
    (reasons : list string) :
  analyze_dataset df target_col date_col h = (df', Ok (0, reasons)) ->
  (reasons = [] \/ exists e, reasons = [reason_date_warning e])
  /\ ~ In reason_seasonality reasons
  /\ recommend 0 = PowerBIAutoML.
Proof.
  intros H.
  destruct (analyze_dataset_returned _ _ _ _ _ _ _ H)
    as [t4 [target_item [G14 [_ [Hscore Hreasons]]]]].
  assert (Hnote : seasonality_note target_item (fst t4) = []).
  { unfold seasonality_note. rewrite <- Hscore. simpl.
    now rewrite andb_false_r. }
  rewrite Hnote, app_nil_r in Hreasons.
  assert (Hcases : reasons = [] \/ exists e, reasons = [reason_date_warning e]).
  { unfold gates_1_4 in G14.
    destruct (gates_1_3 df target_col date_col) as [t3|e] eqn:E3;
      [|discriminate].
    assert (Hup := gates_1_3_upto _ _ _ _ E3).
    assert (Hout := gate4_outcome df date_col h t3).
    destruct (gate4 df date_col h t3) as [df1 t]. simpl in Hout.
    injection G14 as _ Ht. subst t.
    destruct Hup as [Hs3 _].
    destruct Hout as [Hk|[[d Hb]|[e Hw]]].
    - rewrite Hk in Hscore, Hreasons.
      rewrite Hreasons, (gates_1_3_zero _ _ _ _ E3); [now left|lia].
    - rewrite Hb in Hscore. simpl in Hscore. lia.
    - rewrite Hw in Hscore, Hreasons. simpl in Hscore, Hreasons.
      rewrite Hreasons, (gates_1_3_zero _ _ _ _ E3); [|lia].
      right. exists e. reflexivity. }
  split; [exact Hcases|]. split; [|reflexivity].
  destruct Hcases as [->|[e ->]]; [intros []|].
  intros [Hin|[]]. revert Hin.
  unfold reason_date_warning, reason_seasonality. simpl. discriminate.
Qed.

(** X4. A target label the table does not hold makes the analysis
    raise.  On a table with distinct labels, gates 1 to 4 run as for any
    target, the date column is parsed in place if it parses, and then
    the lookup of gate 5 raises a [KeyError] that carries the [repr] of
    the label: no pair is returned. *)
Theorem missing_target_raises_key_error
    (df : DataFrame) (target_col date_col : string) (h : Z) :
  NoDup (labels df) ->
  ~ In target_col (labels df) ->
  exists t3,
    gates_1_3 df target_col date_col = Ok t3
    /\ analyze_dataset df target_col date_col h
       = (fst (gate4 df date_col h t3),
          Raise (mkExn KeyError (repr target_col))).
Proof.
  intros Hnd Hmissing.
  destruct (gates_1_3_returns df target_col date_col Hnd) as [t3 H3].
  exists t3. split; [exact H3|].
  unfold analyze_dataset.
  rewrite (gates_1_4_after_gate3 _ _ _ _ _ H3); simpl.
  unfold gate5. rewrite getitem_missing; [reflexivity|].
  now rewrite labels_after_gate4.
Qed.

(** X5. A date label the table does not hold costs a warning, not the
    analysis.  On a table with distinct labels that holds the target
    column, the analysis returns the score of gates 1 to 3 and their
    reasons followed by the warning made of the [repr] of the label and
    by what gate 5 adds, and leaves the table as it was. *)
Theorem missing_date_column_becomes_warning
    (df : DataFrame) (target_col date_col : string) (h : Z) :
  NoDup (labels df) ->
  In target_col (labels df) ->
  ~ In date_col (labels df) ->
  exists t3 target_item,
    gates_1_3 df target_col date_col = Ok t3
    /\ getitem df target_col = Ok target_item
    /\ analyze_dataset df target_col date_col h
       = (df,
          Ok (fst t3,
              (snd t3
                 ++ ("⚠️ Could not calculate Date logic: " ++ repr date_col)%string
                 :: seasonality_note target_item (fst t3))%list)).
Proof.
  intros Hnd Htarget Hmissing.
  destruct (gates_1_3_returns df target_col date_col Hnd) as [t3 H3].
  destruct (getitem_one_column df target_col Hnd Htarget) as [st [Hst _]].
  exists t3, (OneColumn st). split; [exact H3|]. split; [exact Hst|].
  assert (Hparse : parse_date_col df date_col
                   = Raise (mkExn KeyError (repr date_col))).
  { unfold parse_date_col. now rewrite (getitem_missing df date_col Hmissing). }
  assert (G14 : gates_1_4 df target_col date_col h
                = (df, Ok (add_reason t3 (reason_date_warning
                                            (mkExn KeyError (repr date_col)))))).
  { rewrite (gates_1_4_after_gate3 _ _ _ _ _ H3).
    now rewrite (gate4_unparsed _ _ _ _ _ Hparse). }
  rewrite (analyze_dataset_after_gate4 _ _ _ _ _ _ _ G14 Hst).
  simpl. now rewrite <- app_assoc.
Qed.

(** X6. A feature label that the table holds more than once makes the
    analysis raise in gate 2, where the test of the column's distinct
    values asks a whole sub-table for its truth value: the call raises
    the [ValueError] of that test, worded as the library words it,
    returns no pair and leaves the table as it was. *)
Theorem repeated_feature_label_raises
    (df : DataFrame) (target_col date_col c : string) (cols : list Series)
    (h : Z) :
  In c (feature_cols df target_col date_col) ->
  getitem df c = Ok (SubFrame cols) ->
  analyze_dataset df target_col date_col h
  = (df, Raise (mkExn ValueError (truth_value_ambiguous pandas_says))).
Proof.
  intros Hc Hsub.
  assert (Hids : potential_ids df (feature_cols df target_col date_col)
                 = Raise ambiguous_truth).
  { apply potential_ids_repeated; [|eauto].
    intros x Hx. now apply feature_cols_spec in Hx. }
  unfold analyze_dataset, gates_1_4, gates_1_3, gate2.
  now rewrite Hids.
Qed.

(** *** The horizon and the span of the dates *)

Lemma true_div_in_range (h d : Z) :
  0 < d -> Z.abs h < DBL_OVERFLOW ->
  true_div h d = Ok (inject_Z h / inject_Z d)%Q.
Proof.
  intros Hd Hh. unfold true_div.
  replace (d =? 0) with false by (symmetry; apply Z.eqb_neq; lia).
  replace (DBL_OVERFLOW * Z.abs d <=? Z.abs h) with false; [reflexivity|].
  symmetry. apply Z.leb_gt. rewrite (Z.abs_eq d) by lia.
  assert (0 < DBL_OVERFLOW) by reflexivity. nia.
Qed.

Lemma true_div_overflow (h d : Z) :
  0 < d -> DBL_OVERFLOW * d <= Z.abs h ->
  true_div h d
  = Raise (mkExn OverflowError "integer division result too large for a float").
Proof.
  intros Hd Hh. unfold true_div.
  replace (d =? 0) with false by (symmetry; apply Z.eqb_neq; lia).
  replace (DBL_OVERFLOW * Z.abs d <=? Z.abs h) with true; [reflexivity|].
  symmetry. apply Z.leb_le. now rewrite (Z.abs_eq d) by lia.
Qed.

(** In the range of a float, gate 4 only keeps or adds its point. *)
Lemma horizon_outcome_in_range (h : Z) (span : option Z) (t : tally) :
  Z.abs h < DBL_OVERFLOW ->
  horizon_outcome h (Ok span) t
  = match span with
    | Some d => if (0 <? d) && (d <? 4 * h)
                then bump t (reason_horizon h d) else t
    | None => t
    end.
Proof.
  intros Hh. unfold horizon_outcome. destruct span as [d|]; [|reflexivity].
  destruct (Z.ltb_spec 0 d) as [Hd|Hd]; [|reflexivity].
  rewrite (true_div_in_range h d Hd Hh), (ratio_above_quarter h d Hd).
  reflexivity.
Qed.

Lemma present_perm {A : Type} (l l' : list (option A)) :
  Permutation l l' -> Permutation (present l) (present l').
Proof.
  induction 1 as [|x l l' _ IH|x y l|l l' l'' _ IH1 _ IH2].
  - constructor.
  - destruct x; simpl; [now constructor|exact IH].
  - destruct x, y; simpl; try reflexivity. apply perm_swap.
  - now transitivity (present l').
Qed.

Lemma fold_max_spec (ts : list Z) (t : Z) :
  In (fold_left Z.max ts t) (t :: ts)
  /\ forall x, In x (t :: ts) -> x <= fold_left Z.max ts t.
Proof.
  revert t. induction ts as [|a ts IH]; intros t; simpl.
  - split; [now left|]. intros x [->|[]]. lia.
  - destruct (IH (Z.max t a)) as [Hin Hle]. split.
    + destruct Hin as [Hin|Hin]; [|now right; right].
      destruct (Z.max_spec t a) as [[_ E]|[_ E]]; rewrite E in *;
        simpl; auto.
    + intros x [->|[->|Hx]].
      * specialize (Hle (Z.max x a) (or_introl eq_refl)). lia.
      * specialize (Hle (Z.max t x) (or_introl eq_refl)). lia.
      * apply Hle. now right.
Qed.

Lemma fold_min_spec (ts : list Z) (t : Z) :
  In (fold_left Z.min ts t) (t :: ts)
  /\ forall x, In x (t :: ts) -> fold_left Z.min ts t <= x.
Proof.
  revert t. induction ts as [|a ts IH]; intros t; simpl.
  - split; [now left|]. intros x [->|[]]. lia.
  - destruct (IH (Z.min t a)) as [Hin Hle]. split.
    + destruct Hin as [Hin|Hin]; [|now right; right].
      destruct (Z.min_spec t a) as [[_ E]|[_ E]]; rewrite E in *;
        simpl; auto.
    + intros x [->|[->|Hx]].
      * specialize (Hle (Z.min x a) (or_introl eq_refl)). lia.
      * specialize (Hle (Z.min t x) (or_introl eq_refl)). lia.
      * apply Hle. now right.
Qed.

(** The latest and the earliest instant of a column, when it has one. *)
Lemma extremum_max_spec (stamps : list (option Z)) :
  match extremum Z.max stamps with
  | Some m => In m (present stamps) /\ forall x, In x (present stamps) -> x <= m
  | None => present stamps = []
  end.
Proof.
  unfold extremum. destruct (present stamps) as [|t ts]; [reflexivity|].
  apply fold_max_spec.
Qed.

Lemma extremum_min_spec (stamps : list (option Z)) :
  match extremum Z.min stamps with
  | Some m => In m (present stamps) /\ forall x, In x (present stamps) -> m <= x
  | None => present stamps = []
  end.
Proof.
  unfold extremum. destruct (present stamps) as [|t ts]; [reflexivity|].
  apply fold_min_spec.
Qed.

Lemma extremum_max_perm (l l' : list (option Z)) :
  Permutation l l' -> extremum Z.max l = extremum Z.max l'.
Proof.
  intros Hp. apply present_perm in Hp.
  assert (H := extremum_max_spec l). assert (H' := extremum_max_spec l').
  destruct (extremum Z.max l) as [m|], (extremum Z.max l') as [m'|].
  - destruct H as [Hin Hle], H' as [Hin' Hle'].
    f_equal. apply Z.le_antisymm.
    + apply Hle'. now apply (Permutation_in _ Hp).
    + apply Hle. now apply (Permutation_in _ (Permutation_sym Hp)).
  - destruct H as [Hin _]. rewrite H' in Hp.
    apply Permutation_sym, Permutation_nil in Hp. rewrite Hp in Hin.
    contradiction.
  - destruct H' as [Hin _]. rewrite H in Hp.
    apply Permutation_nil in Hp. rewrite Hp in Hin. contradiction.
  - reflexivity.
Qed.

Lemma extremum_min_perm (l l' : list (option Z)) :
  Permutation l l' -> extremum Z.min l = extremum Z.min l'.
Proof.
  intros Hp. apply present_perm in Hp.
  assert (H := extremum_min_spec l). assert (H' := extremum_min_spec l').
  destruct (extremum Z.min l) as [m|], (extremum Z.min l') as [m'|].
  - destruct H as [Hin Hle], H' as [Hin' Hle'].
    f_equal. apply Z.le_antisymm.
    + apply Hle. now apply (Permutation_in _ (Permutation_sym Hp)).
    + apply Hle'. now apply (Permutation_in _ Hp).
  - destruct H as [Hin _]. rewrite H' in Hp.
    apply Permutation_sym, Permutation_nil in Hp. rewrite Hp in Hin.
    contradiction.
  - destruct H' as [Hin _]. rewrite H in Hp.
    apply Permutation_nil in Hp. rewrite Hp in Hin. contradiction.
  - reflexivity.
Qed.

Lemma date_span_nonneg (stamps : list (option Z)) (d : Z) :
  date_span stamps = Ok (Some d) -> 0 <= d.
Proof.
  unfold date_span, timestamp_sub.
  assert (Hmax := extremum_max_spec stamps).
  assert (Hmin := extremum_min_spec stamps).
  destruct (extremum Z.max stamps) as [hi|]; [|discriminate].
  destruct (extremum Z.min stamps) as [lo|]; [|discriminate].
  destruct (Z.abs (hi - lo) <=? TIMEDELTA_MAX); [|discriminate].
  intros [= <-]. destruct Hmin as [Hin _], Hmax as [_ Hle].
  specialize (Hle lo Hin). apply Z.div_pos; [lia|reflexivity].
Qed.

Lemma in_present {A : Type} (l : list (option A)) (x : A) :
  In x (present l) -> In (Some x) l.
Proof.
  induction l as [|[a|] l IH]; simpl.
  - auto.
  - intros [->|H]; auto.
  - auto.
Qed.

(** Between instants that lie within a [Timedelta] of each other the
    span is taken. *)
Lemma date_span_within (stamps : list (option Z)) :
  within_timedelta stamps -> exists span, date_span stamps = Ok span.
Proof.
  intros Hin. unfold date_span, timestamp_sub.
  assert (Hmax := extremum_max_spec stamps).
  assert (Hmin := extremum_min_spec stamps).
  destruct (extremum Z.max stamps) as [hi|]; [|simpl; eauto].
  destruct (extremum Z.min stamps) as [lo|]; [|simpl; eauto].
  destruct Hmax as [Hhi Hle], Hmin as [Hlo _].
  assert (H1 := Hle lo Hlo).
  assert (H2 := Hin hi lo (in_present _ _ Hhi) (in_present _ _ Hlo)).
  replace (Z.abs (hi - lo) <=? TIMEDELTA_MAX) with true; [simpl; eauto|].
  symmetry. apply Z.leb_le. rewrite Z.abs_eq; lia.
Qed.

(** X7. Once the dates are parsed, dates that lie within a [Timedelta]
    of each other (2^63 - 1 nanoseconds, some 292 years) and a horizon
    in the range of a float bring no warning: no reason of a returned
    pair is a date warning.  On such a table the warning of gate 4 tells
    of a date column that is missing or does not parse. *)
Theorem parsed_dates_bring_no_warning
    (df df' : DataFrame) (target_col date_col : string) (h score : Z)
    (stamps : list (option Z)) (reasons : list string) :
  parse_date_col df date_col = Ok stamps ->
  within_timedelta stamps ->
  Z.abs h < DBL_OVERFLOW ->
  analyze_dataset df target_col date_col h = (df', Ok (score, reasons)) ->
  forall e, ~ In (reason_date_warning e) reasons.
Proof.
  intros Hparse Hnear Hh H e Hin.
  destruct (analyze_dataset_returned _ _ _ _ _ _ _ H)
    as [t4 [target_item [G14 [_ [_ Hreasons]]]]].
  unfold gates_1_4 in G14.
  destruct (gates_1_3 df target_col date_col) as [t3|e3] eqn:E3;
    [|discriminate].
  rewrite (gate4_parsed _ _ _ _ _ Hparse) in G14.
  destruct (date_span_within stamps Hnear) as [span Hspan].
  rewrite Hspan, (horizon_outcome_in_range _ _ _ Hh) in G14.
  injection G14 as _ Ht4.
  destruct (gates_1_3_upto _ _ _ _ E3) as [_ Hord].
  assert (Hnot3 : ~ In (reason_date_warning e) (snd t3)).
  { apply (in_gate_order_not_later 3); [exact Hord|].
    rewrite gate_of_date_warning. lia. }
  rewrite Hreasons in Hin. apply in_app_or in Hin as [Hin|Hin].
  - rewrite <- Ht4 in Hin. destruct span as [d|]; [|auto].
    destruct ((0 <? d) && _); [|auto].
    simpl in Hin. apply in_app_or in Hin as [Hin|[Hin|[]]]; [auto|].
    exact (horizon_is_not_warning h d e Hin).
  - destruct (seasonality_note_cases target_item (fst t4)) as [E|E];
      rewrite E in Hin; [contradiction|].
    destruct Hin as [Hin|[]].
    assert (Hg := f_equal gate_of_reason Hin).
    rewrite gate_of_seasonality, gate_of_date_warning in Hg. discriminate.
Qed.

(** X8. When the span of the dates is taken and is above 0, a horizon
    too large for its quotient by the span to be a float ends gate 4 in
    its [except] branch after the date column has been assigned: the
    date column is left parsed, the score is that of gates 1 to 3, and
    the reason added is the warning with the text of the
    [OverflowError] of the division. *)
Theorem overflowing_horizon_becomes_warning
    (df : DataFrame) (target_col date_col : string) (h d : Z)
    (stamps : list (option Z)) (t3 : tally) :
  parse_date_col df date_col = Ok stamps ->
  date_span stamps = Ok (Some d) ->
  0 < d ->
  2 ^ 1024 * d <= Z.abs h ->
  gates_1_3 df target_col date_col = Ok t3 ->
  gates_1_4 df target_col date_col h
  = (setitem df date_col (DatetimeSeries stamps),
     Ok (fst t3,
         (snd t3
            ++ ["⚠️ Could not calculate Date logic: integer division result too large for a float"])%list)).
Proof.
  intros Hparse Hspan Hd Hh H3.
  rewrite (gates_1_4_after_gate3 _ _ _ _ _ H3).
  rewrite (gate4_parsed _ _ _ _ _ Hparse), Hspan. simpl fst. simpl snd.
  unfold horizon_outcome.
  replace (0 <? d) with true by (symmetry; apply Z.ltb_lt; exact Hd).
  rewrite true_div_overflow; [reflexivity|exact Hd|].
  assert (DBL_OVERFLOW <= 2 ^ 1024) by (unfold DBL_OVERFLOW; lia). nia.
Qed.

(** X9. A longer horizon never lowers the score.  For two horizons in
    the range of a float, the analysis of one table with the longer one
    returns a score that is the score with the shorter one or one more,
    and leaves the table in the same state. *)
Theorem longer_horizon_never_lowers_score
    (df df1 df2 : DataFrame) (target_col date_col : string)
    (h h' score score' : Z) (reasons reasons' : list string) :
  h <= h' ->
  Z.abs h < DBL_OVERFLOW ->
  Z.abs h' < DBL_OVERFLOW ->
  analyze_dataset df target_col date_col h = (df1, Ok (score, reasons)) ->
  analyze_dataset df target_col date_col h' = (df2, Ok (score', reasons')) ->
  df1 = df2 /\ score <= score' <= score + 1.
Proof.
  intros Hle Hh Hh' H H'.
  destruct (analyze_dataset_returned _ _ _ _ _ _ _ H)
    as [t4 [_ [G14 [_ [-> _]]]]].
  destruct (analyze_dataset_returned _ _ _ _ _ _ _ H')
    as [t4' [_ [G14' [_ [-> _]]]]].
  unfold gates_1_4 in G14, G14'.
  destruct (gates_1_3 df target_col date_col) as [t3|e3]; [|discriminate].
  destruct (parse_date_col df date_col) as [stamps|e] eqn:E.
  - rewrite (gate4_parsed _ _ h _ _ E) in G14.
    rewrite (gate4_parsed _ _ h' _ _ E) in G14'.
    destruct (date_span stamps) as [span|e].
    + rewrite (horizon_outcome_in_range _ _ _ Hh) in G14.
      rewrite (horizon_outcome_in_range _ _ _ Hh') in G14'.
      destruct span as [d|].
      * destruct (Z.ltb_spec 0 d) as [Hd|Hd]; cbn [andb] in G14, G14'.
        -- destruct (Z.ltb_spec d (4 * h)) as [Hf|Hf];
             destruct (Z.ltb_spec d (4 * h')) as [Hf'|Hf'];
             injection G14 as <- <-; injection G14' as <- <-;
             (split; [reflexivity|unfold bump; cbn [fst]; lia]).
        -- injection G14 as <- <-. injection G14' as <- <-.
           split; [reflexivity|lia].
      * injection G14 as <- <-. injection G14' as <- <-.
        split; [reflexivity|lia].
    + injection G14 as <- <-. injection G14' as <- <-.
      split; [reflexivity|simpl; lia].
  - rewrite (gate4_unparsed _ _ h _ _ E) in G14.
    rewrite (gate4_unparsed _ _ h' _ _ E) in G14'.
    injection G14 as <- <-. injection G14' as <- <-.
    split; [reflexivity|simpl; lia].
Qed.

(** X10. The history is taken between the earliest and the latest date,
    wherever they stand in the column: two date columns that hold the
    same instants in a different row order give gate 4 the same span,
    which is never negative, and so the same outcome. *)
Theorem gate4_does_not_depend_on_row_order
    (df1 df2 : DataFrame) (date1 date2 : string) (h : Z) (t : tally)
    (stamps1 stamps2 : list (option Z)) :
  parse_date_col df1 date1 = Ok stamps1 ->
  parse_date_col df2 date2 = Ok stamps2 ->
  Permutation stamps1 stamps2 ->
  date_span stamps1 = date_span stamps2
  /\ (forall d, date_span stamps1 = Ok (Some d) -> 0 <= d)
  /\ snd (gate4 df1 date1 h t) = snd (gate4 df2 date2 h t).
Proof.
  intros H1 H2 Hperm.
  assert (Hspan : date_span stamps1 = date_span stamps2).
  { unfold date_span.
    now rewrite (extremum_max_perm _ _ Hperm), (extremum_min_perm _ _ Hperm). }
  split; [exact Hspan|]. split; [apply date_span_nonneg|].
  rewrite (gate4_parsed _ _ _ _ _ H1), (gate4_parsed _ _ _ _ _ H2).
  simpl. now rewrite Hspan.
Qed.

(** *** The shape of the table *)

Lemma getitem_in (df : DataFrame) (c : string) (s : Series) :
  getitem df c = Ok (OneColumn s) -> In (c, s) (columns df).
Proof.
  unfold getitem. intros H.
  destruct (filter (has_label c) (columns df)) as [|p [|q r]] eqn:E;
    try discriminate.
  injection H as <-.
  assert (Hp : In p (filter (has_label c) (columns df)))
    by (rewrite E; now left).
  apply filter_In in Hp as [Hin Hl]. apply has_label_true in Hl.
  destruct p as [l s]. simpl in Hl. now subst l.
Qed.

Lemma setitem_well_formed (df : DataFrame) (c : string) (s : Series) :
  existsb (has_label c) (columns df) = true ->
  Series_len s = index_len df ->
  well_formed df -> well_formed (setitem df c s).
Proof.
  intros Hpres Hlen Hwf. rewrite (setitem_present df c s Hpres).
  unfold well_formed in *. simpl. apply Forall_map.
  eapply Forall_impl; [|exact Hwf]. intros p Hp. unfold replace_at.
  now destruct (has_label c p).
Qed.

Lemma analyze_dataset_well_formed
    (df : DataFrame) (target_col date_col : string) (h : Z) :
  (forall s stamps,
      to_datetime s = Ok stamps ->
      Series_len (DatetimeSeries stamps) = Series_len s) ->
  well_formed df ->
  well_formed (fst (analyze_dataset df target_col date_col h)).
Proof.
  intros Hrows Hwf.
  destruct (analyze_dataset_frame df target_col date_col h)
    as [->|[stamps [Hp ->]]]; [exact Hwf|].
  destruct (parse_date_col_ok _ _ _ Hp) as [s [Hs Hparsed]].
  apply setitem_well_formed; [exact (present_of_getitem _ _ _ Hs)| |exact Hwf].
  rewrite (Hrows s stamps Hparsed).
  unfold well_formed in Hwf. rewrite Forall_forall in Hwf.
  exact (Hwf (date_col, s) (getitem_in _ _ _ Hs)).
Qed.

(** X11. The analysis keeps the table rectangular.  When the date
    parser gives one instant (or [NaT]) for each row, as [pd.to_datetime]
    does, a table whose columns all have the length of its index still
    has that shape after the call. *)
Theorem analysis_keeps_table_rectangular
    (df : DataFrame) (target_col date_col : string) (h : Z) :
  (forall s stamps,
      to_datetime s = Ok stamps ->
      Series_len (DatetimeSeries stamps) = Series_len s) ->
  well_formed df ->
  well_formed (fst (analyze_dataset df target_col date_col h))
  /\ index_len (fst (analyze_dataset df target_col date_col h)) = index_len df.
Proof.
  intros Hrows Hwf. split.
  - now apply analyze_dataset_well_formed.
  - destruct (analyze_dataset_frame df target_col date_col h)
      as [->|[stamps [_ ->]]]; [reflexivity|apply index_len_setitem].
Qed.

(** *** The lags the detector reads *)

Lemma slice_exists {A : Type} (f : A -> bool) (lo hi : nat) (l : list A) :
  existsb f (slice lo hi l) = true <->
  exists k x, (lo <= k < hi)%nat /\ nth_error l k = Some x /\ f x = true.
Proof.
  unfold slice. rewrite existsb_exists. split.
  - intros [x [Hin Hf]]. apply In_nth_error in Hin as [i Hi].
    rewrite nth_error_firstn in Hi.
    destruct (Nat.ltb_spec i (hi - lo)) as [Hlt|Hge]; [|discriminate].
    rewrite nth_error_skipn in Hi.
    exists (lo + i)%nat, x. repeat split; auto; lia.
  - intros [k [x [[Hlo Hhi] [Hk Hf]]]]. exists x. split; [|exact Hf].
    apply (nth_error_In _ (k - lo)).
    rewrite nth_error_firstn.
    replace (Nat.ltb (k - lo) (hi - lo)) with true
      by (symmetry; apply Nat.ltb_lt; lia).
    rewrite nth_error_skipn. now replace (lo + (k - lo))%nat with k by lia.
Qed.

(** X12. The detector reads five lags.  On a series with 50 valid
    values or more whose autocorrelation is computed, the answer is
    [true] exactly when a coefficient at lag 7, 28, 29, 30 or 31 is
    above 0.3; every other lag is ignored, and an autocorrelation of 7
    coefficients or fewer, which has no lag 7 to index, gives [false]. *)
Theorem detector_reads_lags_7_and_28_to_31
    (series : item) (xs acf_values : list float) :
  to_numeric_item series = Ok xs ->
  (50 <= List.length (dropna xs))%nat ->
  acf (dropna xs) 40 = Ok acf_values ->
  (check_seasonality series = true <->
   exists k x,
     (k = 7 \/ 28 <= k <= 31)%nat
     /\ nth_error acf_values k = Some x
     /\ above_threshold x = true)
  /\ ((List.length acf_values <= 7)%nat -> check_seasonality series = false).
Proof.
  intros Hxs Hlen Hacf.
  assert (Hbody :
            check_seasonality series
            = match nth_error acf_values 7 with
              | Some a7 =>
                  above_threshold a7
                  || existsb above_threshold (slice 28 32 acf_values)
              | None => false
              end).
  { unfold check_seasonality, check_seasonality_try. rewrite Hxs.
    cbn [bind].
    replace (Z.of_nat (List.length (dropna xs)) <? 50) with false
      by (symmetry; apply Z.ltb_ge; lia).
    rewrite Hacf. cbn [bind]. unfold index.
    destruct (nth_error acf_values 7) as [a7|]; cbn [bind try_except];
      [|reflexivity].
    now destruct (above_threshold a7 || _). }
  split.
  - rewrite Hbody. split.
    + destruct (nth_error acf_values 7) as [a7|] eqn:E7; [|discriminate].
      intros H. apply orb_true_iff in H as [H|H].
      * exists 7%nat, a7.
        split; [left; reflexivity|]. split; [exact E7|exact H].
      * apply slice_exists in H as [k [x [Hk [Hx Hf]]]].
        exists k, x.
        split; [right; lia|]. split; [exact Hx|exact Hf].
    + intros [k [x [Hk [Hx Hf]]]].
      destruct (nth_error acf_values 7) as [a7|] eqn:E7.
      * apply orb_true_iff. destruct Hk as [->|Hk].
        -- left. rewrite E7 in Hx. injection Hx as ->. exact Hf.
        -- right. apply slice_exists. exists k, x.
           split; [lia|]. split; [exact Hx|exact Hf].
      * exfalso. apply nth_error_None in E7.
        assert (Hsome : nth_error acf_values k <> None)
          by (rewrite Hx; discriminate).
        apply nth_error_Some in Hsome. lia.
  - intros Hshort. rewrite Hbody.
    now rewrite (proj2 (nth_error_None acf_values 7) Hshort).
Qed.

(** *** The values of the target column *)

Lemma present_of_label (df : DataFrame) (c : string) :
  In c (labels df) -> existsb (has_label c) (columns df) = true.
Proof.
  intros Hc. unfold labels in Hc. apply in_map_iff in Hc as [p [Hp Hin]].
  apply existsb_exists. exists p. split; [exact Hin|].
  now apply has_label_true.
Qed.

Lemma gates_1_3_setitem (df : DataFrame) (c : string) (s : Series)
    (target_col date_col : string) :
  existsb (has_label c) (columns df) = true ->
  c = target_col \/ c = date_col ->
  gates_1_3 (setitem df c s) target_col date_col
  = gates_1_3 df target_col date_col.
Proof.
  intros Hpres Hc.
  unfold gates_1_3, feature_cols, gate3, len.
  rewrite (labels_setitem _ _ _ Hpres), index_len_setitem.
  rewrite (gate2_ext (setitem df c s) df); [reflexivity|].
  intros x Hx. apply filter_In in Hx as [_ Hx].
  apply getitem_setitem_other.
  apply negb_true_iff, orb_false_iff in Hx as [Ht Hd].
  apply String.eqb_neq in Ht, Hd. destruct Hc; congruence.
Qed.

Lemma gate4_setitem_other (df : DataFrame) (c : string) (s : Series)
    (date_col : string) (h : Z) (t : tally) :
  c <> date_col ->
  snd (gate4 (setitem df c s) date_col h t) = snd (gate4 df date_col h t).
Proof.
  intros Hne.
  assert (Hparse : parse_date_col (setitem df c s) date_col
                   = parse_date_col df date_col).
  { unfold parse_date_col. rewrite getitem_setitem_other; auto. }
  destruct (parse_date_col df date_col) as [stamps|e] eqn:E.
  - now rewrite (gate4_parsed _ _ _ _ _ Hparse), (gate4_parsed _ _ _ _ _ E).
  - now rewrite (gate4_unparsed _ _ _ _ _ Hparse), (gate4_unparsed _ _ _ _ _ E).
Qed.

(** X13. The score does not depend on the values to forecast.  With the
    target column replaced by any other column of values, gates 1 to 4
    give the same score and the same reasons; two returned pairs differ
    at most by the seasonality note at the end. *)
Theorem score_does_not_depend_on_target_values
    (df : DataFrame) (target_col date_col : string) (h : Z) (values : Series) :
  In target_col (labels df) ->
  target_col <> date_col ->
  let df2 := setitem df target_col values in
  snd (gates_1_4 df2 target_col date_col h)
  = snd (gates_1_4 df target_col date_col h)
  /\ forall dfa dfb score score2 reasons reasons2,
       analyze_dataset df target_col date_col h = (dfa, Ok (score, reasons)) ->
       analyze_dataset df2 target_col date_col h
       = (dfb, Ok (score2, reasons2)) ->
       score2 = score
       /\ exists base,
            (reasons = base \/ reasons = (base ++ [reason_seasonality])%list)
            /\ (reasons2 = base
                \/ reasons2 = (base ++ [reason_seasonality])%list).
Proof.
  intros Htarget Hne df2.
  assert (Hpres := present_of_label df target_col Htarget).
  assert (H14 : snd (gates_1_4 df2 target_col date_col h)
                = snd (gates_1_4 df target_col date_col h)).
  { unfold gates_1_4, df2.
    rewrite (gates_1_3_setitem df target_col values _ _ Hpres (or_introl eq_refl)).
    destruct (gates_1_3 df target_col date_col) as [t3|e]; [|reflexivity].
    assert (H4 := gate4_setitem_other df target_col values date_col h t3 Hne).
    destruct (gate4 (setitem df target_col values) date_col h t3).
    destruct (gate4 df date_col h t3). simpl in *. now subst. }
  split; [exact H14|].
  intros dfa dfb score score2 reasons reasons2 Ha Hb.
  destruct (analyze_dataset_returned _ _ _ _ _ _ _ Ha)
    as [t4 [ia [Ga [_ [-> ->]]]]].
  destruct (analyze_dataset_returned _ _ _ _ _ _ _ Hb)
    as [t4' [ib [Gb [_ [-> ->]]]]].
  rewrite Ga, Gb in H14. simpl in H14. injection H14 as ->.
  split; [reflexivity|]. exists (snd t4). split.
  - destruct (seasonality_note_cases ia (fst t4)) as [->| ->];
      [left; apply app_nil_r|now right].
  - destruct (seasonality_note_cases ib (fst t4)) as [->| ->];
      [left; apply app_nil_r|now right].
Qed.

(** *** The page *)

Lemma target_choices_spec (df : DataFrame) (date_col c : string) :
  In c (target_choices df date_col) <-> In c (labels df) /\ c <> date_col.
Proof.
  unfold target_choices. rewrite filter_In, negb_true_iff.
  now rewrite String.eqb_neq.
Qed.

(** X14. What the click shows.  On a table with distinct labels, with
    the target taken from the options of the selector (the labels other
    than the date label), the analysis returns a pair and the page gets,
    in this order: a divider, the recommendation header, one box (the
    advanced tool with the score when the score is 1 or more, the simple
    tool otherwise), the analysis header, and then the note on simple
    data when there is no reason, or else every reason in order.  No
    error is shown; and with the simple tool recommended the page shows
    the note on simple data or nothing but a date warning. *)
Theorem click_shows_one_recommendation
    (df : DataFrame) (target_col date_col : string) (h : Z) :
  NoDup (labels df) ->
  In target_col (target_choices df date_col) ->
  exists df' score reasons,
    analyze_dataset df target_col date_col h = (df', Ok (score, reasons))
    /\ on_analyze df target_col date_col h
       = (df',
          ([ Divider;
             Header "🎯 Recommendation";
             Markdown (match recommend score with
                       | AzureMachineLearning => azure_box score
                       | PowerBIAutoML => power_bi_box
                       end);
             Subheader "📝 Technical Analysis" ]
           ++ (if Nat.eqb (List.length reasons) 0
               then [Info simple_data_info]
               else map Write reasons))%list)
    /\ (forall text, ~ In (Error text) (snd (on_analyze df target_col date_col h)))
    /\ (In (Info simple_data_info) (snd (on_analyze df target_col date_col h))
        <-> reasons = [])
    /\ (recommend score = PowerBIAutoML ->
        reasons = [] \/ exists e, reasons = [reason_date_warning e]).
Proof.
  intros Hnd Hchoice.
  apply target_choices_spec in Hchoice as [Htarget _].
  destruct (gates_1_3_returns df target_col date_col Hnd) as [t3 H3].
  assert (G14 := gates_1_4_after_gate3 df target_col date_col h t3 H3).
  destruct (getitem_one_column df target_col Hnd Htarget) as [st [Hst _]].
  assert (Hitem : exists it,
             getitem (fst (gate4 df date_col h t3)) target_col = Ok it).
  { destruct (gate4_frame df date_col h t3) as [[e [_ ->]]|[stamps [Hp ->]]];
      [eauto|].
    apply (getitem_after_parse df date_col target_col stamps Hp). eauto. }
  destruct Hitem as [it Hit].
  assert (Hrun := analyze_dataset_after_gate4 _ _ _ _ _ _ _ G14 Hit).
  set (df' := fst (gate4 df date_col h t3)) in *.
  set (score := fst (snd (gate4 df date_col h t3))) in *.
  set (reasons := (snd (snd (gate4 df date_col h t3))
                     ++ seasonality_note it score)%list) in *.
  exists df', score, reasons.
  assert (Hpage : on_analyze df target_col date_col h
                  = (df', Divider :: show_results score reasons)).
  { unfold on_analyze. now rewrite Hrun. }
  assert (Hshape : show_results score reasons
                   = ([ Header "🎯 Recommendation";
                        Markdown (match recommend score with
                                  | AzureMachineLearning => azure_box score
                                  | PowerBIAutoML => power_bi_box
                                  end);
                        Subheader "📝 Technical Analysis" ]
                      ++ (if Nat.eqb (List.length reasons) 0
                          then [Info simple_data_info]
                          else map Write reasons))%list).
  { unfold show_results, recommend. destruct (1 <=? score);
      now destruct reasons. }
  split; [exact Hrun|]. split; [rewrite Hpage, Hshape; reflexivity|].
  rewrite Hpage, Hshape. cbn [snd].
  split; [|split].
  - intros text Hin. simpl in Hin.
    destruct Hin as [Hin|[Hin|[Hin|[Hin|Hin]]]]; try discriminate.
    destruct (Nat.eqb (List.length reasons) 0).
    + destruct Hin as [Hin|[]]. discriminate.
    + apply in_map_iff in Hin as [r [Hr _]]. discriminate.
  - split.
    + intros Hin. simpl in Hin.
      destruct Hin as [Hin|[Hin|[Hin|[Hin|Hin]]]]; try discriminate.
      destruct reasons as [|r rs]; [reflexivity|]. simpl in Hin.
      destruct Hin as [Hin|Hin]; [discriminate|].
      apply in_map_iff in Hin as [r' [Hr _]]. discriminate.
    + intros ->. simpl. do 4 right. left. reflexivity.
  - intros Hrec. unfold recommend in Hrec.
    destruct (Z.leb_spec 1 score) as [|Hlow]; [discriminate|].
    assert (Hzero : score = 0).
    { destruct (gates_1_4_upto _ _ _ _ _ _ G14) as [Hs _].
      fold score in Hs. lia. }
    assert (Hnote : seasonality_note it score = []).
    { unfold seasonality_note. rewrite Hzero. simpl.
      now rewrite andb_false_r. }
    unfold reasons. rewrite Hnote, app_nil_r.
    destruct (gate4_outcome df date_col h t3) as [Hk|[[d Hb]|[e Hw]]].
    + rewrite Hk. unfold score in Hzero. rewrite Hk in Hzero.
      rewrite (gates_1_3_zero _ _ _ _ H3 Hzero). now left.
    + unfold score in Hzero. rewrite Hb in Hzero. simpl in Hzero.
      destruct (gates_1_3_upto _ _ _ _ H3) as [Hs _]. lia.
    + rewrite Hw. unfold score in Hzero. rewrite Hw in Hzero.
      simpl in Hzero. rewrite (gates_1_3_zero _ _ _ _ H3 Hzero).
      right. exists e. reflexivity.
Qed.

(** *** Short and empty tables *)

Lemma dropna_length (xs : list float) :
  (List.length (dropna xs) <= List.length xs)%nat.
Proof. unfold dropna. apply filter_length_le. Qed.

(** The detector says no of a column of fewer than 50 rows. *)
Lemma check_seasonality_short (s : Series) :
  (forall xs, to_numeric s = Ok xs ->
              List.length xs = N.to_nat (Series_len s)) ->
  (Series_len s < 50)%N ->
  check_seasonality (OneColumn s) = false.
Proof.
  intros Hrows Hshort. unfold check_seasonality, check_seasonality_try.
  cbn [to_numeric_item]. destruct (to_numeric s) as [xs|e] eqn:E;
    [|reflexivity].
  cbn [bind].
  replace (Z.of_nat (List.length (dropna xs)) <? 50) with true; [reflexivity|].
  symmetry. apply Z.ltb_lt.
  assert (H1 := dropna_length xs). rewrite (Hrows xs eq_refl) in H1. lia.
Qed.

Lemma nunique_empty (s : Series) : Series_len s = 0%N -> nunique s = 0.
Proof.
  unfold Series_len.
  destruct s as [v|v|v|v|v]; destruct v; simpl; intros H;
    first [reflexivity | lia].
Qed.

(** When the loop of gate 2 adds a point, it has met a column with more
    than 10 distinct values. *)
Lemma scan_ids_fired (df : DataFrame) (ids : list string) (t t' : tally) :
  scan_ids df ids t = Ok t' ->
  t' = t
  \/ exists col s,
       In col ids /\ getitem df col = Ok (OneColumn s) /\ 10 < nunique s.
Proof.
  induction ids as [|c ids IH]; simpl.
  - intros [= <-]. now left.
  - unfold nunique_at.
    destruct (getitem df c) as [[s|cols]|e] eqn:E; simpl; try discriminate.
    destruct (Z.ltb_spec 10 (nunique s)) as [Hn|Hn].
    + intros _. right. exists c, s. auto.
    + intros H. destruct (IH H) as [->|[col [s' [Hin Hrest]]]];
        [now left|]. right. exists col, s'. auto.
Qed.

Lemma gate2_fired (df : DataFrame) (features : list string) (t t' : tally) :
  gate2 df features t = Ok t' ->
  t' = t
  \/ exists col s, getitem df col = Ok (OneColumn s) /\ 10 < nunique s.
Proof.
  unfold gate2. destruct (potential_ids df features) as [ids|e]; simpl;
    [|discriminate].
  destruct (0 <? _).
  - intros H. destruct (scan_ids_fired _ _ _ _ H) as [->|[c [s [_ Hs]]]];
      [now left|right; eauto].
  - intros [= <-]. now left.
Qed.

Lemma column_length (df : DataFrame) (c : string) (s : Series) :
  well_formed df -> getitem df c = Ok (OneColumn s) ->
  Series_len s = index_len df.
Proof.
  intros Hwf Hs. unfold well_formed in Hwf. rewrite Forall_forall in Hwf.
  exact (Hwf (c, s) (getitem_in _ _ _ Hs)).
Qed.

(** X15. A table of fewer than 50 rows never gets the seasonality note.
    When the table is rectangular and the library's conversions work
    row by row, the detector has fewer than 50 values to look at,
    whatever they are, so no returned pair holds the seasonality
    reason. *)
Theorem short_table_gets_no_seasonality_note
    (df df' : DataFrame) (target_col date_col : string) (h score : Z)
    (reasons : list string) :
  (forall s stamps,
      to_datetime s = Ok stamps ->
      Series_len (DatetimeSeries stamps) = Series_len s) ->
  (forall s xs,
      to_numeric s = Ok xs -> List.length xs = N.to_nat (Series_len s)) ->
  well_formed df ->
  (index_len df < 50)%N ->
  analyze_dataset df target_col date_col h = (df', Ok (score, reasons)) ->
  ~ In reason_seasonality reasons.
Proof.
  intros Hdates Hnums Hwf Hshort H.
  assert (Hwf' := analyze_dataset_well_formed df target_col date_col h Hdates Hwf).
  assert (Hlen' : index_len df' = index_len df).
  { replace df' with (fst (analyze_dataset df target_col date_col h))
      by now rewrite H.
    destruct (analyze_dataset_frame df target_col date_col h)
      as [->|[stamps [_ ->]]]; [reflexivity|apply index_len_setitem]. }
  rewrite H in Hwf'. simpl in Hwf'.
  destruct (analyze_dataset_returned _ _ _ _ _ _ _ H)
    as [t4 [target_item [G14 [Hitem [_ ->]]]]].
  assert (Hnote : seasonality_note target_item (fst t4) = []).
  { unfold seasonality_note.
    replace (check_seasonality target_item) with false; [reflexivity|].
    symmetry. destruct target_item as [s|cols]; [|reflexivity].
    apply check_seasonality_short; [apply Hnums|].
    rewrite (column_length df' target_col s Hwf' Hitem). lia. }
  rewrite Hnote, app_nil_r.
  destruct (gates_1_4_upto _ _ _ _ _ _ G14) as [_ Hord].
  apply (in_gate_order_not_later 4); [exact Hord|].
  rewrite gate_of_seasonality. lia.
Qed.

(** X16. On a table without rows only gate 1 can score.  When the table
    is rectangular with an index of length 0, a returned pair has the
    tally of gate 1 (one point and the multivariate reason with more
    than two feature columns, nothing otherwise), followed at most by a
    date warning. *)
Theorem empty_table_scores_on_columns_alone
    (df df' : DataFrame) (target_col date_col : string) (h score : Z)
    (reasons : list string) :
  (forall s stamps,
      to_datetime s = Ok stamps ->
      Series_len (DatetimeSeries stamps) = Series_len s) ->
  (forall s xs,
      to_numeric s = Ok xs -> List.length xs = N.to_nat (Series_len s)) ->
  well_formed df ->
  index_len df = 0%N ->
  analyze_dataset df target_col date_col h = (df', Ok (score, reasons)) ->
  let t1 := gate1 (feature_cols df target_col date_col) (0, []) in
  score = fst t1
  /\ (reasons = snd t1
      \/ exists e, reasons = (snd t1 ++ [reason_date_warning e])%list).
Proof.
  intros Hdates Hnums Hwf Hempty H t1.
  assert (Hwf' := analyze_dataset_well_formed df target_col date_col h Hdates Hwf).
  rewrite H in Hwf'. simpl in Hwf'.
  assert (Hlen' : index_len df' = 0%N).
  { replace df' with (fst (analyze_dataset df target_col date_col h))
      by now rewrite H.
    destruct (analyze_dataset_frame df target_col date_col h)
      as [->|[stamps [_ ->]]]; [exact Hempty|].
    now rewrite index_len_setitem. }
  destruct (analyze_dataset_returned _ _ _ _ _ _ _ H)
    as [t4 [target_item [G14 [Hitem [-> ->]]]]].
  assert (Hnote : seasonality_note target_item (fst t4) = []).
  { unfold seasonality_note.
    replace (check_seasonality target_item) with false; [reflexivity|].
    symmetry. destruct target_item as [s|cols]; [|reflexivity].
    apply check_seasonality_short; [apply Hnums|].
    rewrite (column_length df' target_col s Hwf' Hitem). lia. }
  rewrite Hnote, app_nil_r. clear Hnote Hitem.
  unfold gates_1_4 in G14.
  destruct (gates_1_3 df target_col date_col) as [t3|e3] eqn:E3;
    [|discriminate].
  assert (H3 : t3 = t1).
  { unfold gates_1_3 in E3. fold t1 in E3.
    destruct (gate2 df _ t1) as [t2|e2] eqn:E2; simpl in E3; [|discriminate].
    injection E3 as <-.
    assert (Ht2 : t2 = t1).
    { destruct (gate2_fired _ _ _ _ E2) as [->|[col [s [Hs Hn]]]];
        [reflexivity|].
      rewrite (nunique_empty s) in Hn; [lia|].
      now rewrite (column_length df col s Hwf Hs). }
    rewrite Ht2. unfold gate3, len. now rewrite Hempty. }
  subst t3.
  destruct (parse_date_col df date_col) as [stamps|e] eqn:E.
  - rewrite (gate4_parsed _ _ _ _ _ E) in G14. injection G14 as _ <-.
    assert (Hnone : stamps = []).
    { destruct (parse_date_col_ok _ _ _ E) as [s [Hs Hparsed]].
      assert (Hl := Hdates s stamps Hparsed).
      rewrite (column_length df date_col s Hwf Hs), Hempty in Hl.
      unfold Series_len in Hl. destruct stamps; [reflexivity|simpl in Hl; lia]. }
    rewrite Hnone. split; [reflexivity|now left].
  - rewrite (gate4_unparsed _ _ _ _ _ E) in G14. injection G14 as _ <-.
    split; [reflexivity|]. right. exists e. reflexivity.
Qed.

End Core.

(** ** The claims on concrete tables

    The library of [Fixture] stands for pandas and statsmodels. *)

Ltac distinct_labels :=
  repeat (constructor;
          [ simpl; intros H;
            repeat (destruct H as [H|H]; [discriminate H|]); exact H | ]);
  constructor.

(** *** The table of 600,000 rows *)

Lemma parse_dates_repeat (d : string) (t : Z) (n : nat) :
  Fixture.parse_date d = Some t ->
  Fixture.parse_dates (repeat (Some d) n) = Ok (repeat (Some t) n).
Proof.
  intros Hd. induction n as [|n IH]; simpl; [reflexivity|].
  now rewrite Hd, IH.
Qed.

Lemma parse_dates_cons (d : string) (t : Z) (rest : list (option string))
    (ts : list (option Z)) :
  Fixture.parse_date d = Some t ->
  Fixture.parse_dates rest = Ok ts ->
  Fixture.parse_dates (Some d :: rest) = Ok (Some t :: ts).
Proof. intros Hd Hrest. simpl. now rewrite Hd, Hrest. Qed.

Lemma Series_len_repeat_int (x : Z) (n : Z) :
  0 <= n -> Series_len (Int64Series (repeat x (Z.to_nat n))) = Z.to_N n.
Proof. intros Hn. unfold Series_len. rewrite repeat_length. lia. Qed.

Lemma big_shop_well_formed : well_formed Fixture.big_shop.
Proof.
  cbv [well_formed Fixture.big_shop columns index_len].
  repeat apply Forall_cons; try apply Forall_nil; cbv [snd].
  - cbv [Series_len Fixture.big_dates]; cbn [List.length];
    rewrite repeat_length; vm_compute; reflexivity.
  - rewrite Series_len_repeat_int by lia; reflexivity.
  - cbv [Series_len Fixture.big_stores];
    rewrite length_app, repeat_length; vm_compute; reflexivity.
  - rewrite Series_len_repeat_int by lia; reflexivity.
  - cbv [Series_len]; rewrite repeat_length; vm_compute; reflexivity.
Qed.

Lemma big_shop_dates :
  parse_date_col Fixture.repr Fixture.to_datetime Fixture.big_shop "date"
  = Ok Fixture.big_stamps.
Proof.
  change (Fixture.parse_dates Fixture.big_dates = Ok Fixture.big_stamps).
  apply parse_dates_cons; [reflexivity|].
  apply parse_dates_repeat. reflexivity.
Qed.

Lemma big_shop_stores : nunique (ObjectSeries Fixture.big_stores) = 15.
Proof. vm_compute. reflexivity. Qed.

Lemma big_shop_span :
  date_span Fixture.pandas_says Fixture.big_stamps = Ok (Some 100).
Proof. vm_compute. reflexivity. Qed.

Lemma big_shop_labels :
  labels Fixture.big_shop = ["date"; "sales"; "store"; "price"; "promo"].
Proof. reflexivity. Qed.

Lemma big_shop_distinct : NoDup (labels Fixture.big_shop).
Proof. rewrite big_shop_labels. distinct_labels. Qed.

Lemma big_shop_target : In "sales" (labels Fixture.big_shop).
Proof. rewrite big_shop_labels. right. left. reflexivity. Qed.

Lemma big_shop_features :
  feature_cols Fixture.big_shop "sales" "date" = ["store"; "price"; "promo"].
Proof. reflexivity. Qed.

Lemma big_shop_count :
  List.length (feature_cols Fixture.big_shop "sales" "date") = 3%nat.
Proof. reflexivity. Qed.

Lemma big_shop_store :
  exists c s,
    In c (feature_cols Fixture.big_shop "sales" "date")
    /\ getitem Fixture.repr Fixture.big_shop c = Ok (OneColumn s)
    /\ Series_dtype s = DObject /\ nunique s = 15.
Proof.
  exists "store", (ObjectSeries Fixture.big_stores).
  (split; [rewrite big_shop_features; left; reflexivity|]).
  (split; [reflexivity|]).
  (split; [reflexivity|]). exact big_shop_stores.
Qed.

Lemma big_shop_rows : len Fixture.big_shop = 600000.
Proof. reflexivity. Qed.

(** The table of the scenario of C1: a well-formed table of which the
    hypotheses hold, and so one whose analysis scores 4. *)
Lemma scenario_scores_four_witness :
  well_formed Fixture.big_shop
  /\ exists col s target_item,
       let df := Fixture.big_shop in
       let features := feature_cols df "sales" "date" in
       let df' := setitem df "date" (DatetimeSeries Fixture.big_stamps) in
       let r1 := reason_multivariate features in
       let r2 := reason_granularity col (nunique s) in
       let r3 := reason_volume 600000 in
       let r4 := reason_horizon 30 100 in
       In col features
       /\ getitem Fixture.repr df col = Ok (OneColumn s)
       /\ Series_dtype s = DObject
       /\ 10 < nunique s
       /\ getitem Fixture.repr df' "sales" = Ok target_item
       /\ gate1 features (0, []) = (1, [r1])
       /\ gate2 Fixture.pandas_says Fixture.repr df features (1, [r1])
          = Ok (2, [r1; r2])
       /\ gate3 df (2, [r1; r2]) = (3, [r1; r2; r3])
       /\ gate4 Fixture.pandas_says Fixture.repr Fixture.to_datetime df "date"
            30 (3, [r1; r2; r3])
          = (df', (4, [r1; r2; r3; r4]))
       /\ analyze_dataset Fixture.pandas_says Fixture.repr Fixture.to_datetime
            Fixture.to_numeric Fixture.acf df "sales" "date" 30
          = (df', Ok (4, ([r1; r2; r3; r4]
                            ++ seasonality_note Fixture.to_numeric Fixture.acf
                                 target_item 4)%list))
       /\ recommend 4 = AzureMachineLearning.
Proof.
  split; [exact big_shop_well_formed|].
  exact (scenario_scores_four Fixture.pandas_says Fixture.repr
           Fixture.to_datetime Fixture.to_numeric Fixture.acf Fixture.big_shop
           "sales" "date" Fixture.big_stamps big_shop_distinct big_shop_target
           big_shop_count big_shop_store big_shop_rows big_shop_dates
           big_shop_span).
Defined.

(** *** Smaller tables *)

Lemma quarter_dates :
  parse_date_col Fixture.repr Fixture.to_datetime Fixture.quarter "date"
  = Ok Fixture.quarter_stamps.
Proof. reflexivity. Qed.

Lemma quarter_span :
  date_span Fixture.pandas_says Fixture.quarter_stamps = Ok (Some 100).
Proof. reflexivity. Qed.

(** The analysis of [Fixture.quarter], whose dates span 100 days, fires
    gate 4 at horizon 26 and not at horizon 25. *)
Lemma gate4_strict_ratio_boundary_witness :
  let df' := setitem Fixture.quarter "date"
               (DatetimeSeries Fixture.quarter_stamps) in
  let analyze :=
    analyze_dataset Fixture.pandas_says Fixture.repr Fixture.to_datetime
      Fixture.to_numeric Fixture.acf Fixture.quarter "sales" "date" in
  date_span Fixture.pandas_says Fixture.quarter_stamps = Ok (Some 100)
  /\ analyze 26 = (df', Ok (1, [reason_horizon 26 100]))
  /\ analyze 25 = (df', Ok (0, [])).
Proof.
  intros df' analyze. split; [exact quarter_span|].
  destruct (gate4_strict_ratio_boundary Fixture.pandas_says Fixture.repr
              Fixture.to_datetime Fixture.to_numeric Fixture.acf Fixture.quarter
              "sales" "date" Fixture.quarter_stamps (0, []) (OneColumn
              (Int64Series [120; 80])) quarter_dates eq_refl eq_refl) as
              [Hboundary _].
  destruct (Hboundary quarter_span) as [H26 [H25 _]].
  split; [exact H26|exact H25].
Defined.

Lemma chain_distinct : NoDup (labels Fixture.chain).
Proof. distinct_labels. Qed.

(** Gate 2 on [Fixture.chain], where the stores and the articles both
    have more than 10 distinct values. *)
Lemma gate2_fires_once_on_first_match_witness :
  let df := Fixture.chain in
  let t : tally := (0, []) in
  let features := feature_cols df "sales" "date" in
  ((forall c, In c features -> high_cardinality_id Fixture.repr df c = false)
   /\ gate2 Fixture.pandas_says Fixture.repr df features t = Ok t)
  \/
  (exists pre col post s ids_before,
      let reason :=
        ("🏪 **High Granularity:** The column '" ++ col ++ "' has "
         ++ str_int (nunique s) ++ " unique items. Training "
         ++ str_int (nunique s)
         ++ " separate models requires Azure's 'Many Models' accelerator.")%string in
      features = (pre ++ col :: post)%list
      /\ (forall c, In c pre -> high_cardinality_id Fixture.repr df c = false)
      /\ getitem Fixture.repr df col = Ok (OneColumn s)
      /\ Series_dtype s = DObject
      /\ 10 < nunique s
      /\ gate2 Fixture.pandas_says Fixture.repr df features t
         = Ok (fst t + 1, (snd t ++ [reason])%list)
      /\ potential_ids Fixture.pandas_says Fixture.repr df features
         = Ok (ids_before
                 ++ col :: filter (is_categorical_id Fixture.repr df) post)%list
      /\ forall rest,
           scan_ids Fixture.pandas_says Fixture.repr df
             (ids_before ++ col :: rest) t
           = Ok (fst t + 1, (snd t ++ [reason])%list)).
Proof.
  exact (gate2_fires_once_on_first_match Fixture.pandas_says Fixture.repr
           Fixture.chain "sales" "date" (0, []) chain_distinct).
Defined.

Example gate2_on_chain :
  feature_cols Fixture.chain "sales" "date" = ["region"; "store"; "article"]
  /\ gate2 Fixture.pandas_says Fixture.repr Fixture.chain
       ["region"; "store"; "article"] (0, [])
     = Ok (1, ["🏪 **High Granularity:** The column 'store' has 12 unique items. Training 12 separate models requires Azure's 'Many Models' accelerator."]).
Proof. split; reflexivity. Qed.

Lemma undated_distinct : NoDup (labels Fixture.undated).
Proof. distinct_labels. Qed.

Lemma undated_target : In "sales" (labels Fixture.undated).
Proof. right. left. reflexivity. Qed.

Lemma undated_dates :
  parse_date_col Fixture.repr Fixture.to_datetime Fixture.undated "date"
  = Raise Fixture.unparsed_soon.
Proof. reflexivity. Qed.

(** The analysis of [Fixture.undated], whose dates do not parse. *)
Lemma date_parse_failure_becomes_warning_witness :
  parse_date_col Fixture.repr Fixture.to_datetime Fixture.undated "date"
  = Raise Fixture.unparsed_soon
  /\ exists t3 target_item,
       gates_1_3 Fixture.pandas_says Fixture.repr Fixture.undated "sales" "date"
         = Ok t3
       /\ getitem Fixture.repr Fixture.undated "sales" = Ok target_item
       /\ gate4 Fixture.pandas_says Fixture.repr Fixture.to_datetime
            Fixture.undated "date" 30 t3
          = (Fixture.undated,
             (fst t3, (snd t3 ++ [reason_date_warning Fixture.unparsed_soon])%list))
       /\ reason_date_warning Fixture.unparsed_soon
          = "⚠️ Could not calculate Date logic: " ++ str Fixture.unparsed_soon
       /\ analyze_dataset Fixture.pandas_says Fixture.repr Fixture.to_datetime
            Fixture.to_numeric Fixture.acf Fixture.undated "sales" "date" 30
          = (Fixture.undated,
             Ok (fst t3,
                 (snd t3 ++ reason_date_warning Fixture.unparsed_soon
                    :: seasonality_note Fixture.to_numeric Fixture.acf
                         target_item (fst t3))%list)).
Proof.
  split; [exact undated_dates|].
  exact (date_parse_failure_becomes_warning Fixture.pandas_says Fixture.repr
           Fixture.to_datetime Fixture.to_numeric Fixture.acf Fixture.undated
           "sales" "date" 30 Fixture.unparsed_soon undated_distinct
           undated_target undated_dates).
Defined.

Example analysis_of_undated :
  snd (analyze_dataset Fixture.pandas_says Fixture.repr Fixture.to_datetime
         Fixture.to_numeric Fixture.acf Fixture.undated "sales" "date" 30)
  = Ok (0, ["⚠️ Could not calculate Date logic: Unknown datetime string format, unable to parse: soon"]).
Proof. reflexivity. Qed.

Lemma small_shop_distinct : NoDup (labels Fixture.small_shop).
Proof. distinct_labels. Qed.

Lemma small_shop_target : In "sales" (labels Fixture.small_shop).
Proof. right. left. reflexivity. Qed.

(** The analysis of [Fixture.small_shop], whose sales repeat weekly. *)
Lemma gate5_never_changes_score_witness :
  exists df' t4 target_item reasons,
    gates_1_4 Fixture.pandas_says Fixture.repr Fixture.to_datetime
      Fixture.small_shop "sales" "date" 30 = (df', Ok t4)
    /\ getitem Fixture.repr df' "sales" = Ok target_item
    /\ analyze_dataset Fixture.pandas_says Fixture.repr Fixture.to_datetime
         Fixture.to_numeric Fixture.acf Fixture.small_shop "sales" "date" 30
       = (df', Ok (fst t4, reasons))
    /\ (check_seasonality Fixture.to_numeric Fixture.acf target_item = true
        /\ 0 < fst t4 ->
        reasons = (snd t4 ++ [reason_seasonality])%list)
    /\ (~ (check_seasonality Fixture.to_numeric Fixture.acf target_item = true
           /\ 0 < fst t4) ->
        reasons = snd t4)
    /\ ~ In reason_seasonality (snd t4)
    /\ (In reason_seasonality reasons <->
        check_seasonality Fixture.to_numeric Fixture.acf target_item = true
        /\ 0 < fst t4)
    /\ (fst t4 = 0 -> ~ In reason_seasonality reasons).
Proof.
  exact (gate5_never_changes_score Fixture.pandas_says Fixture.repr
           Fixture.to_datetime Fixture.to_numeric Fixture.acf Fixture.small_shop
           "sales" "date" 30 small_shop_distinct small_shop_target).
Defined.

Example analysis_of_small_shop :
  check_seasonality Fixture.to_numeric Fixture.acf
    (OneColumn (Int64Series Fixture.weekly_sales)) = true
  /\ snd (gates_1_4 Fixture.pandas_says Fixture.repr Fixture.to_datetime
            Fixture.small_shop "sales" "date" 30)
     = Ok (1, [reason_horizon 30 27])
  /\ snd (analyze_dataset Fixture.pandas_says Fixture.repr Fixture.to_datetime
            Fixture.to_numeric Fixture.acf Fixture.small_shop "sales" "date" 30)
     = Ok (1, [reason_horizon 30 27; reason_seasonality])
  /\ snd (analyze_dataset Fixture.pandas_says Fixture.repr Fixture.to_datetime
            Fixture.to_numeric Fixture.acf Fixture.small_shop "sales" "date" 6)
     = Ok (0, []).
Proof. repeat split; vm_compute; reflexivity. Qed.

(** Dates that are parsed parse to themselves in [Fixture]. *)
Lemma fixture_dates_parsed (stamps : list (option Z)) :
  Fixture.to_datetime (DatetimeSeries stamps) = Ok stamps.
Proof. reflexivity. Qed.

(** Two runs on [Fixture.small_shop]. *)
Lemma analyze_dataset_idempotent_witness :
  let analyze :=
    analyze_dataset Fixture.pandas_says Fixture.repr Fixture.to_datetime
      Fixture.to_numeric Fixture.acf in
  let first := analyze Fixture.small_shop "sales" "date" 30 in
  let second := analyze (fst first) "sales" "date" 30 in
  snd second = snd first /\ fst second = fst first.
Proof.
  exact (analyze_dataset_idempotent Fixture.pandas_says Fixture.repr
           Fixture.to_datetime Fixture.to_numeric Fixture.acf
           fixture_dates_parsed Fixture.small_shop "sales" "date" 30).
Defined.

Lemma quarter_analysis :
  analyze_dataset Fixture.pandas_says Fixture.repr Fixture.to_datetime
    Fixture.to_numeric Fixture.acf Fixture.quarter "sales" "date" 30
  = (setitem Fixture.quarter "date" (DatetimeSeries Fixture.quarter_stamps),
     Ok (1, [reason_horizon 30 100])).
Proof. reflexivity. Qed.

(** The pair returned for [Fixture.quarter] at horizon 30. *)
Lemma analyze_dataset_bounded_witness :
  let reasons := [reason_horizon 30 100] in
  0 <= 1 <= 4
  /\ (List.length reasons <= 5)%nat
  /\ in_gate_order 5 reasons
  /\ (forall k, (List.length (filter (from_gate k) reasons) <= 1)%nat)
  /\ (forall h' d e,
        ~ (In (reason_horizon h' d) reasons
           /\ In (reason_date_warning e) reasons)).
Proof.
  exact (analyze_dataset_bounded Fixture.pandas_says Fixture.repr
           Fixture.to_datetime Fixture.to_numeric Fixture.acf Fixture.quarter
           (setitem Fixture.quarter "date"
              (DatetimeSeries Fixture.quarter_stamps))
           "sales" "date" 30 1 [reason_horizon 30 100] quarter_analysis).
Defined.

(** C2, as stated, fails on [Fixture.quarter]: the call leaves the date
    column holding parsed instants where it held strings. *)
Lemma date_column_is_rewritten :
  getitem Fixture.repr Fixture.quarter "date"
  = Ok (OneColumn (ObjectSeries [Some "2024-01-01"; Some "2024-04-10"]))
  /\ getitem Fixture.repr
       (fst (analyze_dataset Fixture.pandas_says Fixture.repr
               Fixture.to_datetime Fixture.to_numeric Fixture.acf
               Fixture.quarter "sales" "date" 30))
       "date"
     = Ok (OneColumn
             (DatetimeSeries [Some 1704067200000000000;
                              Some 1712707200000000000]))
  /\ fst (analyze_dataset Fixture.pandas_says Fixture.repr Fixture.to_datetime
            Fixture.to_numeric Fixture.acf Fixture.quarter "sales" "date" 30)
     <> Fixture.quarter.
Proof.
  split; [reflexivity|]. split; [reflexivity|].
  rewrite quarter_analysis. simpl fst. intros H.
  apply (f_equal (fun df => getitem Fixture.repr df "date")) in H.
  vm_compute in H. discriminate H.
Qed.

(** *** Gate 3 and the detector on concrete inputs *)

Example gate3_at_the_threshold :
  gate3 (mkDataFrame 500000 []) (0, []) = (0, [])
  /\ gate3 (mkDataFrame 500001 []) (0, [])
     = (1, ["💾 **High Volume:** Dataset has 500,001 rows. Power BI may hit timeout limits during training."]).
Proof. split; reflexivity. Qed.

Example check_seasonality_on_49_values :
  check_seasonality Fixture.to_numeric Fixture.acf
    (OneColumn (Int64Series (firstn 49 Fixture.weekly_sales))) = false.
Proof. vm_compute. reflexivity. Qed.

Example check_seasonality_when_acf_fails :
  check_seasonality Fixture.to_numeric Fixture.failing_acf
    (OneColumn (Int64Series Fixture.weekly_sales)) = false.
Proof. vm_compute. reflexivity. Qed.

(** ** The further properties on concrete tables *)

Local Abbreviation analyze :=
  (analyze_dataset Fixture.pandas_says Fixture.repr Fixture.to_datetime
     Fixture.to_numeric Fixture.acf).

Local Abbreviation quarter_parsed :=
  (setitem Fixture.quarter "date" (DatetimeSeries Fixture.quarter_stamps)).

Lemma quarter_distinct : NoDup (labels Fixture.quarter).
Proof. distinct_labels. Qed.

Lemma quarter_gates_1_3 :
  gates_1_3 Fixture.pandas_says Fixture.repr Fixture.quarter "sales" "date"
  = Ok (0, []).
Proof. reflexivity. Qed.

(** The pair returned for [Fixture.quarter] at horizon 30 has one point
    and one scoring reason. *)
Lemma score_counts_scoring_reasons_witness :
  let reasons := [reason_horizon 30 100] in
  1 = Z.of_nat (List.length (filter scoring_reason reasons))
  /\ Z.of_nat (List.length reasons) <= 1 + 2
  /\ (recommend 1 = AzureMachineLearning <->
      existsb scoring_reason reasons = true).
Proof.
  exact (score_counts_scoring_reasons Fixture.pandas_says Fixture.repr
           Fixture.to_datetime Fixture.to_numeric Fixture.acf Fixture.quarter
           quarter_parsed "sales" "date" 30 1 [reason_horizon 30 100]
           quarter_analysis).
Defined.

Lemma undated_analysis :
  analyze Fixture.undated "sales" "date" 30
  = (Fixture.undated, Ok (0, [reason_date_warning Fixture.unparsed_soon])).
Proof. reflexivity. Qed.

(** The pair returned for [Fixture.undated] has score 0 and the warning
    alone. *)
Lemma zero_score_has_at_most_the_warning_witness :
  let reasons := [reason_date_warning Fixture.unparsed_soon] in
  (reasons = [] \/ exists e, reasons = [reason_date_warning e])
  /\ ~ In reason_seasonality reasons
  /\ recommend 0 = PowerBIAutoML.
Proof.
  exact (zero_score_has_at_most_the_warning Fixture.pandas_says Fixture.repr
           Fixture.to_datetime Fixture.to_numeric Fixture.acf Fixture.undated
           Fixture.undated "sales" "date" 30 [reason_date_warning
           Fixture.unparsed_soon] undated_analysis).
Defined.

Lemma quarter_has_no_revenue : ~ In "revenue" (labels Fixture.quarter).
Proof. simpl. intros [H|[H|[]]]; discriminate H. Qed.

(** [Fixture.quarter] analysed for a target it does not hold. *)
Lemma missing_target_raises_key_error_witness :
  exists t3,
    gates_1_3 Fixture.pandas_says Fixture.repr Fixture.quarter "revenue" "date"
      = Ok t3
    /\ analyze Fixture.quarter "revenue" "date" 30
       = (fst (gate4 Fixture.pandas_says Fixture.repr Fixture.to_datetime
                 Fixture.quarter "date" 30 t3),
          Raise (mkExn KeyError (Fixture.repr "revenue"))).
Proof.
  exact (missing_target_raises_key_error Fixture.pandas_says Fixture.repr
           Fixture.to_datetime Fixture.to_numeric Fixture.acf Fixture.quarter
           "revenue" "date" 30 quarter_distinct quarter_has_no_revenue).
Defined.

Lemma quarter_target : In "sales" (labels Fixture.quarter).
Proof. right. left. reflexivity. Qed.

Lemma quarter_has_no_day : ~ In "day" (labels Fixture.quarter).
Proof. simpl. intros [H|[H|[]]]; discriminate H. Qed.

(** [Fixture.quarter] analysed with a date label it does not hold. *)
Lemma missing_date_column_becomes_warning_witness :
  exists t3 target_item,
    gates_1_3 Fixture.pandas_says Fixture.repr Fixture.quarter "sales" "day"
    = Ok t3
    /\ getitem Fixture.repr Fixture.quarter "sales" = Ok target_item
    /\ analyze Fixture.quarter "sales" "day" 30
       = (Fixture.quarter,
          Ok (fst t3,
              (snd t3
                 ++ ("⚠️ Could not calculate Date logic: "
                       ++ Fixture.repr "day")%string
                 :: seasonality_note Fixture.to_numeric Fixture.acf
                      target_item (fst t3))%list)).
Proof.
  exact (missing_date_column_becomes_warning Fixture.pandas_says Fixture.repr
           Fixture.to_datetime Fixture.to_numeric Fixture.acf Fixture.quarter
           "sales" "day" 30 quarter_distinct quarter_target quarter_has_no_day).
Defined.

(** [Fixture.twice_priced], where the label [price] stands twice. *)
Lemma repeated_feature_label_raises_witness :
  getitem Fixture.repr Fixture.twice_priced "price"
  = Ok (SubFrame [Int64Series [5; 6]; Int64Series [7; 8]])
  /\ analyze Fixture.twice_priced "sales" "date" 30
     = (Fixture.twice_priced,
        Raise (mkExn ValueError (truth_value_ambiguous Fixture.pandas_says))).
Proof.
  split; [reflexivity|].
  apply (repeated_feature_label_raises Fixture.pandas_says Fixture.repr
           Fixture.to_datetime Fixture.to_numeric Fixture.acf
           Fixture.twice_priced "sales" "date" "price" [Int64Series [5; 6];
           Int64Series [7; 8]] 30).
  - left. reflexivity.
  - reflexivity.
Defined.

Lemma quarter_stamps_near : within_timedelta Fixture.quarter_stamps.
Proof.
  intros a b [Ha|[Ha|[]]] [Hb|[Hb|[]]];
    injection Ha as <-; injection Hb as <-; vm_compute; discriminate.
Qed.

(** [Fixture.quarter], whose dates parse and lie 100 days apart, at
    horizon 30. *)
Lemma parsed_dates_bring_no_warning_witness :
  ~ In (reason_date_warning Fixture.unparsed_soon) [reason_horizon 30 100].
Proof.
  apply (parsed_dates_bring_no_warning Fixture.pandas_says Fixture.repr
           Fixture.to_datetime Fixture.to_numeric Fixture.acf Fixture.quarter
           quarter_parsed "sales" "date" 30 1 Fixture.quarter_stamps
           [reason_horizon 30 100]).
  - exact quarter_dates.
  - exact quarter_stamps_near.
  - reflexivity.
  - exact quarter_analysis.
Defined.

(** [Fixture.quarter], whose dates span 100 days, at a horizon of
    100 times 2^1024. *)
Lemma overflowing_horizon_becomes_warning_witness :
  gates_1_4 Fixture.pandas_says Fixture.repr Fixture.to_datetime Fixture.quarter
    "sales" "date"
    (2 ^ 1024 * 100)
  = (quarter_parsed,
     Ok (0,
         ["⚠️ Could not calculate Date logic: integer division result too large for a float"])).
Proof.
  apply (overflowing_horizon_becomes_warning Fixture.pandas_says Fixture.repr
           Fixture.to_datetime Fixture.quarter "sales" "date" (2 ^ 1024 * 100)
           100 Fixture.quarter_stamps (0, [])).
  - exact quarter_dates.
  - exact quarter_span.
  - reflexivity.
  - vm_compute. discriminate.
  - exact quarter_gates_1_3.
Defined.

Lemma quarter_analysis_25 :
  analyze Fixture.quarter "sales" "date" 25 = (quarter_parsed, Ok (0, [])).
Proof. reflexivity. Qed.

Lemma quarter_analysis_26 :
  analyze Fixture.quarter "sales" "date" 26
  = (quarter_parsed, Ok (1, [reason_horizon 26 100])).
Proof. reflexivity. Qed.

(** [Fixture.quarter] at horizons 25 and 26. *)
Lemma longer_horizon_never_lowers_score_witness :
  quarter_parsed = quarter_parsed /\ 0 <= 1 <= 0 + 1.
Proof.
  apply (longer_horizon_never_lowers_score Fixture.pandas_says Fixture.repr
           Fixture.to_datetime Fixture.to_numeric Fixture.acf Fixture.quarter
           quarter_parsed quarter_parsed "sales" "date" 25 26 0 1 []
           [reason_horizon 26 100]).
  - lia.
  - reflexivity.
  - reflexivity.
  - exact quarter_analysis_25.
  - exact quarter_analysis_26.
Defined.

Lemma quarter_reversed_dates :
  parse_date_col Fixture.repr Fixture.to_datetime Fixture.quarter_reversed
    "date"
  = Ok [Some (19823 * NS_PER_DAY); Some (19723 * NS_PER_DAY)].
Proof. reflexivity. Qed.

(** [Fixture.quarter] and the same rows in the other order. *)
Lemma gate4_does_not_depend_on_row_order_witness :
  let stamps := [Some (19823 * NS_PER_DAY); Some (19723 * NS_PER_DAY)] in
  date_span Fixture.pandas_says stamps
  = date_span Fixture.pandas_says Fixture.quarter_stamps
  /\ (forall d, date_span Fixture.pandas_says stamps = Ok (Some d) -> 0 <= d)
  /\ snd (gate4 Fixture.pandas_says Fixture.repr Fixture.to_datetime
            Fixture.quarter_reversed "date" 30 (0, []))
     = snd (gate4 Fixture.pandas_says Fixture.repr Fixture.to_datetime
              Fixture.quarter "date" 30 (0, [])).
Proof.
  apply (gate4_does_not_depend_on_row_order Fixture.pandas_says Fixture.repr
           Fixture.to_datetime Fixture.quarter_reversed Fixture.quarter "date"
           "date" 30 (0, [])).
  - exact quarter_reversed_dates.
  - exact quarter_dates.
  - apply perm_swap.
Defined.

Lemma parse_dates_length (vals : list (option string))
    (stamps : list (option Z)) :
  Fixture.parse_dates vals = Ok stamps ->
  List.length stamps = List.length vals.
Proof.
  revert stamps. induction vals as [|[d|] vals IH]; simpl; intros stamps.
  - intros [= <-]. reflexivity.
  - destruct (Fixture.parse_date d) as [t|]; [|discriminate].
    destruct (Fixture.parse_dates vals) as [ts|e]; simpl; [|discriminate].
    intros [= <-]. simpl. now rewrite (IH ts).
  - destruct (Fixture.parse_dates vals) as [ts|e]; simpl; [|discriminate].
    intros [= <-]. simpl. now rewrite (IH ts).
Qed.

(** The parser of [Fixture] gives one instant for each row. *)
Lemma fixture_dates_by_row (s : Series) (stamps : list (option Z)) :
  Fixture.to_datetime s = Ok stamps ->
  Series_len (DatetimeSeries stamps) = Series_len s.
Proof.
  destruct s as [v|v|v|v|v]; simpl; try discriminate.
  - intros H. unfold Series_len. now rewrite (parse_dates_length v stamps H).
  - intros [= <-]. unfold Series_len. now rewrite length_map.
  - now intros [= <-].
Qed.

Lemma quarter_well_formed : well_formed Fixture.quarter.
Proof. repeat constructor. Qed.

(** [Fixture.quarter] is rectangular before and after its analysis. *)
Lemma analysis_keeps_table_rectangular_witness :
  well_formed (fst (analyze Fixture.quarter "sales" "date" 30))
  /\ index_len (fst (analyze Fixture.quarter "sales" "date" 30))
     = index_len Fixture.quarter.
Proof.
  exact (analysis_keeps_table_rectangular Fixture.pandas_says Fixture.repr
           Fixture.to_datetime Fixture.to_numeric Fixture.acf Fixture.quarter
           "sales" "date" 30 fixture_dates_by_row quarter_well_formed).
Defined.

Definition weekly_item : item := OneColumn (Int64Series Fixture.weekly_sales).

Definition weekly_values : list float :=
  map Fixture.float_of_Z Fixture.weekly_sales.

Definition weekly_acf : list float :=
  try_except (Fixture.acf (dropna weekly_values) 40) (fun _ => []).

Lemma weekly_values_count : (50 <= List.length (dropna weekly_values))%nat.
Proof. vm_compute. repeat constructor. Qed.

Lemma weekly_acf_computed :
  Fixture.acf (dropna weekly_values) 40 = Ok weekly_acf.
Proof. reflexivity. Qed.

(** The weekly sales of [Fixture.small_shop]: 56 values, and the
    autocorrelation taken directly. *)
Lemma detector_reads_lags_7_and_28_to_31_witness :
  (check_seasonality Fixture.to_numeric Fixture.acf weekly_item = true <->
   exists k x,
     (k = 7 \/ 28 <= k <= 31)%nat
     /\ nth_error weekly_acf k = Some x
     /\ above_threshold x = true)
  /\ ((List.length weekly_acf <= 7)%nat ->
      check_seasonality Fixture.to_numeric Fixture.acf weekly_item = false).
Proof.
  exact (detector_reads_lags_7_and_28_to_31 Fixture.to_numeric Fixture.acf
           weekly_item weekly_values weekly_acf eq_refl weekly_values_count
           weekly_acf_computed).
Defined.

(** [Fixture.small_shop] with its sales replaced by a constant. *)
Lemma score_does_not_depend_on_target_values_witness :
  let df := Fixture.small_shop in
  let df2 := setitem df "sales" (Int64Series (repeat 1 56)) in
  snd (gates_1_4 Fixture.pandas_says Fixture.repr Fixture.to_datetime df2
         "sales" "date" 30)
  = snd (gates_1_4 Fixture.pandas_says Fixture.repr Fixture.to_datetime df
           "sales" "date" 30)
  /\ forall dfa dfb score score2 reasons reasons2,
       analyze df "sales" "date" 30 = (dfa, Ok (score, reasons)) ->
       analyze df2 "sales" "date" 30 = (dfb, Ok (score2, reasons2)) ->
       score2 = score
       /\ exists base,
            (reasons = base \/ reasons = (base ++ [reason_seasonality])%list)
            /\ (reasons2 = base
                \/ reasons2 = (base ++ [reason_seasonality])%list).
Proof.
  apply (score_does_not_depend_on_target_values Fixture.pandas_says Fixture.repr
           Fixture.to_datetime Fixture.to_numeric Fixture.acf
           Fixture.small_shop "sales" "date" 30 (Int64Series (repeat 1 56))).
  - exact small_shop_target.
  - discriminate.
Defined.

Example constant_sales_lose_the_note :
  snd (analyze Fixture.small_shop "sales" "date" 30)
  = Ok (1, [reason_horizon 30 27; reason_seasonality])
  /\ snd (analyze (setitem Fixture.small_shop "sales"
                     (Int64Series (repeat 1 56))) "sales" "date" 30)
     = Ok (1, [reason_horizon 30 27]).
Proof. split; vm_compute; reflexivity. Qed.

Lemma small_shop_choice :
  In "sales" (target_choices Fixture.small_shop "date").
Proof. left. reflexivity. Qed.

(** A click on [Fixture.small_shop]. *)
Lemma click_shows_one_recommendation_witness :
  exists df' score reasons,
    analyze Fixture.small_shop "sales" "date" 30 = (df', Ok (score, reasons))
    /\ on_analyze Fixture.pandas_says Fixture.repr Fixture.to_datetime
         Fixture.to_numeric Fixture.acf Fixture.small_shop "sales" "date" 30
       = (df',
          ([ Divider;
             Header "🎯 Recommendation";
             Markdown (match recommend score with
                       | AzureMachineLearning => azure_box score
                       | PowerBIAutoML => power_bi_box
                       end);
             Subheader "📝 Technical Analysis" ]
           ++ (if Nat.eqb (List.length reasons) 0
               then [Info simple_data_info]
               else map Write reasons))%list)
    /\ (forall text,
          ~ In (Error text)
               (snd (on_analyze Fixture.pandas_says Fixture.repr
                       Fixture.to_datetime Fixture.to_numeric Fixture.acf
                       Fixture.small_shop "sales" "date" 30)))
    /\ (In (Info simple_data_info)
           (snd (on_analyze Fixture.pandas_says Fixture.repr Fixture.to_datetime
                   Fixture.to_numeric Fixture.acf Fixture.small_shop
                   "sales" "date" 30))
        <-> reasons = [])
    /\ (recommend score = PowerBIAutoML ->
        reasons = [] \/ exists e, reasons = [reason_date_warning e]).
Proof.
  exact (click_shows_one_recommendation Fixture.pandas_says Fixture.repr
           Fixture.to_datetime Fixture.to_numeric Fixture.acf Fixture.small_shop
           "sales" "date" 30 small_shop_distinct small_shop_choice).
Defined.

(** The difference of the two dates of [Fixture.far_apart] is no
    [Timedelta]: the subtraction raises and gate 4 gives its warning. *)
Example dates_too_far_apart_bring_the_warning :
  analyze Fixture.far_apart "sales" "date" 30
  = (Fixture.far_apart,
     Ok (0, [("⚠️ Could not calculate Date logic: "
               ++ timedelta_out_of_bounds Fixture.pandas_says)%string])).
Proof. reflexivity. Qed.

Example click_on_small_shop :
  snd (on_analyze Fixture.pandas_says Fixture.repr Fixture.to_datetime
         Fixture.to_numeric Fixture.acf Fixture.small_shop "sales" "date" 6)
  = [ Divider;
      Header "🎯 Recommendation";
      Markdown power_bi_box;
      Subheader "📝 Technical Analysis";
      Info simple_data_info ].
Proof. vm_compute. reflexivity. Qed.

(** The conversion of [Fixture] gives one number for each row. *)
Lemma fixture_numbers_by_row (s : Series) (xs : list float) :
  Fixture.to_numeric s = Ok xs ->
  List.length xs = N.to_nat (Series_len s).
Proof.
  unfold Series_len. rewrite Nat2N.id.
  destruct s as [v|v|v|v|v]; simpl; intros [= <-];
    first [apply length_map | reflexivity].
Qed.

(** The two rows of [Fixture.quarter] score a point, and bring no
    seasonality note. *)
Lemma short_table_gets_no_seasonality_note_witness :
  ~ In reason_seasonality [reason_horizon 30 100].
Proof.
  exact (short_table_gets_no_seasonality_note Fixture.pandas_says Fixture.repr
           Fixture.to_datetime Fixture.to_numeric Fixture.acf Fixture.quarter
           quarter_parsed "sales" "date" 30 1 [reason_horizon 30 100]
           fixture_dates_by_row fixture_numbers_by_row quarter_well_formed
           eq_refl quarter_analysis).
Defined.

Lemma no_rows_well_formed : well_formed Fixture.no_rows.
Proof. repeat constructor. Qed.

Lemma no_rows_analysis :
  analyze Fixture.no_rows "sales" "date" 30
  = (setitem Fixture.no_rows "date" (DatetimeSeries []),
     Ok (1, [reason_multivariate ["price"; "promo"; "store"]])).
Proof. reflexivity. Qed.

(** [Fixture.no_rows] has three feature columns: one point, from
    gate 1. *)
Lemma empty_table_scores_on_columns_alone_witness :
  1 = fst (gate1 (feature_cols Fixture.no_rows "sales" "date") (0, []))
  /\ ([reason_multivariate ["price"; "promo"; "store"]]
      = snd (gate1 (feature_cols Fixture.no_rows "sales" "date") (0, []))
      \/ exists e,
           [reason_multivariate ["price"; "promo"; "store"]]
           = (snd (gate1 (feature_cols Fixture.no_rows "sales" "date") (0, []))
              ++ [reason_date_warning e])%list).
Proof.
  exact (empty_table_scores_on_columns_alone Fixture.pandas_says Fixture.repr
           Fixture.to_datetime Fixture.to_numeric Fixture.acf Fixture.no_rows
           (setitem Fixture.no_rows "date" (DatetimeSeries [])) "sales" "date"
           30 1 [reason_multivariate ["price"; "promo"; "store"]]
           fixture_dates_by_row fixture_numbers_by_row no_rows_well_formed
           eq_refl no_rows_analysis).
Defined.
